(** * Program registry updater: aggregation and reconciliation

    A shallow embedding of [scripts/update_program_registry.py]: the fold of
    [extract_programs_from_db] over the rows of [mint_event], and the
    read-modify-write of the registry document in [update_registry], with
    [main] on top of both.

    What is taken as given:
    - [json.loads]: a row is the Python value it returns, or [NotJson] when it
      raises.  Numbers with a fraction or an exponent (Python floats) are not
      part of the value type.
    - strings are sequences of characters with codes below 256.
    - the registry file, when it exists, holds a document of the registry
      schema ([Registry.t]); [json.load] and the key accesses of
      [update_registry] then do not raise.
    - [datetime.now()]: the readings a run takes are an argument ([clock]).
    - the timestamped progress lines written by [print] are left out; the one
      line kept is the diagnostic of the fatal path.
    - [load_env] and the body of [send_telegram_notification] are outside the
      model; [main] records whether the notifier is called, and with what. *)

From Stdlib Require Import ZArith List String Ascii Bool Lia.
From Stdlib Require Import Permutation Sorted DecimalString.
Import ListNotations.

Set Warnings "-register-all".

Local Open Scope string_scope.
Local Open Scope list_scope.
Local Open Scope Z_scope.

(* ================================================================= *)
(** ** Python values that JSON text parses to *)

Inductive json : Type :=
| JNull                                   (* None  *)
| JBool (b : bool)                        (* True / False *)
| JInt (z : Z)                            (* int *)
| JStr (s : string)                       (* str *)
| JArr (l : list json)                    (* list *)
| JObj (m : list (string * json)).        (* dict, in insertion order *)

(** The exceptions the operations below can raise; all of them derive from
    [Exception]. *)
Inductive exn : Type :=
| TypeError | AttributeError | KeyError.

Inductive result (A : Type) : Type :=
| Ok (a : A)
| Raise (e : exn).
Arguments Ok {A} a.
Arguments Raise {A} e.

(** A dict read back from JSON text has one binding per key.  In the
    association list of [JObj] the first binding of a key is the one that
    counts; later bindings of the same key are ignored everywhere. *)
Fixpoint obj_get (k : string) (m : list (string * json)) : option json :=
  match m with
  | [] => None
  | (k', v) :: m' => if String.eqb k' k then Some v else obj_get k m'
  end.

Definition obj_mem (k : string) (m : list (string * json)) : bool :=
  match obj_get k m with Some _ => true | None => false end.

(** [d[k] = v]: replaces the value in place, or adds the key at the end. *)
Fixpoint obj_set (k : string) (v : json) (m : list (string * json))
  : list (string * json) :=
  match m with
  | [] => [(k, v)]
  | (k', v') :: m' =>
      if String.eqb k' k then (k', v) :: m' else (k', v') :: obj_set k v m'
  end.

Fixpoint obj_keys_from (seen : list string) (m : list (string * json))
  : list string :=
  match m with
  | [] => []
  | (k, _) :: m' =>
      if existsb (String.eqb k) seen then obj_keys_from seen m'
      else k :: obj_keys_from (k :: seen) m'
  end.

Definition obj_keys (m : list (string * json)) : list string :=
  obj_keys_from [] m.

(** [x.get(k, default)] *)
Definition py_get (x : json) (k : string) (default : json) : result json :=
  match x with
  | JObj m => Ok (match obj_get k m with Some v => v | None => default end)
  | _ => Raise AttributeError
  end.

(** Truth value of [x] in [not x] and [if x]. *)
Definition truthy (x : json) : bool :=
  match x with
  | JNull => false
  | JBool b => b
  | JInt z => negb (z =? 0)
  | JStr s => negb (String.eqb s EmptyString)
  | JArr l => match l with [] => false | _ => true end
  | JObj m => match m with [] => false | _ => true end
  end.

(** [a == b].  [bool] is a subclass of [int]: [True == 1]. *)
Fixpoint py_eq (a b : json) {struct a} : bool :=
  match a, b with
  | JNull, JNull => true
  | JBool x, JBool y => Bool.eqb x y
  | JBool x, JInt z => Z.b2z x =? z
  | JInt z, JBool y => z =? Z.b2z y
  | JInt x, JInt y => x =? y
  | JStr s, JStr t => String.eqb s t
  | JArr l, JArr m =>
      (fix all2 (l m : list json) {struct l} : bool :=
         match l, m with
         | [], [] => true
         | x :: l', y :: m' => py_eq x y && all2 l' m'
         | _, _ => false
         end) l m
  | JObj d, JObj e =>
      (List.length (obj_keys d) =? List.length (obj_keys e))%nat &&
      (fix each (seen : list string) (d : list (string * json)) {struct d}
         : bool :=
         match d with
         | [] => true
         | (k, v) :: d' =>
             if existsb (String.eqb k) seen then each seen d'
             else match obj_get k e with
                  | Some w => py_eq v w && each (k :: seen) d'
                  | None => false
                  end
         end) [] d
  | _, _ => false
  end.

(** [a < b]; [Raise TypeError] where Python has no ordering between the
    operands.  Lists compare at their first differing position. *)
Fixpoint py_lt (a b : json) {struct a} : result bool :=
  match a, b with
  | JBool x, JBool y => Ok (Z.b2z x <? Z.b2z y)
  | JBool x, JInt z => Ok (Z.b2z x <? z)
  | JInt z, JBool y => Ok (z <? Z.b2z y)
  | JInt x, JInt y => Ok (x <? y)
  | JStr s, JStr t => Ok (String.ltb s t)
  | JArr l, JArr m =>
      (fix lex (l m : list json) {struct l} : result bool :=
         match l, m with
         | [], [] => Ok false
         | [], _ :: _ => Ok true
         | _ :: _, [] => Ok false
         | x :: l', y :: m' => if py_eq x y then lex l' m' else py_lt x y
         end) l m
  | _, _ => Raise TypeError
  end.

(** [a > b]: the reflected comparison. *)
Definition py_gt (a b : json) : result bool := py_lt b a.

(** [for x in v]: the items the iteration yields. *)
Definition py_iter (v : json) : result (list json) :=
  match v with
  | JArr l => Ok l
  | JObj m => Ok (map JStr (obj_keys m))
  | JStr s =>
      Ok (map (fun c => JStr (String c EmptyString)) (list_ascii_of_string s))
  | _ => Raise TypeError
  end.

(** [k in x] for a string [k]. *)
Definition py_contains (k : string) (x : json) : result bool :=
  match x with
  | JObj m => Ok (obj_mem k m)
  | JArr l => Ok (existsb (py_eq (JStr k)) l)
  | JStr s => Ok (match index 0 k s with Some _ => true | None => false end)
  | _ => Raise TypeError
  end.

(** [x[k]] for a string [k]. *)
Definition py_getitem (x : json) (k : string) : result json :=
  match x with
  | JObj m => match obj_get k m with Some v => Ok v | None => Raise KeyError end
  | _ => Raise TypeError
  end.

(* ----------------------------------------------------------------- *)
(** *** Hashable values: members of a [set], keys of a [dict] *)

Inductive pykey : Type :=
| KNone | KBool (b : bool) | KInt (z : Z) | KStr (s : string).

(** [hash(v)] succeeds on everything but lists and dicts. *)
Definition hashable (v : json) : result pykey :=
  match v with
  | JNull => Ok KNone
  | JBool b => Ok (KBool b)
  | JInt z => Ok (KInt z)
  | JStr s => Ok (KStr s)
  | JArr _ | JObj _ => Raise TypeError
  end.

Definition key_value (k : pykey) : json :=
  match k with
  | KNone => JNull
  | KBool b => JBool b
  | KInt z => JInt z
  | KStr s => JStr s
  end.

(** Equality of keys is Python's [==] on the values. *)
Definition key_eqb (a b : pykey) : bool := py_eq (key_value a) (key_value b).

(** [str(k)], as an f-string renders it. *)
Definition py_str (k : pykey) : string :=
  match k with
  | KNone => "None"
  | KBool true => "True"
  | KBool false => "False"
  | KInt z => NilZero.string_of_int (Z.to_int z)
  | KStr s => s
  end.

(** A [set]: its members, no two of them equal, oldest first. *)
Definition pyset : Type := list pykey.

Definition set_mem (k : pykey) (s : pyset) : bool := existsb (key_eqb k) s.

Definition set_add (k : pykey) (s : pyset) : pyset :=
  if set_mem k s then s else s ++ [k].

(** A [dict] with hashable keys, in insertion order. *)
Definition pydict (V : Type) : Type := list (pykey * V).

Fixpoint dict_get {V} (k : pykey) (d : pydict V) : option V :=
  match d with
  | [] => None
  | (k', v) :: d' => if key_eqb k' k then Some v else dict_get k d'
  end.

Fixpoint dict_set {V} (k : pykey) (v : V) (d : pydict V) : pydict V :=
  match d with
  | [] => [(k, v)]
  | (k', v') :: d' =>
      if key_eqb k' k then (k', v) :: d' else (k', v') :: dict_set k v d'
  end.

(** The order in which CPython yields the members of a set is that of its
    hash table, which for strings changes from one process to the next.  All
    that is known is that each member is yielded once. *)
Class SetIteration : Type := {
  set_iter : pyset -> list pykey;
  set_iter_perm : forall s, Permutation (set_iter s) s
}.

#[refine] Instance insertion_order : SetIteration := {| set_iter := fun s => s |}.
Proof. intro s. apply Permutation_refl. Defined.

(** Sequencing of computations that may raise. *)
Definition bind {A B} (r : result A) (k : A -> result B) : result B :=
  match r with
  | Ok a => k a
  | Raise e => Raise e
  end.

Notation "x <- e ;; k" := (bind e (fun x => k))
  (at level 61, e at next level, right associativity).

(* ================================================================= *)
(** ** The aggregator: [extract_programs_from_db] *)

(** The value the [defaultdict] holds for one program id. *)
Module Stats.
Record t : Type := mk {
  count : Z;
  sources : pyset;
  types : pyset;
  sample_tx : json;
  first_seen : json;
  last_seen : json
}.
End Stats.

Definition default_stats : Stats.t :=
  Stats.mk 0 [] [] JNull JNull JNull.

(** A statement of the loop body acts on the one [stats] object: it
    mutates it, or raises before having changed it. *)
Definition statement : Type := Stats.t -> result Stats.t.

(** [stats['count'] += 1] *)
Definition incr_count : statement := fun s =>
  Ok (Stats.mk (Stats.count s + 1) (Stats.sources s) (Stats.types s)
        (Stats.sample_tx s) (Stats.first_seen s) (Stats.last_seen s)).

(** [stats['sources'].add(source)] *)
Definition add_source (source : json) : statement := fun s =>
  k <- hashable source ;;
  Ok (Stats.mk (Stats.count s) (set_add k (Stats.sources s)) (Stats.types s)
        (Stats.sample_tx s) (Stats.first_seen s) (Stats.last_seen s)).

(** [stats['types'].add(tx_type)] *)
Definition add_type (tx_type : json) : statement := fun s =>
  k <- hashable tx_type ;;
  Ok (Stats.mk (Stats.count s) (Stats.sources s) (set_add k (Stats.types s))
        (Stats.sample_tx s) (Stats.first_seen s) (Stats.last_seen s)).

(** [if not stats['sample_tx']: stats['sample_tx'] = signature] *)
Definition set_sample_tx (signature : json) : statement := fun s =>
  if negb (truthy (Stats.sample_tx s))
  then Ok (Stats.mk (Stats.count s) (Stats.sources s) (Stats.types s)
             signature (Stats.first_seen s) (Stats.last_seen s))
  else Ok s.

(** [if not stats['first_seen'] or timestamp < stats['first_seen']:
        stats['first_seen'] = timestamp] *)
Definition set_first_seen (timestamp : json) : statement := fun s =>
  b <- (if negb (truthy (Stats.first_seen s)) then Ok true
        else py_lt timestamp (Stats.first_seen s)) ;;
  if b
  then Ok (Stats.mk (Stats.count s) (Stats.sources s) (Stats.types s)
             (Stats.sample_tx s) timestamp (Stats.last_seen s))
  else Ok s.

(** [if not stats['last_seen'] or timestamp > stats['last_seen']:
        stats['last_seen'] = timestamp] *)
Definition set_last_seen (timestamp : json) : statement := fun s =>
  b <- (if negb (truthy (Stats.last_seen s)) then Ok true
        else py_gt timestamp (Stats.last_seen s)) ;;
  if b
  then Ok (Stats.mk (Stats.count s) (Stats.sources s) (Stats.types s)
             (Stats.sample_tx s) (Stats.first_seen s) timestamp)
  else Ok s.

(** Statements run in order on the same object.  When one raises, what the
    earlier ones did to the object stays done. *)
Fixpoint run (body : list statement) (s : Stats.t) : result unit * Stats.t :=
  match body with
  | [] => (Ok tt, s)
  | stmt :: rest =>
      match stmt s with
      | Ok s' => run rest s'
      | Raise e => (Raise e, s)
      end
  end.

(** What lines 59-68 read from one parsed row. *)
Record fields : Type := mkFields {
  source : json;
  tx_type : json;
  signature : json;
  timestamp : json;
  programs : pyset
}.

(** Lines 66-68: [for ix in ...: if 'programId' in ix:
    programs.add(ix['programId'])]. *)
Fixpoint collect_programs (ixs : list json) (programs : pyset)
  : result pyset :=
  match ixs with
  | [] => Ok programs
  | ix :: rest =>
      present <- py_contains "programId" ix ;;
      if present
      then v <- py_getitem ix "programId" ;;
           k <- hashable v ;;
           collect_programs rest (set_add k programs)
      else collect_programs rest programs
  end.

(** Lines 59-68.  Nothing here touches [program_stats]. *)
Definition row_fields (tx : json) : result fields :=
  source <- py_get tx "source" (JStr "UNKNOWN") ;;
  tx_type <- py_get tx "type" (JStr "UNKNOWN") ;;
  signature <- py_get tx "signature" (JStr EmptyString) ;;
  timestamp <- py_get tx "timestamp" (JInt 0) ;;
  instructions <- py_get tx "instructions" (JArr []) ;;
  ixs <- py_iter instructions ;;
  programs <- collect_programs ixs [] ;;
  Ok (mkFields source tx_type signature timestamp programs).

(** Lines 73-81: the statements run on [stats]. *)
Definition loop_body (f : fields) : list statement :=
  [ incr_count;
    add_source (source f);
    add_type (tx_type f);
    set_sample_tx (signature f);
    set_first_seen (timestamp f);
    set_last_seen (timestamp f) ].

(** Line 72: [program_stats[pid]] on the [defaultdict]. *)
Definition stats_at (pid : pykey) (program_stats : pydict Stats.t) : Stats.t :=
  match dict_get pid program_stats with
  | Some s => s
  | None => default_stats
  end.

(** Lines 72-81 for one [pid].  The lookup of line 72 puts a missing entry
    into the dict, so the entry is there whatever happens next. *)
Definition update_stats (f : fields) (pid : pykey)
  (program_stats : pydict Stats.t) : result unit * pydict Stats.t :=
  let (r, stats') := run (loop_body f) (stats_at pid program_stats) in
  (r, dict_set pid stats' program_stats).

(** Line 71: [for pid in programs], left at the first exception. *)
Fixpoint for_each_pid (f : fields) (pids : list pykey)
  (program_stats : pydict Stats.t) : result unit * pydict Stats.t :=
  match pids with
  | [] => (Ok tt, program_stats)
  | pid :: rest =>
      match update_stats f pid program_stats with
      | (Ok _, program_stats') => for_each_pid f rest program_stats'
      | (Raise e, program_stats') => (Raise e, program_stats')
      end
  end.

(** One row of [SELECT raw_json FROM mint_event], seen through
    [json.loads(row[0])]. *)
Inductive row : Type :=
| NotJson                 (* json.loads raises *)
| Json (tx : json).

Record scan_state : Type := mkScan {
  program_stats : pydict Stats.t;
  processed : Z
}.

Definition scan_start : scan_state := mkScan [] 0.

Section Aggregator.
Context {SI : SetIteration}.

(** Lines 57-88: the [try] body, and [except Exception: pass]. *)
Definition process_row (st : scan_state) (r : row) : scan_state :=
  match r with
  | NotJson => st
  | Json tx =>
      match row_fields tx with
      | Raise _ => st
      | Ok f =>
          match for_each_pid f (set_iter (programs f)) (program_stats st) with
          | (Ok _, ps) => mkScan ps (processed st + 1)
          | (Raise _, ps) => mkScan ps (processed st)
          end
      end
  end.

Definition scan (rows : list row) : scan_state :=
  fold_left process_row rows scan_start.

Definition extract_programs_from_db (rows : list row) : pydict Stats.t :=
  program_stats (scan rows).

End Aggregator.

(* ================================================================= *)
(** ** The reconciler: [update_registry] *)

(** One object of [registry['pending_review']]. *)
Module Entry.
Record t : Type := mk {
  programId : pykey;
  count : Z;
  sources : list json;
  sample_tx : json;
  solscan_url : string;
  status : string;
  detected_at : string
}.
End Entry.

(** The registry document.  [programs] maps a program id to an object of
    curated metadata; like every dict it has one binding per key. *)
Module Registry.
Record t : Type := mk {
  programs : list (string * list (string * json));
  pending_review : list Entry.t;
  version : string;
  last_updated : string;
  total_programs : Z;
  verified_count : Z;
  pending_count : Z
}.
End Registry.

(** The readings of [datetime.now()] that end up in the document. *)
Record clock : Type := mkClock {
  detected_now : pykey -> string;   (* isoformat(), when the entry is built *)
  version_now : string;             (* strftime('%Y-%m-%d') *)
  last_updated_now : string         (* isoformat() *)
}.

(** [p['count'] = c] on a pending entry. *)
Definition set_entry_count (p : Entry.t) (c : Z) : Entry.t :=
  Entry.mk (Entry.programId p) c (Entry.sources p) (Entry.sample_tx p)
    (Entry.solscan_url p) (Entry.status p) (Entry.detected_at p).

(** Lines 129-132: the first entry with that id is updated, then [break]. *)
Fixpoint update_pending (pid : pykey) (c : Z) (pending : list Entry.t)
  : list Entry.t :=
  match pending with
  | [] => []
  | p :: rest =>
      if key_eqb (Entry.programId p) pid
      then set_entry_count p c :: rest
      else p :: update_pending pid c rest
  end.

(** [pid in registry['programs']]: the keys of a JSON object are strings. *)
Definition programs_mem (pid : pykey)
  (programs : list (string * list (string * json))) : bool :=
  existsb (fun kv => key_eqb (KStr (fst kv)) pid) programs.

(** [registry['programs'][pid]['count'] = c], for a [pid] that is a key. *)
Fixpoint set_program_count (pid : pykey) (c : Z)
  (programs : list (string * list (string * json)))
  : list (string * list (string * json)) :=
  match programs with
  | [] => []
  | (k, meta) :: rest =>
      if key_eqb (KStr k) pid
      then (k, obj_set "count" (JInt c) meta) :: rest
      else (k, meta) :: set_program_count pid c rest
  end.

(** Lines 107-108. *)
Definition existing_programs (registry : Registry.t) : pyset :=
  fold_left (fun s p => set_add (Entry.programId p) s)
    (Registry.pending_review registry)
    (fold_left (fun s kv => set_add (KStr (fst kv)) s)
       (Registry.programs registry) []).

(** [list.sort(key=lambda x: x['count'], reverse=True)]: the sort is stable,
    also with [reverse]; entries of equal count keep their order. *)
Fixpoint insert_by_count (x : Entry.t) (l : list Entry.t) : list Entry.t :=
  match l with
  | [] => [x]
  | y :: l' =>
      if Entry.count x <? Entry.count y then y :: insert_by_count x l'
      else x :: y :: l'
  end.

Fixpoint sort_by_count (l : list Entry.t) : list Entry.t :=
  match l with
  | [] => []
  | x :: l' => insert_by_count x (sort_by_count l')
  end.

(** What the loop of lines 112-132 mutates. *)
Record loop_state : Type := mkLoop {
  loop_programs : list (string * list (string * json));
  loop_pending : list Entry.t;
  new_programs : list Entry.t
}.

Inductive registry_run : Type :=
| SysExit (code : Z) (diagnostic : string)
| Returned (new_count : Z) (pending_programs : list Entry.t)
    (saved : Registry.t).

Section Reconciler.
Context {SI : SetIteration}.
Variable REGISTRY_PATH : string.

(** Lines 114-122. *)
Definition new_entry (clk : clock) (pid : pykey) (stats : Stats.t) : Entry.t :=
  Entry.mk pid (Stats.count stats)
    (map key_value (set_iter (Stats.sources stats)))
    (Stats.sample_tx stats)
    (String.append "https://solscan.io/account/" (py_str pid))
    "pending_review"
    (detected_now clk pid).

(** Lines 113-132, for one item of [program_stats.items()]. *)
Definition classify (clk : clock) (existing : pyset) (st : loop_state)
  (item : pykey * Stats.t) : loop_state :=
  let (pid, stats) := item in
  if negb (set_mem pid existing)
  then mkLoop (loop_programs st) (loop_pending st)
         (new_programs st ++ [new_entry clk pid stats])
  else if programs_mem pid (loop_programs st)
  then mkLoop (set_program_count pid (Stats.count stats) (loop_programs st))
         (loop_pending st) (new_programs st)
  else mkLoop (loop_programs st)
         (update_pending pid (Stats.count stats) (loop_pending st))
         (new_programs st).

(** Lines 103-154: the run once the document is loaded.  The result is what
    the function returns, and the document it has written. *)
Definition reconcile (clk : clock) (registry : Registry.t)
  (program_stats : pydict Stats.t) : Z * list Entry.t * Registry.t :=
  let existing := existing_programs registry in
  let st := fold_left (classify clk existing) program_stats
              (mkLoop (Registry.programs registry)
                 (Registry.pending_review registry) []) in
  let pending :=
    match new_programs st with
    | [] => loop_pending st
    | _ :: _ => sort_by_count (loop_pending st ++ new_programs st)
    end in
  (Z.of_nat (List.length (new_programs st)),
   pending,
   Registry.mk (loop_programs st) pending
     (version_now clk) (last_updated_now clk)
     (Z.of_nat (List.length program_stats))
     (Z.of_nat (List.length (loop_programs st)))
     (Z.of_nat (List.length pending))).

(** [file] is the document at [REGISTRY_PATH], [None] when the path does not
    exist (lines 99-101). *)
Definition update_registry (clk : clock) (file : option Registry.t)
  (program_stats : pydict Stats.t) : registry_run :=
  match file with
  | None =>
      SysExit 1 (String.append "ERROR: Registry not found at " REGISTRY_PATH)
  | Some registry =>
      let '(new_count, pending_programs, saved) :=
        reconcile clk registry program_stats in
      Returned new_count pending_programs saved
  end.

(* ================================================================= *)
(** ** [main] *)

(** What a run leaves behind: the exit status, the diagnostic of the fatal
    path, the document written to [REGISTRY_PATH] if one was written, and the
    arguments of the call of [send_telegram_notification] if it was called. *)
Record outcome : Type := mkOutcome {
  exit_status : Z;
  diagnostic : option string;
  written : option Registry.t;
  notified : option (Z * list Entry.t)
}.

(** Lines 214-222, with the statistics of line 212 in hand. *)
Definition main_after_extract (clk : clock) (file : option Registry.t)
  (program_stats : pydict Stats.t) : outcome :=
  match update_registry clk file program_stats with
  | SysExit code msg => mkOutcome code (Some msg) None None
  | Returned new_count pending_programs saved =>
      mkOutcome 0 None (Some saved)
        (if 0 <? new_count then Some (new_count, pending_programs) else None)
  end.

Definition main (clk : clock) (rows : list row) (file : option Registry.t)
  : outcome :=
  main_after_extract clk file (extract_programs_from_db rows).

End Reconciler.

(* ================================================================= *)
(** ** Vocabulary of the properties *)

(** *** Keys *)

(** What [hash] and [==] see of a key: [True] and [1] are the same key. *)
Inductive keyclass : Type :=
| CNone | CNum (z : Z) | CStr (s : string).

Definition key_class (k : pykey) : keyclass :=
  match k with
  | KNone => CNone
  | KBool b => CNum (Z.b2z b)
  | KInt z => CNum z
  | KStr s => CStr s
  end.

(** A dict has one binding per key. *)
Definition distinct_keys {V} (d : pydict V) : Prop :=
  NoDup (map key_class (map fst d)).

Definition same_members (a b : pyset) : Prop :=
  forall k, set_mem k a = set_mem k b.

(** *** Rows that hold a transaction record

    The record of the data model: [source], [type] and [signature] are
    strings, [timestamp] is an integer, [instructions] is a list of objects
    whose [programId], when there is one, is a string; any of the five may be
    absent. *)
Definition is_str (v : json) : bool :=
  match v with JStr _ => true | _ => false end.

Definition is_int (v : json) : bool :=
  match v with JInt _ => true | _ => false end.

Definition opt_field (p : json -> bool) (k : string)
  (m : list (string * json)) : bool :=
  match obj_get k m with Some v => p v | None => true end.

Definition instruction_ok (ix : json) : bool :=
  match ix with
  | JObj m => opt_field is_str "programId" m
  | _ => false
  end.

Definition instructions_ok (v : json) : bool :=
  match v with
  | JArr l => forallb instruction_ok l
  | _ => false
  end.

Definition transaction_record (r : row) : bool :=
  match r with
  | Json (JObj m) =>
      opt_field is_str "source" m && opt_field is_str "type" m &&
      opt_field is_str "signature" m && opt_field is_int "timestamp" m &&
      opt_field instructions_ok "instructions" m
  | _ => false
  end.

Definition record_stream (rows : list row) : Prop :=
  Forall (fun r => transaction_record r = true) rows.

(** The instructions of a record, and how many of them name [pid]. *)
Definition record_instructions (r : row) : list json :=
  match r with
  | Json (JObj m) =>
      match obj_get "instructions" m with
      | Some (JArr l) => l
      | _ => []
      end
  | _ => []
  end.

Definition instruction_names (pid : pykey) (ix : json) : bool :=
  match ix with
  | JObj m =>
      match obj_get "programId" m with
      | Some (JStr s) => key_eqb (KStr s) pid
      | _ => false
      end
  | _ => false
  end.

Definition mentions (pid : pykey) (r : row) : nat :=
  List.length (filter (instruction_names pid) (record_instructions r)).

(** What the fold reads from a row, when it gets as far as the loop over the
    program ids. *)
Definition fields_of (r : row) : option fields :=
  match r with
  | NotJson => None
  | Json tx => match row_fields tx with Ok f => Some f | Raise _ => None end
  end.

Definition references (pid : pykey) (r : row) : bool :=
  match fields_of r with
  | Some f => set_mem pid (programs f)
  | None => false
  end.

Definition row_timestamp (r : row) : json :=
  match fields_of r with Some f => timestamp f | None => JNull end.

Definition row_source (r : row) : json :=
  match fields_of r with Some f => source f | None => JNull end.

Definition row_type (r : row) : json :=
  match fields_of r with Some f => tx_type f | None => JNull end.

(** *** Statistics of one program id *)

(** Both bounds are set, and in order. *)
Definition bounded (s : Stats.t) : Prop :=
  exists a b,
    Stats.first_seen s = JInt a /\ Stats.last_seen s = JInt b /\ a <= b.

Definition all_bounded (ps : pydict Stats.t) : Prop :=
  Forall (fun item => bounded (snd item)) ps.

(** The [stats] object after the loop body has run on it. *)
Definition fold_in (f : fields) (s : Stats.t) : Stats.t :=
  snd (run (loop_body f) s).

(** The bounds lines 78-81 leave, for an integer timestamp [t]. *)
Definition lower (t : Z) (first_seen : json) : Z :=
  match first_seen with
  | JInt a => if a =? 0 then t else Z.min a t
  | _ => t
  end.

Definition upper (t : Z) (last_seen : json) : Z :=
  match last_seen with
  | JInt b => if b =? 0 then t else Z.max b t
  | _ => t
  end.

(** The timestamps of the records that reference [pid], in stream order. *)
Definition row_time (r : row) : Z :=
  match row_timestamp r with JInt t => t | _ => 0 end.

Definition stamps (pid : pykey) (rows : list row) : list Z :=
  map row_time (filter (references pid) rows).

Definition least (a : Z) (l : list Z) : Prop :=
  In a l /\ Forall (fun t => a <= t) l.

Definition greatest (b : Z) (l : list Z) : Prop :=
  In b l /\ Forall (fun t => t <= b) l.

(** [k] is the source, or the type, of [r]. *)
Definition source_is (k : pykey) (r : row) : bool :=
  match hashable (row_source r) with Ok k' => key_eqb k k' | Raise _ => false end.

Definition type_is (k : pykey) (r : row) : bool :=
  match hashable (row_type r) with Ok k' => key_eqb k k' | Raise _ => false end.

(** What the accumulator holds for [pid] after [rows], read off the rows. *)
Definition summarises (rows : list row) (pid : pykey)
  (entry : option Stats.t) : Prop :=
  match entry with
  | None => forall r, In r rows -> references pid r = false
  | Some s =>
      Stats.count s = Z.of_nat (List.length (filter (references pid) rows)) /\
      (forall k, set_mem k (Stats.sources s) =
                 existsb (fun r => references pid r && source_is k r) rows) /\
      (forall k, set_mem k (Stats.types s) =
                 existsb (fun r => references pid r && type_is k r) rows) /\
      (exists r, In r rows /\ references pid r = true) /\
      (Forall (fun t => t <> 0) (stamps pid rows) ->
       exists a b,
         Stats.first_seen s = JInt a /\ Stats.last_seen s = JInt b /\
         least a (stamps pid rows) /\ greatest b (stamps pid rows))
  end.

(** *** Reading the accumulator *)

Definition count_of (pid : pykey) (ps : pydict Stats.t) : Z :=
  match dict_get pid ps with Some s => Stats.count s | None => 0 end.

(** *** The pending list *)

Definition sorted_by_count_desc (l : list Entry.t) : Prop :=
  StronglySorted (fun a b => Entry.count b <= Entry.count a) l.

(** [p['programId'] == pid] *)
Definition has_id (pid : pykey) (p : Entry.t) : bool :=
  key_eqb (Entry.programId p) pid.

(** [registry['programs'].get(pid)] *)
Fixpoint programs_get (pid : pykey)
  (programs : list (string * list (string * json)))
  : option (list (string * json)) :=
  match programs with
  | [] => None
  | (k, meta) :: rest =>
      if key_eqb (KStr k) pid then Some meta else programs_get pid rest
  end.

Definition distinct_ids (l : list Entry.t) : Prop :=
  NoDup (map key_class (map Entry.programId l)).

(* ================================================================= *)
(** ** Concrete runs *)

Definition instr (pid : string) : json :=
  JObj [("programId", JStr pid); ("accounts", JArr [])].

Definition a_clock : clock :=
  mkClock (fun _ => "2024-05-01T10:00:00") "2024-05-01" "2024-05-01T10:00:01".

Definition pending (pid : string) (c : Z) : Entry.t :=
  Entry.mk (KStr pid) c [JStr "HELIUS"] (JStr "sig0")
    (String.append "https://solscan.io/account/" pid) "pending_review"
    "2024-04-01T00:00:00".

Definition seen (c : Z) : Stats.t :=
  Stats.mk c [KStr "HELIUS"] [KStr "SWAP"] (JStr "sig1") (JInt 10) (JInt 20).

Definition document (programs : list (string * list (string * json)))
  (pending_review : list Entry.t) : Registry.t :=
  Registry.mk programs pending_review "2024-04-01" "2024-04-01T00:00:00"
    0 (Z.of_nat (List.length programs)) (Z.of_nat (List.length pending_review)).

(** A sorted pending list whose first entry is seen less often than
    recorded, and nothing new. *)
Definition stale_registry : Registry.t :=
  document [] [pending "A" 9; pending "B" 5].

Definition stale_stats : pydict Stats.t :=
  [(KStr "A", seen 1); (KStr "B", seen 5)].

(** One known pending program and one new one. *)
Definition fresh_stats : pydict Stats.t :=
  [(KStr "A", seen 1); (KStr "N", seen 7)].

(** The scenario of the known program count refresh. *)
Definition refresh_registry : Registry.t :=
  document [("P1", [("name", JStr "Token Program"); ("count", JInt 5)])] [].

Definition refresh_stats : pydict Stats.t := [(KStr "P1", seen 40)].

(** Two pending entries of one id. *)
Definition duplicated_registry : Registry.t :=
  document [] [pending "X" 3; pending "Y" 8; pending "X" 10].

Definition duplicated_stats : pydict Stats.t :=
  [(KStr "X", seen 5); (KStr "Y", seen 2)].

(** The same, with the id also a key of [programs]. *)
Definition shadowed_registry : Registry.t :=
  document [("X", [("count", JInt 1)])] [pending "X" 3; pending "X" 10].

Definition shadowed_stats : pydict Stats.t := [(KStr "X", seen 5)].

(** Two pending entries of one id, and one new program: the sort of the
    first run puts the second duplicate first. *)
Definition twice_registry : Registry.t :=
  document [] [pending "X" 3; pending "X" 10].

Definition twice_stats : pydict Stats.t :=
  [(KStr "X", seen 5); (KStr "N", seen 1)].

(** One verified program, one pending program, one new program. *)
Definition mixed_registry : Registry.t :=
  document [("V", [("count", JInt 2)])] [pending "X" 3].

Definition mixed_stats : pydict Stats.t :=
  [(KStr "N", seen 9); (KStr "X", seen 5); (KStr "V", seen 4)].

(** A transaction record with every field present. *)
Definition record (sig : string) (t : Z) (pids : list string) : row :=
  Json (JObj [("source", JStr "HELIUS"); ("type", JStr "SWAP");
              ("signature", JStr sig); ("timestamp", JInt t);
              ("instructions", JArr (map instr pids))]).

(** Three instructions of one event name the same program. *)
Definition triple_row : row := record "sigA" 1700000000 ["P"; "P"; "P"].

(** A first sighting stamped 0. *)
Definition zero_row : row := record "sig0" 0 ["P"].

(** Valid JSON whose [source] is a list. *)
Definition unhashable_source_row : row :=
  Json (JObj [("source", JArr [JStr "HELIUS"]);
              ("instructions", JArr [instr "P"])]).

(** Two sightings of one program with different signatures; three with
    the same signature, one of them stamped 0. *)
Definition two_signatures : list row :=
  [record "sigA" 5 ["P"]; record "sigB" 7 ["P"]].

Definition zero_in_the_middle : list row :=
  [record "sig" 5 ["P"]; record "sig" 0 ["P"]; record "sig" 7 ["P"]].

Definition zero_in_front : list row :=
  [record "sig" 0 ["P"]; record "sig" 5 ["P"]; record "sig" 7 ["P"]].

(** The scenario of the fresh registry: nothing verified, nothing pending. *)
Definition fresh_registry : Registry.t := document [] [].

Definition first_stats : pydict Stats.t :=
  [(KStr "P2", Stats.mk 3 [KStr "Y"] [KStr "SWAP"] (JStr "sig2") (JInt 10) (JInt 20));
   (KStr "P1", Stats.mk 12 [KStr "X"] [KStr "SWAP"] (JStr "sig1") (JInt 10) (JInt 20))].

(* ================================================================= *)
(** ** More vocabulary, for the properties beyond the claims *)

(** The members of a set yielded newest first: another order CPython may
    take. *)
#[refine] Instance newest_first : SetIteration := {| set_iter := fun s => rev s |}.
Proof. intro s. apply Permutation_sym, Permutation_rev. Defined.

(** [s'] holds at least what [s] holds: a count no smaller, every source
    and every type of [s]. *)
Definition grows (s s' : Stats.t) : Prop :=
  Stats.count s <= Stats.count s' /\
  (forall k, set_mem k (Stats.sources s) = true ->
             set_mem k (Stats.sources s') = true) /\
  (forall k, set_mem k (Stats.types s) = true ->
             set_mem k (Stats.types s') = true).

(** What the dict holds for [k] after: at least what it held before. *)
Definition entry_kept (k : pykey) (ps ps' : pydict Stats.t) : Prop :=
  grows (stats_at k ps) (stats_at k ps') /\
  (dict_get k ps = None \/ dict_get k ps' <> None).

(** The signatures of the records that reference [pid], in stream order,
    and the first of a list of values that is truthy. *)
Definition row_signature (r : row) : json :=
  match fields_of r with Some f => signature f | None => JNull end.

Definition signatures (pid : pykey) (rows : list row) : list json :=
  map row_signature (filter (references pid) rows).

Fixpoint first_truthy (l : list json) : option json :=
  match l with
  | [] => None
  | x :: l' => if truthy x then Some x else first_truthy l'
  end.

(** The items of the aggregate whose identifier the registry does not
    know. *)
Definition unknown (registry : Registry.t) (item : pykey * Stats.t) : bool :=
  negb (set_mem (fst item) (existing_programs registry)).

(** A pending entry with its count blanked. *)
Definition without_count (p : Entry.t) : Entry.t := set_entry_count p 0.

(** One record that names two programs, after a record of the first. *)
Definition two_programs : list row :=
  [record "sig1" 5 ["P"]; record "sig2" 7 ["P"; "Q"]].

(** A record whose signature is empty, then two that are signed. *)
Definition unsigned_first : list row :=
  [record EmptyString 5 ["P"]; record "sigB" 7 ["P"]; record "sigC" 9 ["P"]].


(** A verified program, two pending ones, and an aggregate that knows one
    pending program and brings a new one. *)
Definition curated_registry : Registry.t :=
  document [("V", [("name", JStr "Vault"); ("count", JInt 2)])]
    [pending "X" 3; pending "Y" 8].

Definition curated_stats : pydict Stats.t :=
  [(KStr "N", seen 9); (KStr "X", seen 5)].


(* ================================================================= *)
(** ** [load_env] *)

(** [c.isspace()], for a character with a code below 256. *)
Definition is_space (c : ascii) : bool :=
  let n := nat_of_ascii c in
  ((9 <=? n) && (n <=? 13) || (28 <=? n) && (n <=? 32)
   || (n =? 133) || (n =? 160))%nat.

(** [s.lstrip()], [s.rstrip()] and [s.strip()]. *)
Fixpoint lstrip (s : string) : string :=
  match s with
  | String c s' => if is_space c then lstrip s' else s
  | EmptyString => EmptyString
  end.

Fixpoint rstrip (s : string) : string :=
  match s with
  | EmptyString => EmptyString
  | String c s' =>
      match rstrip s' with
      | EmptyString => if is_space c then EmptyString else String c EmptyString
      | String c' r => String c (String c' r)
      end
  end.

Definition strip (s : string) : string := rstrip (lstrip s).

(** [s.startswith(c)] and [c in s], for a character [c]. *)
Definition starts_with (c : ascii) (s : string) : bool :=
  match s with
  | String a _ => Ascii.eqb a c
  | EmptyString => false
  end.

Fixpoint has_char (c : ascii) (s : string) : bool :=
  match s with
  | String a s' => Ascii.eqb a c || has_char c s'
  | EmptyString => false
  end.

(** [s.split(c, 1)] for an [s] that holds [c]: what stands before the first
    [c], and what stands after it. *)
Fixpoint split_once (c : ascii) (s : string) : string * string :=
  match s with
  | EmptyString => (EmptyString, EmptyString)
  | String a s' =>
      if Ascii.eqb a c then (EmptyString, s')
      else let (before, after) := split_once c s' in (String a before, after)
  end.

(** [env_vars]: a dict from strings to strings, in insertion order. *)
Definition env : Type := list (string * string).

Fixpoint env_get (k : string) (e : env) : option string :=
  match e with
  | [] => None
  | (k', v) :: e' => if String.eqb k' k then Some v else env_get k e'
  end.

Fixpoint env_set (k v : string) (e : env) : env :=
  match e with
  | [] => [(k, v)]
  | (k', v') :: e' =>
      if String.eqb k' k then (k', v) :: e' else (k', v') :: env_set k v e'
  end.

(** Lines 30-33 on one line of the file: the key and the value it assigns,
    if it assigns any. *)
Definition assignment (line : string) : option (string * string) :=
  let line := strip line in
  if negb (String.eqb line EmptyString) && negb (starts_with "#" line)
     && has_char "=" line
  then let (key, value) := split_once "=" line in Some (key, strip value)
  else None.

Definition load_line (env_vars : env) (line : string) : env :=
  match assignment line with
  | Some (key, value) => env_set key value env_vars
  | None => env_vars
  end.

(** [file] holds the lines of [.env], as the iteration over the file yields
    them; it is [None] when [ENV_PATH] does not exist. *)
Definition load_env (file : option (list string)) : env :=
  match file with
  | None => []
  | Some lines => fold_left load_line lines []
  end.

(** The first character of [s] satisfies [p]. *)
Definition head_is (p : ascii -> bool) (s : string) : bool :=
  match s with
  | String c _ => p c
  | EmptyString => false
  end.

Fixpoint all_chars (p : ascii -> bool) (s : string) : bool :=
  match s with
  | String c s' => p c && all_chars p s'
  | EmptyString => true
  end.

(* ================================================================= *)
(** ** [send_telegram_notification] *)

(** [str(z)] and [format(z, ',')]. *)
Definition str_of_Z (z : Z) : string := NilZero.string_of_int (Z.to_int z).

Fixpoint group_thousands (digits : string) : string :=
  match digits with
  | EmptyString => EmptyString
  | String d rest =>
      String d
        (if ((0 <? String.length rest) && (String.length rest mod 3 =? 0))%nat
         then String "," (group_thousands rest)
         else group_thousands rest)
  end.

Definition format_thousands (z : Z) : string :=
  match Z.to_int z with
  | Decimal.Pos d => group_thousands (NilZero.string_of_uint d)
  | Decimal.Neg d => String "-" (group_thousands (NilZero.string_of_uint d))
  end.

Fixpoint without_commas (s : string) : string :=
  match s with
  | EmptyString => EmptyString
  | String c s' =>
      if Ascii.eqb c "," then without_commas s' else String c (without_commas s')
  end.

Definition newline : string := String (ascii_of_nat 10) EmptyString.

(** Line 171, for the entry of rank [i]: [pid[:8]] raises when the
    identifier is not a string. *)
Definition program_line (i : nat) (prog : Entry.t) : result string :=
  match Entry.programId prog with
  | KStr pid =>
      Ok (String.concat EmptyString
            [ str_of_Z (Z.of_nat i); ". ["; substring 0 8 pid; "...](";
              Entry.solscan_url prog; ") - ";
              format_thousands (Entry.count prog); " txs" ])
  | _ => Raise TypeError
  end.

(** Lines 166-171: [enumerate(..., i)]. *)
Fixpoint program_lines (i : nat) (progs : list Entry.t)
  : result (list string) :=
  match progs with
  | [] => Ok []
  | prog :: rest =>
      line <- program_line i prog ;;
      lines <- program_lines (S i) rest ;;
      Ok (line :: lines)
  end.

(** Lines 173-176. *)
Definition programs_text_of (program_list : list string) (total : nat)
  : string :=
  String.append (String.concat newline program_list)
    (if (20 <? total)%nat
     then String.concat EmptyString
            [ newline; newline; "_...and "; str_of_Z (Z.of_nat (total - 20));
              " more_" ]
     else EmptyString).

(** Lines 178-186.  The two pictographs stand in the literals as their
    UTF-8 encoding. *)
Definition message_of (new_count : Z) (total : nat) (programs_text : string)
  : string :=
  String.concat EmptyString
    [ "🔍 *Program Registry Update*"; newline; newline;
      "📊 *"; str_of_Z new_count; " new programs* detected"; newline;
      "📋 *"; str_of_Z (Z.of_nat total); " total* pending review"; newline;
      newline;
      "*Top programs to review:*"; newline;
      programs_text; newline; newline;
      "After classifying, commit and push to GitHub." ].

(** The JSON body and the address of the call of [requests.post]. *)
Module Request.
Record t : Type := mk {
  url : string;
  chat_id : string;
  text : string;
  parse_mode : string;
  disable_web_page_preview : bool
}.
End Request.

(** What [requests.post] does with a request: a response that is [ok], a
    response that is not, with its text, or an exception. *)
Inductive response : Type :=
| Accepted
| Rejected (body : string)
| PostRaised.

(** The line the notifier prints before it returns. *)
Inductive notice : Type :=
| CredentialsNotFound
| NotificationSent (req : Request.t)
| NotificationFailed (req : Request.t) (body : string)
| NotificationError (req : Request.t).

(** [not env_vars.get(name)] *)
Definition unset (name : string) (env_vars : env) : bool :=
  match env_get name env_vars with
  | Some v => String.eqb v EmptyString
  | None => true
  end.

Definition value_of (name : string) (env_vars : env) : string :=
  match env_get name env_vars with
  | Some v => v
  | None => EmptyString
  end.

Definition send_telegram_notification (post : Request.t -> response)
  (new_count : Z) (pending_programs : list Entry.t) (env_vars : env)
  : result notice :=
  if unset "TELEGRAM_BOT_TOKEN" env_vars || unset "TELEGRAM_CHAT_ID" env_vars
  then Ok CredentialsNotFound
  else
    program_list <- program_lines 1 (firstn 20 pending_programs) ;;
    let total := List.length pending_programs in
    let message :=
      message_of new_count total (programs_text_of program_list total) in
    let req :=
      Request.mk
        (String.concat EmptyString
           [ "https://api.telegram.org/bot";
             value_of "TELEGRAM_BOT_TOKEN" env_vars; "/sendMessage" ])
        (value_of "TELEGRAM_CHAT_ID" env_vars) message "Markdown" true in
    Ok (match post req with
        | Accepted => NotificationSent req
        | Rejected body => NotificationFailed req body
        | PostRaised => NotificationError req
        end).

(* ================================================================= *)
(** ** The whole of [main], as a process

    What the process finds when it starts, failures included: the reads of
    lines 27-29, 40-56 and 103-104 and the [open] of line 149 are outside
    any handler, so an exception there ends the process with a traceback
    and status 1. *)

(** [.env]: absent; a text file that yields its lines; or a file that
    [open], or the decoding of a line, refuses. *)
Inductive env_source : Type :=
| NoEnvFile
| EnvFile (lines : list string)
| EnvUnreadable.

(** One step of the cursor at line 56: a row, or an exception (a text that
    is not UTF-8, an error of the database). *)
Inductive cell : Type :=
| Cell (r : row)
| FetchFails.

(** The database: [connect], [cursor] or [execute] of lines 40-53 raises,
    or the cursor is open on the column [raw_json] of [mint_event]. *)
Inductive database : Type :=
| Unavailable
| Table (cells : list cell).

(** The registry file: absent; refused by [open] or [json.load] at lines
    103-104; or a document, which line 149 can open for writing or not. *)
Inductive registry_source : Type :=
| NoRegistry
| Unloadable
| Loaded (registry : Registry.t) (writable : bool).

(** Line 209.  [None]: the exception goes through. *)
Definition read_env (src : env_source) : option env :=
  match src with
  | NoEnvFile => Some (load_env None)
  | EnvFile lines => Some (load_env (Some lines))
  | EnvUnreadable => None
  end.

(** Lines 56-88 on the cursor: rows are folded in as they are fetched; a
    fetch that raises ends the function, and takes the accumulator with
    it. *)
Fixpoint scan_cursor {SI : SetIteration} (cells : list cell) (st : scan_state)
  : option scan_state :=
  match cells with
  | [] => Some st
  | Cell r :: rest => scan_cursor rest (process_row st r)
  | FetchFails :: _ => None
  end.

(** Line 212. *)
Definition extract_from {SI : SetIteration} (db : database)
  : option (pydict Stats.t) :=
  match db with
  | Unavailable => None
  | Table cells => option_map program_stats (scan_cursor cells scan_start)
  end.

(** How the process ends: its exit status, the document written to
    [REGISTRY_PATH] if one was written, the arguments of the call of line
    219 if the call was made, and the last line of the notifier if it
    returned. *)
Record report : Type := mkReport {
  final_status : Z;
  final_written : option Registry.t;
  final_call : option (Z * list Entry.t);
  final_notice : option notice
}.

(** An exception nobody handles, before anything is written. *)
Definition traceback : report := mkReport 1 None None None.

(** Lines 205-222. *)
Definition process {SI : SetIteration} (post : Request.t -> response)
  (clk : clock) (env_src : env_source) (db : database)
  (reg : registry_source) : report :=
  match read_env env_src with
  | None => traceback
  | Some env_vars =>
      match extract_from db with
      | None => traceback
      | Some program_stats =>
          match reg with
          | NoRegistry => mkReport 1 None None None      (* sys.exit(1) *)
          | Unloadable => traceback
          | Loaded registry writable =>
              let '(new_count, pending_programs, saved) :=
                reconcile clk registry program_stats in
              if negb writable then traceback
              else if 0 <? new_count then
                match
                  send_telegram_notification post new_count pending_programs
                    env_vars
                with
                | Ok n =>
                    mkReport 0 (Some saved)
                      (Some (new_count, pending_programs)) (Some n)
                | Raise _ =>
                    mkReport 1 (Some saved)
                      (Some (new_count, pending_programs)) None
                end
              else mkReport 0 (Some saved) None None
          end
      end
  end.

(** The rows of a cursor every step of which succeeds. *)
Fixpoint fetched (cells : list cell) : option (list row) :=
  match cells with
  | [] => Some []
  | Cell r :: rest => option_map (cons r) (fetched rest)
  | FetchFails :: _ => None
  end.

(** The row gets as far as the loop over the program ids. *)
Definition reaches_loop (r : row) : bool :=
  match fields_of r with Some _ => true | None => false end.

(** A [.env] with both credentials, and one without the chat id. *)
Definition env_lines : list string :=
  [ String.append "# telegram" newline;
    String.append "TELEGRAM_BOT_TOKEN=123:abc " newline;
    newline;
    String.append "  TELEGRAM_CHAT_ID=-1001" newline ].

Definition pending_with_number : Entry.t :=
  Entry.mk (KInt 7) 4 [] JNull "https://solscan.io/account/7"
    "pending_review" "2024-04-01T00:00:00".


(** [pid[:8]] is defined: the identifier of the entry is a string. *)
Definition string_id (p : Entry.t) : bool :=
  match Entry.programId p with KStr _ => true | _ => false end.

(** Both credentials are in [env_vars], and neither is empty. *)
Definition credentials (env_vars : env) : bool :=
  negb (unset "TELEGRAM_BOT_TOKEN" env_vars || unset "TELEGRAM_CHAT_ID" env_vars).

(** The request an outcome of the notifier carries, if it carries one. *)
Definition request_of (n : notice) : option Request.t :=
  match n with
  | CredentialsNotFound => None
  | NotificationSent req | NotificationFailed req _ | NotificationError req =>
      Some req
  end.

(** The line the notifier prints, for what [requests.post] did. *)
Definition notice_for (req : Request.t) (r : response) : notice :=
  match r with
  | Accepted => NotificationSent req
  | Rejected body => NotificationFailed req body
  | PostRaised => NotificationError req
  end.

(** A registry whose only pending entry has a number for identifier. *)
Definition numbered_registry : Registry.t := document [] [pending_with_number].

(** A network that is down. *)
Definition no_network (req : Request.t) : response := PostRaised.


(* ================================================================= *)
(** * Proofs *)

(* ================================================================= *)
(** ** The definitions at work *)

Example true_is_one : py_eq (JBool true) (JInt 1) = true.
Proof. reflexivity. Qed.

Example dicts_compare_unordered :
  py_eq (JObj [("a", JInt 1); ("b", JInt 2)])
        (JObj [("b", JInt 2); ("a", JBool true)]) = true.
Proof. reflexivity. Qed.

Example lists_compare_at_first_difference :
  py_lt (JArr [JInt 1; JStr "a"]) (JArr [JBool true; JStr "b"; JNull]) = Ok true
  /\ py_lt (JArr [JInt 1; JStr "a"]) (JArr [JInt 1; JInt 2]) = Raise TypeError.
Proof. split; reflexivity. Qed.

Example no_order_on_none : py_lt JNull JNull = Raise TypeError.
Proof. reflexivity. Qed.

Example str_of_int : py_str (KInt (-15)) = "-15" /\ py_str (KInt 0) = "0".
Proof. split; reflexivity. Qed.

Example instructions_as_text_name_nothing :
  option_map programs (fields_of (Json (JObj [("instructions", JStr "abc")])))
  = Some [].
Proof. reflexivity. Qed.

Example row_that_is_a_list_is_skipped :
  fields_of (Json (JArr [JInt 1])) = None.
Proof. reflexivity. Qed.

Example sort_is_stable :
  map Entry.programId
    (sort_by_count [pending "A" 5; pending "B" 9; pending "C" 5; pending "D" 9])
  = [KStr "B"; KStr "D"; KStr "A"; KStr "C"].
Proof. reflexivity. Qed.

(** The scenario of the fresh registry: both programs are appended, the list
    is sorted, two programs are new and none is verified. *)
Example fresh_registry_scenario :
  let '(new_count, pending_programs, saved) :=
    reconcile (SI := insertion_order) a_clock fresh_registry first_stats in
  new_count = 2 /\
  map (fun p => (Entry.programId p, Entry.count p)) pending_programs =
    [(KStr "P1", 12); (KStr "P2", 3)] /\
  Registry.verified_count saved = 0 /\ Registry.pending_count saved = 2.
Proof. repeat split. Qed.

(** A record whose three instructions name [P] and one names [Q]. *)
Example one_record_folded :
  map (fun item => (fst item, Stats.count (snd item)))
    (extract_programs_from_db (SI := insertion_order)
       [record "sigA" 5 ["P"; "Q"; "P"; "P"]])
  = [(KStr "P", 1); (KStr "Q", 1)].
Proof. reflexivity. Qed.

(* ================================================================= *)
(** ** Keys, sets and dicts *)

Lemma key_eqb_class (a b : pykey) :
  key_eqb a b = true <-> key_class a = key_class b.
Proof.
  unfold key_eqb.
  destruct a as [|[]|x|s], b as [|[]|y|t];
    cbn [py_eq key_value key_class Z.b2z Bool.eqb];
    rewrite ?Z.eqb_eq, ?String.eqb_eq;
    split; intro H; try discriminate; try reflexivity; try congruence.
Qed.

Lemma key_eqb_differ (a b : pykey) :
  key_eqb a b = false <-> key_class a <> key_class b.
Proof.
  rewrite <- key_eqb_class. destruct (key_eqb a b); split; congruence.
Qed.

(** Turns every test on keys in sight into a fact about classes. *)
Ltac key_facts :=
  repeat match goal with
    | H : key_eqb _ _ = true |- _ => apply key_eqb_class in H
    | H : key_eqb _ _ = false |- _ => apply key_eqb_differ in H
    end.

Ltac key_cases :=
  repeat match goal with
    | |- context [key_eqb ?a ?b] =>
        let E := fresh "E" in destruct (key_eqb a b) eqn:E
    end;
  key_facts; try congruence.

Lemma key_eqb_refl (a : pykey) : key_eqb a a = true.
Proof. apply key_eqb_class. reflexivity. Qed.

Lemma key_eqb_sym (a b : pykey) : key_eqb a b = key_eqb b a.
Proof. key_cases. Qed.

Lemma key_eqb_left (a b c : pykey) :
  key_class a = key_class b -> key_eqb a c = key_eqb b c.
Proof. intro H. key_cases. Qed.

Lemma key_eqb_right (a b c : pykey) :
  key_class a = key_class b -> key_eqb c a = key_eqb c b.
Proof. intro H. key_cases. Qed.

Lemma set_mem_class (k : pykey) (s : pyset) :
  set_mem k s = true <-> In (key_class k) (map key_class s).
Proof.
  unfold set_mem. rewrite existsb_exists, in_map_iff. split.
  - intros [x [Hx E]]. exists x. key_facts. split; [congruence | exact Hx].
  - intros [x [E Hx]]. exists x. split; [exact Hx |].
    apply key_eqb_class. congruence.
Qed.

Lemma set_mem_compat (a b : pykey) (s : pyset) :
  key_class a = key_class b -> set_mem a s = set_mem b s.
Proof.
  intro H. unfold set_mem. induction s as [|x s IH]; simpl; [reflexivity |].
  rewrite IH, (key_eqb_left a b x H). reflexivity.
Qed.

Lemma set_mem_add (k x : pykey) (s : pyset) :
  set_mem k (set_add x s) = key_eqb k x || set_mem k s.
Proof.
  unfold set_add. destruct (set_mem x s) eqn:M.
  - destruct (key_eqb k x) eqn:E; [| reflexivity].
    key_facts. rewrite (set_mem_compat k x s E), M. reflexivity.
  - unfold set_mem. rewrite existsb_app. simpl.
    rewrite orb_false_r. apply orb_comm.
Qed.

Lemma set_add_distinct (x : pykey) (s : pyset) :
  NoDup (map key_class s) -> NoDup (map key_class (set_add x s)).
Proof.
  intro H. unfold set_add. destruct (set_mem x s) eqn:M; [exact H |].
  rewrite map_app. simpl.
  apply (Permutation_NoDup (l := key_class x :: map key_class s)).
  - apply Permutation_cons_append.
  - constructor; [| exact H].
    intro I. apply set_mem_class in I. congruence.
Qed.

Lemma dict_get_set {V} (k k' : pykey) (v : V) (d : pydict V) :
  dict_get k (dict_set k' v d) = if key_eqb k' k then Some v else dict_get k d.
Proof.
  induction d as [|[k0 v0] d IH]; simpl; [reflexivity |].
  destruct (key_eqb k0 k') eqn:E0; simpl.
  - key_facts. rewrite (key_eqb_left k0 k' k E0).
    destruct (key_eqb k' k); reflexivity.
  - rewrite IH. destruct (key_eqb k0 k) eqn:E1; [| reflexivity].
    key_cases.
Qed.

Lemma dict_get_some_in {V} (k : pykey) (v : V) (d : pydict V) :
  dict_get k d = Some v -> exists k', In (k', v) d /\ key_class k' = key_class k.
Proof.
  induction d as [|[k0 v0] d IH]; simpl; [discriminate |].
  destruct (key_eqb k0 k) eqn:E.
  - intro H. inversion H; subst. exists k0. key_facts. auto.
  - intro H. destruct (IH H) as [k' [I C]]. exists k'. auto.
Qed.

Lemma dict_get_in {V} (k : pykey) (v : V) (d : pydict V) :
  distinct_keys d -> In (k, v) d -> dict_get k d = Some v.
Proof.
  unfold distinct_keys. induction d as [|[k0 v0] d IH]; simpl; [tauto |].
  intros N [E | I].
  - inversion E; subst. rewrite key_eqb_refl. reflexivity.
  - inversion N as [|? ? Hn N']; subst.
    destruct (key_eqb k0 k) eqn:E; [| apply IH; assumption].
    key_facts. exfalso. apply Hn. rewrite E.
    apply in_map, (in_map fst _ (k, v)), I.
Qed.

Lemma dict_set_keys {V} (k : pykey) (v : V) (d : pydict V) :
  map key_class (map fst (dict_set k v d)) =
  if set_mem k (map fst d) then map key_class (map fst d)
  else map key_class (map fst d) ++ [key_class k].
Proof.
  induction d as [|[k0 v0] d IH]; simpl; [reflexivity |].
  rewrite (key_eqb_sym k k0).
  destruct (key_eqb k0 k) eqn:E; simpl; [reflexivity |].
  rewrite IH. unfold set_mem. destruct (existsb (key_eqb k) (map fst d)); reflexivity.
Qed.

Lemma dict_set_distinct {V} (k : pykey) (v : V) (d : pydict V) :
  distinct_keys d -> distinct_keys (dict_set k v d).
Proof.
  unfold distinct_keys. intro N. rewrite dict_set_keys.
  destruct (set_mem k (map fst d)) eqn:M; [exact N |].
  apply (Permutation_NoDup (l := key_class k :: map key_class (map fst d))).
  - apply Permutation_cons_append.
  - constructor; [| exact N].
    intro I. apply set_mem_class in I. congruence.
Qed.

(* ================================================================= *)
(** ** The sort of the pending list *)

Lemma insert_by_count_perm (x : Entry.t) (l : list Entry.t) :
  Permutation (insert_by_count x l) (x :: l).
Proof.
  induction l as [|y l IH]; simpl; [apply Permutation_refl |].
  destruct (Entry.count x <? Entry.count y).
  - rewrite IH. apply perm_swap.
  - apply Permutation_refl.
Qed.

Lemma sort_by_count_perm (l : list Entry.t) :
  Permutation (sort_by_count l) l.
Proof.
  induction l as [|x l IH]; simpl; [apply perm_nil |].
  rewrite insert_by_count_perm. apply perm_skip, IH.
Qed.

Lemma insert_by_count_sorted (x : Entry.t) (l : list Entry.t) :
  sorted_by_count_desc l -> sorted_by_count_desc (insert_by_count x l).
Proof.
  unfold sorted_by_count_desc. induction l as [|y l IH]; simpl; intro S.
  - constructor; constructor.
  - inversion S as [|? ? S' F]; subst.
    destruct (Entry.count x <? Entry.count y) eqn:C.
    + apply Z.ltb_lt in C. constructor; [apply IH, S' |].
      apply (Permutation_Forall (Permutation_sym (insert_by_count_perm x l))).
      constructor; [lia | exact F].
    + apply Z.ltb_ge in C. constructor; [exact S |].
      constructor; [exact C |].
      apply (Forall_impl _ (P := fun b => Entry.count b <= Entry.count y));
        [intros b Hb; lia | exact F].
Qed.

Lemma sort_by_count_sorted (l : list Entry.t) :
  sorted_by_count_desc (sort_by_count l).
Proof.
  induction l as [|x l IH]; simpl.
  - constructor.
  - apply insert_by_count_sorted, IH.
Qed.

(* ================================================================= *)
(** ** The loop of the reconciler *)

Section ReconcilerFacts.
Context {SI : SetIteration}.

Lemma update_pending_ids (pid : pykey) (c : Z) (l : list Entry.t) :
  map Entry.programId (update_pending pid c l) = map Entry.programId l.
Proof.
  induction l as [|p l IH]; simpl; [reflexivity |].
  destruct (key_eqb (Entry.programId p) pid); simpl; [| rewrite IH]; reflexivity.
Qed.

Lemma set_program_count_keys (pid : pykey) (c : Z)
  (progs : list (string * list (string * json))) :
  map fst (set_program_count pid c progs) = map fst progs.
Proof.
  induction progs as [|[k meta] progs IH]; simpl; [reflexivity |].
  destruct (key_eqb (KStr k) pid); simpl; [| rewrite IH]; reflexivity.
Qed.

Lemma programs_mem_keys (pid : pykey)
  (progs progs' : list (string * list (string * json))) :
  map fst progs = map fst progs' ->
  programs_mem pid progs = programs_mem pid progs'.
Proof.
  unfold programs_mem. revert progs'.
  induction progs as [|[k m] progs IH]; intros [|[k' m'] progs'] E;
    simpl in *; try discriminate; [reflexivity |].
  inversion E; subst. rewrite (IH progs'); auto.
Qed.

(** The loop changes neither the ids of the pending list nor the keys of
    [programs]. *)
Lemma classify_frame (clk : clock) (existing : pyset)
  (items : pydict Stats.t) (st : loop_state) :
  map Entry.programId (loop_pending (fold_left (classify clk existing) items st))
  = map Entry.programId (loop_pending st)
  /\ map fst (loop_programs (fold_left (classify clk existing) items st))
     = map fst (loop_programs st).
Proof.
  revert st. induction items as [|[pid stats] items IH]; intro st;
    cbn [fold_left]; [split; reflexivity |].
  destruct (IH (classify clk existing st (pid, stats))) as [E1 E2].
  rewrite E1, E2. unfold classify.
  destruct (negb (set_mem pid existing)); simpl; [split; reflexivity |].
  destruct (programs_mem pid (loop_programs st)); simpl.
  - split; [reflexivity | apply set_program_count_keys].
  - split; [apply update_pending_ids | reflexivity].
Qed.

Lemma obj_get_set_same (k : string) (v : json) (m : list (string * json)) :
  obj_get k (obj_set k v m) = Some v.
Proof.
  induction m as [|[k0 v0] m IH]; simpl.
  - rewrite String.eqb_refl. reflexivity.
  - destruct (String.eqb k0 k) eqn:E; simpl; rewrite E; [reflexivity | exact IH].
Qed.

Lemma obj_get_set_other (k k' : string) (v : json) (m : list (string * json)) :
  k' <> k -> obj_get k' (obj_set k v m) = obj_get k' m.
Proof.
  intro D. induction m as [|[k0 v0] m IH]; simpl.
  - apply String.eqb_neq in D. rewrite String.eqb_sym, D. reflexivity.
  - destruct (String.eqb k0 k) eqn:E; simpl.
    + apply String.eqb_eq in E. subst k0.
      destruct (String.eqb k k') eqn:E'; [| reflexivity].
      apply String.eqb_eq in E'. congruence.
    + rewrite IH. reflexivity.
Qed.

Lemma obj_set_same (k : string) (v : json) (m : list (string * json)) :
  obj_get k m = Some v -> obj_set k v m = m.
Proof.
  induction m as [|[k0 v0] m IH]; simpl; [discriminate |].
  destruct (String.eqb k0 k).
  - intro H. inversion H. reflexivity.
  - intro H. rewrite (IH H). reflexivity.
Qed.

Lemma set_entry_count_same (p : Entry.t) :
  set_entry_count p (Entry.count p) = p.
Proof. destruct p. reflexivity. Qed.

Lemma has_id_set_count (pid : pykey) (p : Entry.t) (c : Z) :
  has_id pid (set_entry_count p c) = has_id pid p.
Proof. reflexivity. Qed.

Lemma programs_mem_get (pid : pykey)
  (progs : list (string * list (string * json))) :
  programs_mem pid progs =
  match programs_get pid progs with Some _ => true | None => false end.
Proof.
  unfold programs_mem. induction progs as [|[k m] progs IH]; simpl;
    [reflexivity |].
  destruct (key_eqb (KStr k) pid); simpl; [reflexivity | exact IH].
Qed.

Lemma programs_mem_compat (a b : pykey)
  (progs : list (string * list (string * json))) :
  key_class a = key_class b -> programs_mem a progs = programs_mem b progs.
Proof.
  intro H. unfold programs_mem. induction progs as [|[k m] progs IH]; simpl;
    [reflexivity |].
  rewrite IH, (key_eqb_right a b (KStr k) H). reflexivity.
Qed.

Lemma programs_get_set_other (pid pid' : pykey) (c : Z)
  (progs : list (string * list (string * json))) :
  key_class pid' <> key_class pid ->
  programs_get pid (set_program_count pid' c progs) = programs_get pid progs.
Proof.
  intro D. induction progs as [|[k m] progs IH]; simpl; [reflexivity |].
  destruct (key_eqb (KStr k) pid') eqn:E; simpl.
  - destruct (key_eqb (KStr k) pid) eqn:E'; [| reflexivity].
    key_facts. congruence.
  - rewrite IH. reflexivity.
Qed.

Lemma programs_get_set_same (pid pid' : pykey) (c : Z)
  (progs : list (string * list (string * json))) :
  key_class pid' = key_class pid ->
  programs_get pid (set_program_count pid' c progs) =
  option_map (obj_set "count" (JInt c)) (programs_get pid progs).
Proof.
  intro D. induction progs as [|[k m] progs IH]; simpl; [reflexivity |].
  rewrite (key_eqb_right pid' pid (KStr k) D).
  destruct (key_eqb (KStr k) pid) eqn:E; simpl; rewrite E; [reflexivity | exact IH].
Qed.

Lemma set_program_count_settled (pid : pykey) (c : Z)
  (progs : list (string * list (string * json)))
  (meta : list (string * json)) :
  programs_get pid progs = Some meta ->
  obj_get "count" meta = Some (JInt c) ->
  set_program_count pid c progs = progs.
Proof.
  induction progs as [|[k m] progs IH]; simpl; [discriminate |].
  destruct (key_eqb (KStr k) pid).
  - intros H G. inversion H; subst. rewrite (obj_set_same _ _ _ G). reflexivity.
  - intros H G. rewrite (IH H G). reflexivity.
Qed.

Lemma filter_update_other (pid pid' : pykey) (c : Z) (l : list Entry.t) :
  key_class pid' <> key_class pid ->
  filter (has_id pid) (update_pending pid' c l) = filter (has_id pid) l.
Proof.
  intro D. induction l as [|p l IH]; simpl; [reflexivity |].
  destruct (key_eqb (Entry.programId p) pid') eqn:E; simpl.
  - rewrite has_id_set_count. unfold has_id.
    destruct (key_eqb (Entry.programId p) pid) eqn:E'; [| reflexivity].
    key_facts. congruence.
  - rewrite IH. reflexivity.
Qed.

Lemma filter_update_same (pid pid' : pykey) (c : Z) (l : list Entry.t) :
  key_class pid' = key_class pid ->
  filter (has_id pid) (update_pending pid' c l) =
  update_pending pid' c (filter (has_id pid) l).
Proof.
  intro D. induction l as [|p l IH]; cbn [filter update_pending]; [reflexivity |].
  assert (H : has_id pid p = key_eqb (Entry.programId p) pid')
    by (unfold has_id; apply key_eqb_right; symmetry; exact D).
  destruct (key_eqb (Entry.programId p) pid') eqn:E; cbn [filter].
  - rewrite has_id_set_count, H. cbn [update_pending]. rewrite E. reflexivity.
  - rewrite H. exact IH.
Qed.

Lemma set_mem_fold_add {A} (f : A -> pykey) (k : pykey) (l : list A) (s : pyset) :
  set_mem k (fold_left (fun s x => set_add (f x) s) l s) =
  set_mem k s || existsb (fun x => key_eqb (f x) k) l.
Proof.
  revert s. induction l as [|x l IH]; intro s; simpl.
  - rewrite orb_false_r. reflexivity.
  - rewrite IH, set_mem_add, (key_eqb_sym k (f x)).
    destruct (key_eqb (f x) k), (set_mem k s); reflexivity.
Qed.

(** Lines 107-108: the known identifiers are the keys of [programs] and the
    ids of [pending_review]. *)
Lemma existing_programs_mem (pid : pykey) (registry : Registry.t) :
  set_mem pid (existing_programs registry) =
  programs_mem pid (Registry.programs registry)
  || existsb (has_id pid) (Registry.pending_review registry).
Proof.
  unfold existing_programs.
  rewrite (set_mem_fold_add Entry.programId), (set_mem_fold_add (fun kv => KStr (fst kv))).
  reflexivity.
Qed.

Lemma Permutation_filter {A} (f : A -> bool) (l l' : list A) :
  Permutation l l' -> Permutation (filter f l) (filter f l').
Proof.
  induction 1 as [| x l l' _ IH | x y l | l l' l'' _ IH1 _ IH2]; simpl.
  - apply perm_nil.
  - destruct (f x); [apply perm_skip |]; exact IH.
  - destruct (f x), (f y); try apply Permutation_refl. apply perm_swap.
  - exact (perm_trans IH1 IH2).
Qed.

(** The entries appended by a run: one for each aggregated identifier that
    is not known, in the order of the aggregate. *)
Lemma classify_new_programs (clk : clock) (existing : pyset)
  (items : pydict Stats.t) (st : loop_state) :
  new_programs (fold_left (classify clk existing) items st) =
  new_programs st ++
  map (fun item => new_entry clk (fst item) (snd item))
    (filter (fun item => negb (set_mem (fst item) existing)) items).
Proof.
  revert st. induction items as [|[pid stats] items IH]; intro st;
    cbn [fold_left]; [simpl; rewrite app_nil_r; reflexivity |].
  rewrite IH. unfold classify. simpl.
  destruct (negb (set_mem pid existing)); simpl.
  - rewrite <- app_assoc. reflexivity.
  - destruct (programs_mem pid (loop_programs st)); reflexivity.
Qed.

(** Items of other identifiers leave what the registry holds for [pid]
    alone. *)
Lemma classify_others (clk : clock) (existing : pyset) (pid : pykey)
  (items : pydict Stats.t) (st : loop_state) :
  Forall (fun item => key_class (fst item) <> key_class pid) items ->
  programs_get pid (loop_programs (fold_left (classify clk existing) items st))
  = programs_get pid (loop_programs st)
  /\ filter (has_id pid)
       (loop_pending (fold_left (classify clk existing) items st))
     = filter (has_id pid) (loop_pending st).
Proof.
  revert st. induction items as [|[pid' stats] items IH]; intros st F;
    cbn [fold_left]; [split; reflexivity |].
  inversion F as [|? ? D F']; subst. simpl in D.
  destruct (IH (classify clk existing st (pid', stats)) F') as [E1 E2].
  rewrite E1, E2. unfold classify.
  destruct (negb (set_mem pid' existing)); simpl; [split; reflexivity |].
  destruct (programs_mem pid' (loop_programs st)); simpl.
  - split; [apply programs_get_set_other, D | reflexivity].
  - split; [reflexivity | apply filter_update_other, D].
Qed.

(** In a dict every other item has another key. *)
Lemma distinct_keys_split {V} (k : pykey) (v : V) (d : pydict V) :
  distinct_keys d -> In (k, v) d ->
  exists l1 l2,
    d = l1 ++ (k, v) :: l2 /\
    Forall (fun item => key_class (fst item) <> key_class k) l1 /\
    Forall (fun item => key_class (fst item) <> key_class k) l2.
Proof.
  intros N I. destruct (in_split _ _ I) as [l1 [l2 E]]. subst d.
  exists l1, l2. split; [reflexivity |].
  unfold distinct_keys in N. rewrite !map_app in N. simpl in N.
  apply NoDup_remove_2 in N.
  split; apply Forall_forall; intros [k' v'] I' C; apply N, in_or_app;
    [left | right]; simpl in C; rewrite <- C;
    apply in_map, (in_map fst _ (k', v')), I'.
Qed.

Lemma dict_get_split {V} (pid : pykey) (v : V) (d : pydict V) :
  distinct_keys d -> dict_get pid d = Some v ->
  exists k l1 l2,
    d = l1 ++ (k, v) :: l2 /\ key_class k = key_class pid /\
    Forall (fun item => key_class (fst item) <> key_class pid) l1 /\
    Forall (fun item => key_class (fst item) <> key_class pid) l2.
Proof.
  intros N G. destruct (dict_get_some_in _ _ _ G) as [k [I C]].
  destruct (distinct_keys_split k v d N I) as [l1 [l2 [E [F1 F2]]]].
  exists k, l1, l2. rewrite <- C. auto.
Qed.

(** What the loop does to the [programs] entry and to the pending entries
    of an aggregated identifier that is known. *)
Lemma classify_known (clk : clock) (registry : Registry.t) (pid : pykey)
  (stats : Stats.t) (items : pydict Stats.t) :
  distinct_keys items -> dict_get pid items = Some stats ->
  set_mem pid (existing_programs registry) = true ->
  let st := fold_left (classify clk (existing_programs registry)) items
              (mkLoop (Registry.programs registry)
                 (Registry.pending_review registry) []) in
  if programs_mem pid (Registry.programs registry)
  then programs_get pid (loop_programs st) =
       option_map (obj_set "count" (JInt (Stats.count stats)))
         (programs_get pid (Registry.programs registry))
       /\ filter (has_id pid) (loop_pending st) =
          filter (has_id pid) (Registry.pending_review registry)
  else programs_get pid (loop_programs st) = None
       /\ filter (has_id pid) (loop_pending st) =
          update_pending pid (Stats.count stats)
            (filter (has_id pid) (Registry.pending_review registry)).
Proof.
  intros N G K st.
  destruct (dict_get_split pid stats items N G) as [k [l1 [l2 [E [C [F1 F2]]]]]].
  subst st. rewrite E, fold_left_app. cbn [fold_left].
  set (st0 := mkLoop _ _ _).
  set (st1 := fold_left _ l1 st0).
  destruct (classify_others clk (existing_programs registry) pid l1 st0 F1)
    as [P1 L1]. fold st1 in P1, L1.
  destruct (classify_frame clk (existing_programs registry) l1 st0)
    as [_ K1]. fold st1 in K1.
  set (st2 := classify _ _ st1 (k, stats)).
  destruct (classify_others clk (existing_programs registry) pid l2 st2 F2)
    as [P2 L2]. rewrite P2, L2. clear P2 L2.
  assert (M : programs_mem k (loop_programs st1) =
              programs_mem pid (Registry.programs registry)).
  { rewrite (programs_mem_compat k pid _ C). apply programs_mem_keys, K1. }
  subst st2. unfold classify.
  rewrite (set_mem_compat k pid _ C), K. cbn [negb]. rewrite M.
  pose proof (programs_mem_get pid (Registry.programs registry)) as Mg.
  destruct (programs_mem pid (Registry.programs registry));
    cbn [loop_programs loop_pending].
  - rewrite (programs_get_set_same pid k _ _ C), P1.
    split; [reflexivity | exact L1].
  - split.
    + rewrite P1. subst st0. cbn [loop_programs].
      destruct (programs_get pid (Registry.programs registry));
        [discriminate | reflexivity].
    + rewrite (filter_update_same pid k _ _ C), L1. subst st0.
      cbn [loop_pending]. clear - C.
      induction (filter (has_id pid) (Registry.pending_review registry))
        as [|p l IH]; cbn [update_pending]; [reflexivity |].
      rewrite (key_eqb_right k pid _ C), IH. reflexivity.
Qed.

Lemma new_entries_unknown (clk : clock) (existing : pyset) (pid : pykey)
  (items : pydict Stats.t) :
  set_mem pid existing = true ->
  filter (has_id pid)
    (map (fun item => new_entry clk (fst item) (snd item))
       (filter (fun item => negb (set_mem (fst item) existing)) items)) = [].
Proof.
  intro K. induction items as [|[k s] items IH]; simpl; [reflexivity |].
  destruct (set_mem k existing) eqn:M; simpl; [exact IH |].
  unfold has_id at 1. simpl.
  destruct (key_eqb k pid) eqn:E; [| exact IH].
  key_facts. rewrite (set_mem_compat k pid _ E) in M. congruence.
Qed.

Lemma filter_none {A} (f : A -> bool) (l : list A) :
  (forall x, In x l -> f x = false) -> filter f l = [].
Proof.
  induction l as [|x l IH]; simpl; intro H; [reflexivity |].
  rewrite (H x (or_introl eq_refl)). apply IH. intros y I. apply H. right. exact I.
Qed.

(** The list a run writes holds the entries the loop leaves and the new
    ones. *)
Lemma reconcile_pending (clk : clock) (registry : Registry.t)
  (items : pydict Stats.t) :
  let st := fold_left (classify clk (existing_programs registry)) items
              (mkLoop (Registry.programs registry)
                 (Registry.pending_review registry) []) in
  let '(new_count, pending_programs, saved) := reconcile clk registry items in
  new_count = Z.of_nat (List.length (new_programs st)) /\
  pending_programs = Registry.pending_review saved /\
  Registry.programs saved = loop_programs st /\
  Permutation (Registry.pending_review saved)
    (loop_pending st ++ new_programs st) /\
  (new_programs st = [] -> Registry.pending_review saved = loop_pending st).
Proof.
  intro st. unfold reconcile. fold st.
  destruct (new_programs st) as [|e new] eqn:N; cbn [Registry.pending_review Registry.programs].
  - rewrite app_nil_r. repeat split; auto.
  - repeat split; auto; [apply sort_by_count_perm | discriminate].
Qed.

Lemma update_pending_settled (pid : pykey) (c : Z) (e : Entry.t)
  (l : list Entry.t) :
  distinct_ids l -> In e l -> has_id pid e = true -> Entry.count e = c ->
  update_pending pid c l = l.
Proof.
  unfold distinct_ids. intros N I H C.
  induction l as [|p l IH]; simpl in *; [tauto |].
  inversion N as [|? ? Hn N']; subst.
  destruct I as [E | I].
  - subst p. unfold has_id in H. rewrite H.
    rewrite set_entry_count_same. reflexivity.
  - destruct (key_eqb (Entry.programId p) pid) eqn:E.
    + exfalso. apply Hn. unfold has_id in H. key_facts. rewrite E, <- H.
      apply in_map, in_map, I.
    + rewrite (IH N' I). reflexivity.
Qed.

(** An item whose identifier is known and whose count the registry already
    holds leaves the loop state as it is. *)
Lemma classify_settled (clk : clock) (existing : pyset) (st : loop_state)
  (k : pykey) (s : Stats.t) :
  set_mem k existing = true ->
  (programs_mem k (loop_programs st) = true ->
   set_program_count k (Stats.count s) (loop_programs st) = loop_programs st) ->
  (programs_mem k (loop_programs st) = false ->
   update_pending k (Stats.count s) (loop_pending st) = loop_pending st) ->
  classify clk existing st (k, s) = st.
Proof.
  intros K P L. unfold classify. rewrite K. cbn [negb].
  destruct (programs_mem k (loop_programs st)).
  - rewrite (P eq_refl). destruct st; reflexivity.
  - rewrite (L eq_refl). destruct st; reflexivity.
Qed.

Lemma fold_settled (clk : clock) (existing : pyset) (st : loop_state)
  (items : pydict Stats.t) :
  (forall k s, In (k, s) items -> classify clk existing st (k, s) = st) ->
  fold_left (classify clk existing) items st = st.
Proof.
  induction items as [|[k s] items IH]; intro H; cbn [fold_left];
    [reflexivity |].
  rewrite (H k s (or_introl eq_refl)). apply IH.
  intros k' s' I. apply H. right. exact I.
Qed.

Lemma NoDup_map_filter {A B} (g : A -> B) (f : A -> bool) (l : list A) :
  NoDup (map g l) -> NoDup (map g (filter f l)).
Proof.
  induction l as [|x l IH]; simpl; intro N; [constructor |].
  inversion N as [|? ? Hn N']; subst.
  destruct (f x); simpl; [| apply IH, N'].
  constructor; [| apply IH, N'].
  intro I. apply Hn. apply in_map_iff in I. destruct I as [y [E I]].
  apply filter_In in I. rewrite <- E. apply in_map, I.
Qed.

Lemma new_entry_ids (clk : clock) (items : pydict Stats.t) :
  map Entry.programId (map (fun item => new_entry clk (fst item) (snd item)) items)
  = map fst items.
Proof.
  induction items as [|[k s] items IH]; simpl; [reflexivity |].
  rewrite IH. reflexivity.
Qed.

Lemma existsb_has_id (pid : pykey) (l : list Entry.t) :
  existsb (has_id pid) l = true <->
  In (key_class pid) (map key_class (map Entry.programId l)).
Proof.
  rewrite existsb_exists, map_map, in_map_iff. unfold has_id. split.
  - intros [p [I H]]. exists p. key_facts. auto.
  - intros [p [H I]]. exists p. split; [exact I |].
    apply key_eqb_class. exact H.
Qed.

(** What a run leaves for the next one: pending ids still distinct, every
    aggregated identifier known, and its count where the loop looks for it. *)
Lemma first_run_settles (clk : clock) (registry : Registry.t)
  (items : pydict Stats.t) :
  distinct_keys items ->
  distinct_ids (Registry.pending_review registry) ->
  let '(_, _, saved) := reconcile clk registry items in
  distinct_ids (Registry.pending_review saved) /\
  forall k s, In (k, s) items ->
    set_mem k (existing_programs saved) = true /\
    (programs_mem k (Registry.programs saved) = true ->
     exists meta, programs_get k (Registry.programs saved) = Some meta /\
                  obj_get "count" meta = Some (JInt (Stats.count s))) /\
    (programs_mem k (Registry.programs saved) = false ->
     exists e, In e (Registry.pending_review saved) /\ has_id k e = true /\
               Entry.count e = Stats.count s).
Proof.
  intros N D.
  pose proof (reconcile_pending clk registry items) as R. cbv zeta in R.
  pose proof (classify_new_programs clk (existing_programs registry) items
                (mkLoop (Registry.programs registry)
                   (Registry.pending_review registry) [])) as New.
  cbn [new_programs app] in New.
  destruct (classify_frame clk (existing_programs registry) items
              (mkLoop (Registry.programs registry)
                 (Registry.pending_review registry) [])) as [Ids Keys].
  cbn [loop_pending loop_programs] in Ids, Keys.
  set (st := fold_left _ items _) in *.
  destruct (reconcile clk registry items) as [[n pp] saved].
  destruct R as [_ [_ [Rp [Perm _]]]].
  split.
  - unfold distinct_ids.
    apply (Permutation_NoDup
             (Permutation_sym
                (Permutation_map key_class
                   (Permutation_map Entry.programId Perm)))).
    rewrite !map_app, Ids, New, new_entry_ids.
    apply NoDup_app; [exact D | |].
    + unfold distinct_keys in N. rewrite map_map in N. rewrite map_map.
      apply NoDup_map_filter, N.
    + intros a I1 I2. rewrite map_map in I2.
      apply in_map_iff in I2. destruct I2 as [[k s] [E I2]].
      apply filter_In in I2. destruct I2 as [_ U]. cbn [fst] in *.
      subst a. apply existsb_has_id in I1.
      rewrite existing_programs_mem, I1, orb_true_r in U. discriminate.
  - intros k s I.
    pose proof (dict_get_in k s items N I) as G.
    assert (Mem : programs_mem k (Registry.programs saved) =
                  programs_mem k (Registry.programs registry))
      by (rewrite Rp; apply programs_mem_keys, Keys).
    rewrite existing_programs_mem, Mem.
    destruct (set_mem k (existing_programs registry)) eqn:K.
    + pose proof (classify_known clk registry k s items N G K) as H.
      cbv zeta in H. fold st in H.
      rewrite existing_programs_mem in K.
      destruct (programs_mem k (Registry.programs registry)) eqn:M.
      * destruct H as [H _]. split; [reflexivity |].
        split; [| discriminate]. intros _.
        rewrite programs_mem_get in M.
        destruct (programs_get k (Registry.programs registry)) as [meta|];
          [| discriminate].
        exists (obj_set "count" (JInt (Stats.count s)) meta).
        rewrite Rp, H. split; [reflexivity | apply obj_get_set_same].
      * destruct H as [_ H]. cbn [orb] in K.
        destruct (filter (has_id k) (Registry.pending_review registry))
          as [|p later] eqn:F.
        { apply existsb_exists in K. destruct K as [p [Ip Hp]].
          assert (Ip' : In p (filter (has_id k) (Registry.pending_review registry)))
            by (apply filter_In; auto).
          rewrite F in Ip'. destruct Ip'. }
        assert (Hp : has_id k p = true).
        { assert (Ip : In p (filter (has_id k) (Registry.pending_review registry)))
            by (rewrite F; left; reflexivity).
          apply filter_In in Ip. apply Ip. }
        cbn [update_pending] in H. unfold has_id in Hp. rewrite Hp in H.
        assert (Ie : In (set_entry_count p (Stats.count s))
                       (Registry.pending_review saved)).
        { apply (Permutation_in _ (Permutation_sym Perm)), in_or_app. left.
          assert (Ie : In (set_entry_count p (Stats.count s))
                         (filter (has_id k) (loop_pending st)))
            by (rewrite H; left; reflexivity).
          apply filter_In in Ie. apply Ie. }
        split; [| split; [discriminate |]].
        -- cbn [orb]. apply existsb_exists.
           exists (set_entry_count p (Stats.count s)). split; [exact Ie | exact Hp].
        -- intros _. exists (set_entry_count p (Stats.count s)).
           split; [exact Ie | split; [exact Hp | reflexivity]].
    + rewrite existing_programs_mem in K. apply orb_false_iff in K.
      destruct K as [M X]. rewrite M. cbn [orb].
      assert (Ie : In (new_entry clk k s) (Registry.pending_review saved)).
      { apply (Permutation_in _ (Permutation_sym Perm)), in_or_app. right.
        rewrite New.
        apply (in_map (fun item => new_entry clk (fst item) (snd item)) _ (k, s)).
        apply filter_In. split; [exact I |]. cbn [fst].
        rewrite existing_programs_mem, M, X. reflexivity. }
      assert (He : has_id k (new_entry clk k s) = true)
        by (unfold has_id; apply key_eqb_refl).
      split; [| split; [discriminate |]].
      * apply existsb_exists. exists (new_entry clk k s). auto.
      * intros _. exists (new_entry clk k s). auto.
Qed.

(** Step 6: the metadata a run writes. *)
Lemma reconcile_metadata (clk : clock) (registry : Registry.t)
  (items : pydict Stats.t) :
  let '(_, _, saved) := reconcile clk registry items in
  Registry.version saved = version_now clk /\
  Registry.last_updated saved = last_updated_now clk /\
  Registry.total_programs saved = Z.of_nat (List.length items) /\
  Registry.verified_count saved =
    Z.of_nat (List.length (Registry.programs saved)) /\
  Registry.pending_count saved =
    Z.of_nat (List.length (Registry.pending_review saved)).
Proof. unfold reconcile. repeat split. Qed.

End ReconcilerFacts.

(* ================================================================= *)
(** ** The fold of the aggregator *)

Section AggregatorFacts.
Context {SI : SetIteration}.

Lemma set_iter_mem (k : pykey) (s : pyset) :
  set_mem k (set_iter s) = set_mem k s.
Proof.
  pose proof (Permutation_map key_class (set_iter_perm s)) as P.
  destruct (set_mem k s) eqn:M.
  - apply set_mem_class. apply set_mem_class in M.
    apply (Permutation_in _ (Permutation_sym P)), M.
  - destruct (set_mem k (set_iter s)) eqn:M'; [| reflexivity].
    apply set_mem_class in M'. apply (Permutation_in _ P) in M'.
    apply set_mem_class in M'. congruence.
Qed.

Lemma set_iter_distinct (s : pyset) :
  NoDup (map key_class s) -> NoDup (map key_class (set_iter s)).
Proof.
  apply Permutation_NoDup, Permutation_sym, Permutation_map, set_iter_perm.
Qed.

(** The loop body on the fields of a transaction record: no statement
    raises when the bounds are unset or are integers. *)
Lemma run_record (src typ : string) (sig : json) (t : Z) (pids : pyset)
  (s : Stats.t) :
  (Stats.first_seen s = JNull /\ Stats.last_seen s = JNull) \/ bounded s ->
  run (loop_body (mkFields (JStr src) (JStr typ) sig (JInt t) pids)) s =
  (Ok tt,
   Stats.mk (Stats.count s + 1)
     (set_add (KStr src) (Stats.sources s))
     (set_add (KStr typ) (Stats.types s))
     (if truthy (Stats.sample_tx s) then Stats.sample_tx s else sig)
     (JInt (lower t (Stats.first_seen s)))
     (JInt (upper t (Stats.last_seen s)))).
Proof.
  destruct s as [c so ty sa fs ls].
  cbn [Stats.first_seen Stats.last_seen Stats.count Stats.sources Stats.types
       Stats.sample_tx].
  intros [[-> ->] | [a [b [Ha [Hb _]]]]];
    [| cbn [Stats.first_seen Stats.last_seen] in Ha, Hb; subst fs ls];
    unfold loop_body, run, incr_count, add_source, add_type, set_sample_tx,
      set_first_seen, set_last_seen, py_gt, lower, upper;
    repeat first
      [ progress simpl
      | match goal with
        | |- context [truthy ?x] => destruct (truthy x)
        | |- context [?x =? 0] => destruct (Z.eqb_spec x 0)
        | |- context [?x <? ?y] => destruct (Z.ltb_spec x y)
        end ];
    repeat f_equal; lia.
Qed.

Lemma lower_upper (t : Z) (s : Stats.t) :
  (Stats.first_seen s = JNull /\ Stats.last_seen s = JNull) \/ bounded s ->
  lower t (Stats.first_seen s) <= t <= upper t (Stats.last_seen s).
Proof.
  intros [[-> ->] | [a [b [-> [-> _]]]]]; unfold lower, upper; [lia |].
  destruct (a =? 0), (b =? 0); lia.
Qed.

Lemma fold_in_record (src typ : string) (sig : json) (t : Z) (pids : pyset)
  (s : Stats.t) :
  (Stats.first_seen s = JNull /\ Stats.last_seen s = JNull) \/ bounded s ->
  bounded (fold_in (mkFields (JStr src) (JStr typ) sig (JInt t) pids) s).
Proof.
  intro H. unfold fold_in. rewrite (run_record _ _ _ _ _ _ H).
  exists (lower t (Stats.first_seen s)), (upper t (Stats.last_seen s)).
  cbn [snd Stats.first_seen Stats.last_seen].
  pose proof (lower_upper t s H). repeat split; lia.
Qed.

Lemma opt_str_field (k d : string) (m : list (string * json)) :
  opt_field is_str k m = true ->
  exists s, match obj_get k m with Some v => v | None => JStr d end = JStr s.
Proof.
  unfold opt_field. destruct (obj_get k m) as [[| | |s| |]|]; try discriminate.
  - exists s. reflexivity.
  - exists d. reflexivity.
Qed.

Lemma opt_int_field (k : string) (d : Z) (m : list (string * json)) :
  opt_field is_int k m = true ->
  exists z, match obj_get k m with Some v => v | None => JInt d end = JInt z.
Proof.
  unfold opt_field. destruct (obj_get k m) as [[| |z| | |]|]; try discriminate.
  - exists z. reflexivity.
  - exists d. reflexivity.
Qed.

(** Lines 65-68 on the instructions of a record: the set holds the ids the
    instructions name, each once. *)
Lemma collect_programs_record (ixs : list json) (acc : pyset) :
  forallb instruction_ok ixs = true ->
  exists s,
    collect_programs ixs acc = Ok s /\
    (NoDup (map key_class acc) -> NoDup (map key_class s)) /\
    forall pid,
      set_mem pid s = set_mem pid acc || existsb (instruction_names pid) ixs.
Proof.
  revert acc. induction ixs as [|ix ixs IH]; intros acc H; simpl in H.
  - exists acc. simpl. split; [reflexivity |]. split; [auto |].
    intro pid. rewrite orb_false_r. reflexivity.
  - apply andb_true_iff in H. destruct H as [Hix H].
    destruct ix as [| | | | |m]; try discriminate.
    cbn [instruction_ok] in Hix. unfold opt_field in Hix.
    cbn [collect_programs py_contains bind existsb instruction_names].
    unfold obj_mem.
    destruct (obj_get "programId" m) as [v|] eqn:G.
    + destruct v as [| | |s0| |]; try discriminate.
      cbn [py_getitem]. rewrite G. cbn [bind hashable].
      destruct (IH (set_add (KStr s0) acc) H) as [s [E [Nd Mem]]].
      exists s. split; [exact E |]. split.
      * intro Na. apply Nd, set_add_distinct, Na.
      * intro pid. rewrite Mem, set_mem_add, (key_eqb_sym pid (KStr s0)).
        destruct (key_eqb (KStr s0) pid), (set_mem pid acc); reflexivity.
    + destruct (IH acc H) as [s [E [Nd Mem]]].
      exists s. split; [exact E |]. split; [exact Nd |].
      intro pid. rewrite Mem. reflexivity.
Qed.

(** What lines 59-68 read from a transaction record. *)
Lemma transaction_record_fields (r : row) :
  transaction_record r = true ->
  exists src typ sig t pids,
    fields_of r = Some (mkFields (JStr src) (JStr typ) (JStr sig) (JInt t) pids)
    /\ NoDup (map key_class pids)
    /\ forall pid,
         set_mem pid pids =
         existsb (instruction_names pid) (record_instructions r).
Proof.
  destruct r as [|[| | | | |m]]; try discriminate.
  cbn [transaction_record]. intro H.
  repeat (apply andb_true_iff in H; destruct H as [H ?]).
  destruct (opt_str_field "source" "UNKNOWN" m H) as [src Es].
  destruct (opt_str_field "type" "UNKNOWN" m H3) as [typ Et].
  destruct (opt_str_field "signature" EmptyString m H2) as [sig Eg].
  destruct (opt_int_field "timestamp" 0 m H1) as [t Ez].
  exists src, typ, sig, t.
  unfold fields_of, row_fields, py_get. cbn [bind].
  rewrite Es, Et, Eg, Ez. cbn [record_instructions].
  unfold opt_field in H0.
  destruct (obj_get "instructions" m) as [v|].
  - destruct v as [| | | |l|]; try discriminate.
    cbn [instructions_ok] in H0. cbn [py_iter bind].
    destruct (collect_programs_record l [] H0) as [s [E [Nd Mem]]].
    exists s. rewrite E. cbn [bind]. split; [reflexivity |].
    split; [apply Nd; constructor |].
    intro pid. rewrite Mem. reflexivity.
  - exists []. cbn [py_iter bind collect_programs]. split; [reflexivity |].
    split; [constructor | reflexivity].
Qed.

Lemma existsb_filter_length {A} (f : A -> bool) (l : list A) :
  existsb f l = (0 <? List.length (filter f l))%nat.
Proof.
  induction l as [|x l IH]; simpl; [reflexivity |].
  destruct (f x); simpl; [reflexivity | exact IH].
Qed.

(** A record references the ids that at least one of its instructions
    names. *)
Lemma references_mentions (pid : pykey) (r : row) :
  transaction_record r = true ->
  references pid r = (0 <? mentions pid r)%nat.
Proof.
  intro H. destruct (transaction_record_fields r H)
    as [src [typ [sig [t [pids [F [_ Mem]]]]]]].
  unfold references, mentions. rewrite F. cbn [programs].
  rewrite Mem. apply existsb_filter_length.
Qed.

Lemma dict_get_compat {V} (a b : pykey) (d : pydict V) :
  key_class a = key_class b -> dict_get a d = dict_get b d.
Proof.
  intro H. induction d as [|[k v] d IH]; simpl; [reflexivity |].
  rewrite (key_eqb_right a b k H), IH. reflexivity.
Qed.

Lemma stats_at_compat (a b : pykey) (ps : pydict Stats.t) :
  key_class a = key_class b -> stats_at a ps = stats_at b ps.
Proof. intro H. unfold stats_at. rewrite (dict_get_compat a b ps H). reflexivity. Qed.

Lemma all_bounded_set (k : pykey) (s : Stats.t) (ps : pydict Stats.t) :
  all_bounded ps -> bounded s -> all_bounded (dict_set k s ps).
Proof.
  unfold all_bounded. intros A B. induction ps as [|[k0 s0] ps IH]; simpl.
  - constructor; [exact B | constructor].
  - inversion A as [|? ? B0 A']; subst.
    destruct (key_eqb k0 k); constructor; auto.
Qed.

Lemma all_bounded_get (k : pykey) (s : Stats.t) (ps : pydict Stats.t) :
  all_bounded ps -> dict_get k ps = Some s -> bounded s.
Proof.
  intros A G. destruct (dict_get_some_in k s ps G) as [k' [I _]].
  unfold all_bounded in A. rewrite Forall_forall in A. exact (A (k', s) I).
Qed.

Lemma stats_at_bounded (k : pykey) (ps : pydict Stats.t) :
  all_bounded ps ->
  (Stats.first_seen (stats_at k ps) = JNull /\
   Stats.last_seen (stats_at k ps) = JNull) \/ bounded (stats_at k ps).
Proof.
  intro A. unfold stats_at. destruct (dict_get k ps) as [s|] eqn:G.
  - right. exact (all_bounded_get k s ps A G).
  - left. split; reflexivity.
Qed.

(** Lines 72-81 for one id of a transaction record. *)
Lemma update_stats_record (src typ : string) (sig : json) (t : Z)
  (pids : pyset) (pid : pykey) (ps : pydict Stats.t) :
  all_bounded ps ->
  let f := mkFields (JStr src) (JStr typ) sig (JInt t) pids in
  update_stats f pid ps = (Ok tt, dict_set pid (fold_in f (stats_at pid ps)) ps).
Proof.
  intros A f. unfold update_stats, fold_in. subst f.
  rewrite (run_record src typ sig t pids _ (stats_at_bounded pid ps A)).
  reflexivity.
Qed.

(** Line 71 over the ids of a transaction record: every id of the list is
    folded in once, the other entries are left alone. *)
Lemma for_each_pid_record (src typ : string) (sig : json) (t : Z)
  (pids0 : pyset) (pids : list pykey) (ps : pydict Stats.t) :
  let f := mkFields (JStr src) (JStr typ) sig (JInt t) pids0 in
  all_bounded ps -> NoDup (map key_class pids) ->
  exists ps',
    for_each_pid f pids ps = (Ok tt, ps') /\
    all_bounded ps' /\
    (distinct_keys ps -> distinct_keys ps') /\
    forall k,
      dict_get k ps' =
      if set_mem k pids then Some (fold_in f (stats_at k ps)) else dict_get k ps.
Proof.
  intro f. revert ps. induction pids as [|pid rest IH]; intros ps A N.
  - exists ps. simpl. repeat split; auto.
  - cbn [for_each_pid]. subst f.
    rewrite (update_stats_record src typ sig t pids0 pid ps A). cbv zeta.
    set (f := mkFields (JStr src) (JStr typ) sig (JInt t) pids0) in *.
    cbn [map] in N. inversion N as [|? ? Hn N']; subst.
    assert (A1 : all_bounded (dict_set pid (fold_in f (stats_at pid ps)) ps)).
    { apply all_bounded_set; [exact A |].
      apply fold_in_record, stats_at_bounded, A. }
    destruct (IH _ A1 N') as [ps' [E [A' [D' G']]]].
    exists ps'. split; [exact E |]. split; [exact A' |].
    split; [intro D; apply D', dict_set_distinct, D |].
    intro k. rewrite G'. unfold set_mem. cbn [existsb]. fold (set_mem k rest).
    destruct (set_mem k rest) eqn:M.
    + rewrite orb_true_r. do 2 f_equal. unfold stats_at.
      rewrite dict_get_set.
      destruct (key_eqb pid k) eqn:E'; [| reflexivity].
      exfalso. apply Hn. key_facts. rewrite E'. apply set_mem_class, M.
    + rewrite orb_false_r, dict_get_set, (key_eqb_sym k pid).
      destruct (key_eqb pid k) eqn:E'; [| reflexivity].
      key_facts. rewrite (stats_at_compat pid k ps E'). reflexivity.
Qed.

(** One transaction record folded into bounded statistics. *)
Lemma process_row_record (st : scan_state) (r : row) :
  transaction_record r = true -> all_bounded (program_stats st) ->
  exists f,
    fields_of r = Some f /\
    processed (process_row st r) = processed st + 1 /\
    all_bounded (program_stats (process_row st r)) /\
    (distinct_keys (program_stats st) ->
     distinct_keys (program_stats (process_row st r))) /\
    forall k,
      dict_get k (program_stats (process_row st r)) =
      if references k r
      then Some (fold_in f (stats_at k (program_stats st)))
      else dict_get k (program_stats st).
Proof.
  intros H A.
  destruct (transaction_record_fields r H)
    as [src [typ [sig [t [pids [F [N _]]]]]]].
  exists (mkFields (JStr src) (JStr typ) (JStr sig) (JInt t) pids).
  split; [exact F |].
  unfold references. rewrite F. cbn [programs].
  destruct r as [|tx]; [discriminate |].
  unfold fields_of in F. unfold process_row.
  destruct (row_fields tx) as [f|e]; [| discriminate].
  inversion F; subst f. cbn [programs].
  destruct (for_each_pid_record src typ (JStr sig) t pids (set_iter pids)
              (program_stats st) A (set_iter_distinct pids N))
    as [ps' [E [A' [D' G']]]].
  rewrite E. cbn [program_stats processed].
  split; [reflexivity |]. split; [exact A' |]. split; [exact D' |].
  intro k. rewrite G', set_iter_mem. reflexivity.
Qed.

Lemma scan_snoc (rows : list row) (r : row) :
  scan (rows ++ [r]) = process_row (scan rows) r.
Proof. unfold scan. rewrite fold_left_app. reflexivity. Qed.

(** The statistics of a stream of transaction records: bounded, one entry
    per id, every row processed. *)
Lemma scan_records (rows : list row) :
  record_stream rows ->
  all_bounded (program_stats (scan rows)) /\
  distinct_keys (program_stats (scan rows)) /\
  processed (scan rows) = Z.of_nat (List.length rows).
Proof.
  induction rows as [|r rows IH] using rev_ind; intro H.
  - repeat split; constructor.
  - apply Forall_app in H. destruct H as [H Hr].
    inversion Hr as [|? ? Hr' _]; subst.
    destruct (IH H) as [A [D P]].
    destruct (process_row_record (scan rows) r Hr' A) as [f [_ [P' [A' [D' _]]]]].
    rewrite scan_snoc. split; [exact A' |]. split; [exact (D' D) |].
    rewrite P', P, length_app. simpl. lia.
Qed.

(** Whatever the rows are, and whether or not a row raises half-way, the
    accumulator has one entry per key. *)
Lemma for_each_pid_distinct (f : fields) (pids : list pykey)
  (ps : pydict Stats.t) :
  distinct_keys ps -> distinct_keys (snd (for_each_pid f pids ps)).
Proof.
  revert ps. induction pids as [|pid rest IH]; intros ps D; [exact D |].
  cbn [for_each_pid]. unfold update_stats.
  destruct (run (loop_body f) (stats_at pid ps)) as [[[]|e] s'].
  - apply IH, dict_set_distinct, D.
  - apply dict_set_distinct, D.
Qed.

Lemma process_row_distinct (st : scan_state) (r : row) :
  distinct_keys (program_stats st) ->
  distinct_keys (program_stats (process_row st r)).
Proof.
  intro D. destruct r as [|tx]; [exact D |]. unfold process_row.
  destruct (row_fields tx) as [f|e]; [| exact D].
  pose proof (for_each_pid_distinct f (set_iter (programs f)) _ D) as D'.
  destruct (for_each_pid f (set_iter (programs f)) (program_stats st))
    as [[[]|e] ps]; exact D'.
Qed.

Lemma extract_distinct_keys (rows : list row) :
  distinct_keys (extract_programs_from_db rows).
Proof.
  unfold extract_programs_from_db.
  induction rows as [|r rows IH] using rev_ind.
  - constructor.
  - rewrite scan_snoc. apply process_row_distinct, IH.
Qed.

Lemma record_stream_prefix (n : nat) (rows : list row) :
  record_stream rows -> record_stream (firstn n rows).
Proof.
  unfold record_stream. intro H. rewrite <- (firstn_skipn n rows) in H.
  apply Forall_app in H. apply H.
Qed.

Lemma firstn_snoc {A} (n : nat) (l : list A) (x : A) :
  nth_error l n = Some x -> firstn (S n) l = firstn n l ++ [x].
Proof.
  revert l. induction n as [|n IH]; intros [|y l] H; simpl in *;
    try discriminate.
  - inversion H. reflexivity.
  - rewrite (IH l H). reflexivity.
Qed.

Lemma count_of_stats_at (pid : pykey) (ps : pydict Stats.t) :
  count_of pid ps = Stats.count (stats_at pid ps).
Proof. unfold count_of, stats_at. destruct (dict_get pid ps); reflexivity. Qed.

(** One transaction record after a stream of them, for one id. *)
Lemma record_step (rows : list row) (r : row) (pid : pykey) :
  record_stream rows -> transaction_record r = true ->
  exists src typ sig t pids,
    fields_of r = Some (mkFields (JStr src) (JStr typ) (JStr sig) (JInt t) pids)
    /\ let before := stats_at pid (extract_programs_from_db rows) in
       dict_get pid (extract_programs_from_db (rows ++ [r])) =
       if references pid r
       then Some (Stats.mk (Stats.count before + 1)
                    (set_add (KStr src) (Stats.sources before))
                    (set_add (KStr typ) (Stats.types before))
                    (if truthy (Stats.sample_tx before)
                     then Stats.sample_tx before else JStr sig)
                    (JInt (lower t (Stats.first_seen before)))
                    (JInt (upper t (Stats.last_seen before))))
       else dict_get pid (extract_programs_from_db rows).
Proof.
  intros H Hr. destruct (scan_records rows H) as [A _].
  destruct (transaction_record_fields r Hr)
    as [src [typ [sig [t [pids [F _]]]]]].
  destruct (process_row_record (scan rows) r Hr A) as [f [F' [_ [_ [_ G]]]]].
  rewrite F in F'. inversion F'; subst f. clear F'.
  exists src, typ, sig, t, pids. split; [exact F |].
  cbv zeta. unfold extract_programs_from_db. rewrite scan_snoc, G.
  destruct (references pid r); [| reflexivity].
  unfold fold_in.
  rewrite (run_record src typ (JStr sig) t pids _
             (stats_at_bounded pid (program_stats (scan rows)) A)).
  reflexivity.
Qed.

Lemma existsb_none {A} (f : A -> bool) (l : list A) :
  (forall x, In x l -> f x = false) -> existsb f l = false.
Proof.
  induction l as [|x l IH]; simpl; intro H; [reflexivity |].
  rewrite (H x (or_introl eq_refl)). apply IH. intros y I. apply H. right. exact I.
Qed.

Lemma stamps_snoc (pid : pykey) (rows : list row) (r : row) :
  stamps pid (rows ++ [r]) =
  stamps pid rows ++ (if references pid r then [row_time r] else []).
Proof.
  unfold stamps. rewrite filter_app, map_app. simpl.
  destruct (references pid r); reflexivity.
Qed.

Lemma least_snoc (a t : Z) (l : list Z) :
  least a l -> least (Z.min a t) (l ++ [t]).
Proof.
  intros [I F]. split.
  - apply in_or_app. destruct (Z.min_spec a t) as [[_ ->] | [_ ->]];
      [left; exact I | right; left; reflexivity].
  - apply Forall_app. split.
    + apply (Forall_impl _ (P := fun x => a <= x)); [intros; lia | exact F].
    + constructor; [lia | constructor].
Qed.

Lemma greatest_snoc (b t : Z) (l : list Z) :
  greatest b l -> greatest (Z.max b t) (l ++ [t]).
Proof.
  intros [I F]. split.
  - apply in_or_app. destruct (Z.max_spec b t) as [[_ ->] | [_ ->]];
      [right; left; reflexivity | left; exact I].
  - apply Forall_app. split.
    + apply (Forall_impl _ (P := fun x => x <= b)); [intros; lia | exact F].
    + constructor; [lia | constructor].
Qed.

(** The statistics of a stream of transaction records, for one id. *)
Lemma scan_summary (rows : list row) (pid : pykey) :
  record_stream rows ->
  summarises rows pid (dict_get pid (extract_programs_from_db rows)).
Proof.
  induction rows as [|r rows IH] using rev_ind; intro H.
  - simpl. intros r [].
  - apply Forall_app in H. destruct H as [H Hr].
    inversion Hr as [|? ? Hr' _]; subst. specialize (IH H).
    destruct (record_step rows r pid H Hr')
      as [src [typ [sig [t [pids [F G]]]]]].
    cbv zeta in G. rewrite G. clear G.
    assert (Src : forall k, source_is k r = key_eqb k (KStr src))
      by (intro k; unfold source_is, row_source; rewrite F; reflexivity).
    assert (Typ : forall k, type_is k r = key_eqb k (KStr typ))
      by (intro k; unfold type_is, row_type; rewrite F; reflexivity).
    assert (Tim : row_time r = t)
      by (unfold row_time, row_timestamp; rewrite F; reflexivity).
    destruct (references pid r) eqn:Ref.
    + unfold summarises. cbn [Stats.count Stats.sources Stats.types
        Stats.first_seen Stats.last_seen].
      rewrite filter_app, length_app, stamps_snoc, Ref, Tim.
      cbn [filter]. rewrite Ref. cbn [List.length].
      unfold stats_at.
      destruct (dict_get pid (extract_programs_from_db rows)) as [s|].
      * destruct IH as [C [So [Ty [_ B]]]].
        split; [rewrite C; lia |].
        split; [intro k; rewrite set_mem_add, existsb_app, So; simpl;
                rewrite Ref, Src; simpl; rewrite orb_false_r; apply orb_comm |].
        split; [intro k; rewrite set_mem_add, existsb_app, Ty; simpl;
                rewrite Ref, Typ; simpl; rewrite orb_false_r; apply orb_comm |].
        split; [exists r; split; [apply in_or_app; right; left; reflexivity
                                 | exact Ref] |].
        intro NZ. apply Forall_app in NZ. destruct NZ as [NZ Nt].
        destruct (B NZ) as [a [b [Ea [Eb [La Gb]]]]].
        exists (Z.min a t), (Z.max b t). rewrite Ea, Eb. unfold lower, upper.
        assert (a <> 0) by (rewrite Forall_forall in NZ; apply NZ, La).
        assert (b <> 0) by (rewrite Forall_forall in NZ; apply NZ, Gb).
        destruct (Z.eqb_spec a 0); [contradiction |].
        destruct (Z.eqb_spec b 0); [contradiction |].
        repeat split; try apply least_snoc; try apply greatest_snoc; auto;
          try apply La; try apply Gb.
      * cbn [default_stats Stats.count Stats.sources Stats.types
             Stats.sample_tx Stats.first_seen Stats.last_seen] in *.
        unfold stamps. rewrite (filter_none _ rows IH). cbn [List.length map app].
        split; [reflexivity |].
        split; [intro k; rewrite set_mem_add, existsb_app, existsb_none;
                [simpl; rewrite Ref, Src; simpl; rewrite !orb_false_r; reflexivity
                | intros x I; rewrite (IH x I); reflexivity] |].
        split; [intro k; rewrite set_mem_add, existsb_app, existsb_none;
                [simpl; rewrite Ref, Typ; simpl; rewrite !orb_false_r; reflexivity
                | intros x I; rewrite (IH x I); reflexivity] |].
        split; [exists r; split; [apply in_or_app; right; left; reflexivity
                                 | exact Ref] |].
        intros _. exists t, t. unfold lower, upper, least, greatest.
        repeat split; try (left; reflexivity); repeat constructor; lia.
    + destruct (dict_get pid (extract_programs_from_db rows)) as [s|];
        unfold summarises in *.
      * destruct IH as [C [So [Ty [[r0 [I0 R0]] B]]]].
        rewrite filter_app, stamps_snoc, Ref, app_nil_r. cbn [filter].
        rewrite Ref, app_nil_r.
        split; [exact C |].
        split; [intro k; rewrite existsb_app, So; simpl; rewrite Ref; simpl;
                rewrite orb_false_r; reflexivity |].
        split; [intro k; rewrite existsb_app, Ty; simpl; rewrite Ref; simpl;
                rewrite orb_false_r; reflexivity |].
        split; [exists r0; split; [apply in_or_app; left; exact I0 | exact R0] |].
        exact B.
      * intros x I. apply in_app_or in I. destruct I as [I | [E | []]];
          [apply IH, I | subst x; exact Ref].
Qed.

Lemma existsb_perm {A} (f : A -> bool) (l l' : list A) :
  Permutation l l' -> existsb f l = existsb f l'.
Proof.
  induction 1 as [| x l l' _ IH | x y l | l l' l'' _ IH1 _ IH2]; simpl.
  - reflexivity.
  - rewrite IH. reflexivity.
  - destruct (f x), (f y); reflexivity.
  - congruence.
Qed.

Lemma least_unique (a a' : Z) (l l' : list Z) :
  Permutation l l' -> least a l -> least a' l' -> a = a'.
Proof.
  intros P [I F] [I' F']. rewrite Forall_forall in F, F'.
  pose proof (F' a (Permutation_in _ P I)).
  pose proof (F a' (Permutation_in _ (Permutation_sym P) I')). lia.
Qed.

Lemma greatest_unique (b b' : Z) (l l' : list Z) :
  Permutation l l' -> greatest b l -> greatest b' l' -> b = b'.
Proof.
  intros P [I F] [I' F']. rewrite Forall_forall in F, F'.
  pose proof (F' b (Permutation_in _ P I)).
  pose proof (F b' (Permutation_in _ (Permutation_sym P) I')). lia.
Qed.

Lemma stamps_perm (pid : pykey) (rows rows' : list row) :
  Permutation rows rows' -> Permutation (stamps pid rows) (stamps pid rows').
Proof. intro P. apply Permutation_map, Permutation_filter, P. Qed.

Lemma stamps_nonzero (pid : pykey) (rows : list row) :
  record_stream rows ->
  (forall r, In r rows -> row_timestamp r <> JInt 0) ->
  Forall (fun t => t <> 0) (stamps pid rows).
Proof.
  intros H NZ. apply Forall_forall. intros t I. unfold stamps in I.
  apply in_map_iff in I. destruct I as [r [E I]].
  apply filter_In in I. destruct I as [I _].
  unfold record_stream in H. rewrite Forall_forall in H.
  destruct (transaction_record_fields r (H r I))
    as [src [typ [sig [t' [pids [F _]]]]]].
  specialize (NZ r I). unfold row_time in E. unfold row_timestamp in NZ, E.
  rewrite F in NZ, E. cbn [timestamp] in NZ, E. subst t'. congruence.
Qed.

End AggregatorFacts.

(* ================================================================= *)
(** ** Claims on the reconciler *)

(** C8. When the registry file does not exist at the expected path the run
    ends with status 1, having printed the diagnostic; no document is written
    and the notifier is not called. *)
Theorem missing_registry_is_fatal :
  forall (SI : SetIteration) (path : string) (clk : clock) (rows : list row),
    let run := main path clk rows None in
    exit_status run = 1 /\ exit_status run <> 0 /\
    diagnostic run = Some (String.append "ERROR: Registry not found at " path) /\
    written run = None /\ notified run = None.
Proof.
  intros SI path clk rows. unfold main, main_after_extract, update_registry.
  simpl. repeat split. discriminate.
Qed.

(** C1, as stated, fails: a run that finds nothing new skips the sort, so a
    sorted list whose counts are refreshed can come out unsorted. *)
Lemma unsorted_after_refresh_only :
  sorted_by_count_desc (Registry.pending_review stale_registry) /\
  (let '(new_count, _, saved) :=
     reconcile (SI := insertion_order) a_clock stale_registry stale_stats in
   new_count = 0 /\
   ~ sorted_by_count_desc (Registry.pending_review saved)).
Proof.
  split.
  - unfold sorted_by_count_desc. simpl.
    repeat constructor; simpl; lia.
  - simpl. split; [reflexivity |].
    unfold sorted_by_count_desc. intro S.
    inversion S as [|? ? _ F]; subst.
    inversion F as [|? ? C _]; subst.
    simpl in C. lia.
Qed.

(** C1, amended.  After a run that discovered at least one new identifier,
    [pending_review] is sorted by count descending over the whole list, the
    entries refreshed in place included.  A run that discovered none leaves
    the entries in the order in which they were loaded. *)
Theorem pending_sorted_after_discovery :
  forall (SI : SetIteration) (clk : clock) (registry : Registry.t)
         (program_stats : pydict Stats.t),
    let '(new_count, pending_programs, saved) :=
      reconcile clk registry program_stats in
    pending_programs = Registry.pending_review saved /\
    (0 < new_count -> sorted_by_count_desc (Registry.pending_review saved)) /\
    (new_count = 0 ->
     map Entry.programId (Registry.pending_review saved) =
     map Entry.programId (Registry.pending_review registry)).
Proof.
  intros SI clk registry program_stats. unfold reconcile.
  set (st := fold_left _ program_stats _).
  destruct (classify_frame clk (existing_programs registry) program_stats
              (mkLoop (Registry.programs registry)
                 (Registry.pending_review registry) [])) as [Ids _].
  fold st in Ids. simpl in Ids.
  destruct (new_programs st) as [|e new] eqn:N; simpl.
  - split; [reflexivity |]. split; [lia | intros _; exact Ids].
  - split; [reflexivity |]. split; [| lia].
    intros _. apply sort_by_count_sorted.
Qed.

(** One known pending program refreshed and one new program appended. *)
Lemma pending_sorted_after_discovery_witness :
  let '(new_count, _, saved) :=
    reconcile (SI := insertion_order) a_clock stale_registry fresh_stats in
  0 < new_count /\ sorted_by_count_desc (Registry.pending_review saved).
Proof.
  pose proof (pending_sorted_after_discovery insertion_order a_clock
                stale_registry fresh_stats) as H.
  destruct (reconcile a_clock stale_registry fresh_stats)
    as [[new_count pending_programs] saved] eqn:R.
  vm_compute in R. inversion R; subst. clear R.
  destruct H as [_ [H _]].
  assert (P : 0 < 1) by lia.
  split; [exact P | exact (H P)].
Defined.

(** C6. For an identifier that is in the aggregate and a key of [programs],
    the run writes that entry with its [count] replaced by the aggregated
    count, whatever the count was, and its other fields as they were; when
    every aggregated identifier is known the run reports no new program and
    the notifier is not called.  The aggregate is a dict, one item per key,
    as every result of [extract_programs_from_db] is
    ([extract_distinct_keys]). *)
Theorem known_program_count_replaced :
  forall (SI : SetIteration) (path : string) (clk : clock)
         (registry : Registry.t) (program_stats : pydict Stats.t)
         (pid : pykey) (stats : Stats.t),
    distinct_keys program_stats ->
    dict_get pid program_stats = Some stats ->
    programs_mem pid (Registry.programs registry) = true ->
    let run := main_after_extract path clk (Some registry) program_stats in
    (exists meta saved,
        programs_get pid (Registry.programs registry) = Some meta /\
        written run = Some saved /\
        programs_get pid (Registry.programs saved) =
          Some (obj_set "count" (JInt (Stats.count stats)) meta) /\
        obj_get "count" (obj_set "count" (JInt (Stats.count stats)) meta) =
          Some (JInt (Stats.count stats)) /\
        forall k, k <> "count" ->
          obj_get k (obj_set "count" (JInt (Stats.count stats)) meta) =
          obj_get k meta)
    /\ ((forall k, In k (map fst program_stats) ->
                   set_mem k (existing_programs registry) = true) ->
        (exists pending_programs saved,
            update_registry path clk (Some registry) program_stats =
            Returned 0 pending_programs saved)
        /\ notified run = None).
Proof.
  intros SI path clk registry items pid stats N G M run.
  assert (K : set_mem pid (existing_programs registry) = true)
    by (rewrite existing_programs_mem, M; reflexivity).
  pose proof (classify_known clk registry pid stats items N G K) as H.
  cbv zeta in H. rewrite M in H. destruct H as [H _].
  pose proof (reconcile_pending clk registry items) as R. cbv zeta in R.
  pose proof (classify_new_programs clk (existing_programs registry) items
                (mkLoop (Registry.programs registry)
                   (Registry.pending_review registry) [])) as New.
  subst run. unfold main_after_extract, update_registry.
  destruct (reconcile clk registry items) as [[n p] saved].
  destruct R as [Rn [_ [Rp _]]]. cbn [written notified].
  split.
  - rewrite programs_mem_get in M.
    destruct (programs_get pid (Registry.programs registry)) as [meta|] eqn:Pg;
      [| discriminate].
    exists meta, saved. rewrite Rp, H. cbn [option_map].
    repeat split; [apply obj_get_set_same |].
    intros k Dk. apply obj_get_set_other, Dk.
  - intro All. rewrite filter_none in New.
    + cbn [new_programs map app] in New. rewrite New in Rn. simpl in Rn.
      subst n. split; [exists p, saved; reflexivity | reflexivity].
    + intros [k s] I. cbn [fst]. rewrite (All k); [reflexivity |].
      apply (in_map fst _ (k, s)), I.
Qed.

(** The scenario [programs = {P1: {count: 5}}], aggregate [P1: 40]: the
    written count is 40 and the notifier is not called. *)
Lemma known_program_count_replaced_witness :
  let run :=
    main_after_extract (SI := insertion_order) "registry.json" a_clock
      (Some refresh_registry) refresh_stats in
  option_map (fun saved => programs_get (KStr "P1") (Registry.programs saved))
    (written run)
  = Some (Some [("name", JStr "Token Program"); ("count", JInt 40)])
  /\ notified run = None.
Proof.
  assert (N : distinct_keys refresh_stats)
    by (unfold distinct_keys; simpl; repeat constructor; simpl; tauto).
  destruct (known_program_count_replaced insertion_order "registry.json"
              a_clock refresh_registry refresh_stats (KStr "P1") (seen 40)
              N eq_refl eq_refl) as [[meta [saved [G [W [P _]]]]] Q].
  cbv zeta. rewrite W. cbn [option_map]. rewrite P.
  vm_compute in G. inversion G; subst meta.
  split; [reflexivity |].
  apply Q. intros k [E | []]. subst k. reflexivity.
Defined.

(** C9, as stated, fails when the identifier is also a key of [programs]:
    the [programs] entry takes the count and no pending entry is touched, so
    the first pending entry of that id does not get the aggregated count. *)
Lemma shadowed_pending_not_refreshed :
  dict_get (KStr "X") shadowed_stats = Some (seen 5) /\
  filter (has_id (KStr "X")) (Registry.pending_review shadowed_registry) =
    [pending "X" 3; pending "X" 10] /\
  (let '(_, _, saved) :=
     reconcile (SI := insertion_order) a_clock shadowed_registry shadowed_stats in
   ~ Permutation (filter (has_id (KStr "X")) (Registry.pending_review saved))
       [set_entry_count (pending "X" 3) (Stats.count (seen 5)); pending "X" 10]).
Proof.
  split; [reflexivity |]. split; [reflexivity |].
  cbv beta iota zeta delta [reconcile]. simpl. intro P.
  apply (Permutation_map Entry.count) in P.
  apply Permutation_sym in P.
  pose proof (Permutation_in 5 P (or_introl eq_refl)) as I.
  simpl in I. intuition discriminate.
Qed.

(** C9, amended.  If the identifier is in the aggregate and is not a key of
    [programs], then among the pending entries of that id the first, in
    sequence order, has its count replaced by the aggregated count and keeps
    its other fields, and every later one is written as it was loaded.  The
    entries stay where they were when the run found nothing new; otherwise
    the sort may move them. *)
Theorem first_pending_match_refreshed :
  forall (SI : SetIteration) (clk : clock) (registry : Registry.t)
         (program_stats : pydict Stats.t) (pid : pykey) (stats : Stats.t)
         (p : Entry.t) (later : list Entry.t),
    distinct_keys program_stats ->
    dict_get pid program_stats = Some stats ->
    programs_mem pid (Registry.programs registry) = false ->
    filter (has_id pid) (Registry.pending_review registry) = p :: later ->
    let '(new_count, _, saved) := reconcile clk registry program_stats in
    Permutation (filter (has_id pid) (Registry.pending_review saved))
      (set_entry_count p (Stats.count stats) :: later)
    /\ (new_count = 0 ->
        filter (has_id pid) (Registry.pending_review saved) =
        set_entry_count p (Stats.count stats) :: later).
Proof.
  intros SI clk registry items pid stats p later N G M F.
  assert (Hp : has_id pid p = true).
  { assert (I : In p (filter (has_id pid) (Registry.pending_review registry)))
      by (rewrite F; left; reflexivity).
    apply filter_In in I. apply I. }
  assert (K : set_mem pid (existing_programs registry) = true).
  { rewrite existing_programs_mem, M. simpl. apply existsb_exists.
    exists p. split; [| exact Hp].
    assert (I : In p (filter (has_id pid) (Registry.pending_review registry)))
      by (rewrite F; left; reflexivity).
    apply filter_In in I. apply I. }
  pose proof (classify_known clk registry pid stats items N G K) as H.
  cbv zeta in H. rewrite M, F in H. destruct H as [_ H].
  cbn [update_pending] in H. unfold has_id in Hp. rewrite Hp in H.
  pose proof (reconcile_pending clk registry items) as R. cbv zeta in R.
  pose proof (classify_new_programs clk (existing_programs registry) items
                (mkLoop (Registry.programs registry)
                   (Registry.pending_review registry) [])) as New.
  cbn [new_programs app] in New.
  destruct (reconcile clk registry items) as [[n pp] saved].
  destruct R as [Rn [_ [_ [Perm Same]]]].
  split.
  - rewrite (Permutation_filter (has_id pid) _ _ Perm), filter_app, H, New.
    rewrite (new_entries_unknown clk _ pid items K), app_nil_r.
    apply Permutation_refl.
  - intro Z0. rewrite Same; [exact H |].
    destruct (new_programs _); [reflexivity | simpl in Rn; lia].
Qed.

(** Pending [X:3, Y:8, X:10], aggregate [X: 5]: the entries of [X] come out
    as [X:5, X:10]. *)
Lemma first_pending_match_refreshed_witness :
  let '(_, _, saved) :=
    reconcile (SI := insertion_order) a_clock duplicated_registry
      duplicated_stats in
  filter (has_id (KStr "X")) (Registry.pending_review saved) =
  [pending "X" 5; pending "X" 10].
Proof.
  assert (N : distinct_keys duplicated_stats).
  { unfold distinct_keys. simpl. repeat constructor; simpl; intuition discriminate. }
  pose proof (first_pending_match_refreshed insertion_order a_clock
                duplicated_registry duplicated_stats (KStr "X") (seen 5)
                (pending "X" 3) [pending "X" 10] N eq_refl eq_refl eq_refl) as H.
  destruct (reconcile a_clock duplicated_registry duplicated_stats)
    as [[n pp] saved] eqn:R.
  destruct H as [_ H].
  assert (Z0 : n = 0) by (vm_compute in R; inversion R; reflexivity).
  exact (H Z0).
Defined.

(** C7, as stated, fails on a registry whose pending list holds an id twice:
    the first run refreshes the first duplicate and, having found a new
    program, sorts; the second run then refreshes the other duplicate. *)
Lemma second_run_changes_a_count :
  let '(_, _, saved) :=
    reconcile (SI := insertion_order) a_clock twice_registry twice_stats in
  let '(_, _, saved') :=
    reconcile (SI := insertion_order) a_clock saved twice_stats in
  map Entry.count (Registry.pending_review saved) = [10; 5; 1] /\
  map Entry.count (Registry.pending_review saved') = [5; 5; 1] /\
  map Entry.count (Registry.pending_review saved') <>
  map Entry.count (Registry.pending_review saved).
Proof.
  cbv beta iota zeta delta [reconcile]. simpl.
  repeat split. discriminate.
Qed.

(** C7, amended.  When the ids of the loaded pending list are pairwise
    distinct, a second run with the same aggregate finds nothing new and
    writes the same [programs] and the same [pending_review] as the first, so
    every count, [pending_count] and [verified_count] are unchanged. *)
Theorem second_run_changes_nothing :
  forall (SI : SetIteration) (clk clk' : clock) (registry : Registry.t)
         (program_stats : pydict Stats.t),
    distinct_keys program_stats ->
    distinct_ids (Registry.pending_review registry) ->
    let '(_, _, saved) := reconcile clk registry program_stats in
    let '(new_count', _, saved') := reconcile clk' saved program_stats in
    new_count' = 0 /\
    Registry.pending_count saved' = Registry.pending_count saved /\
    Registry.verified_count saved' = Registry.verified_count saved /\
    Registry.programs saved' = Registry.programs saved /\
    Registry.pending_review saved' = Registry.pending_review saved.
Proof.
  intros SI clk clk' registry items N D.
  pose proof (first_run_settles clk registry items N D) as S.
  pose proof (reconcile_metadata clk registry items) as Meta.
  destruct (reconcile clk registry items) as [[n pp] saved].
  destruct S as [D' S]. destruct Meta as [_ [_ [_ [V P]]]].
  unfold reconcile.
  rewrite fold_settled.
  - cbn [new_programs loop_pending loop_programs List.length Z.of_nat
           Registry.pending_count Registry.verified_count Registry.programs
           Registry.pending_review].
    rewrite V, P. repeat split.
  - intros k s I. destruct (S k s I) as [K [Pm Pp]].
    apply classify_settled; cbn [loop_programs loop_pending].
    + exact K.
    + intro M. destruct (Pm M) as [meta [G C]].
      apply (set_program_count_settled _ _ _ meta G C).
    + intro M. destruct (Pp M) as [e [Ie [He Ce]]].
      apply (update_pending_settled _ _ e _ D' Ie He Ce).
Qed.

(** A verified, a pending and a new program; the second run writes the list
    of the first. *)
Lemma second_run_changes_nothing_witness :
  let '(_, _, saved) :=
    reconcile (SI := insertion_order) a_clock mixed_registry mixed_stats in
  let '(new_count', _, saved') :=
    reconcile (SI := insertion_order) a_clock saved mixed_stats in
  map Entry.count (Registry.pending_review saved) = [9; 5] /\
  new_count' = 0 /\
  Registry.pending_review saved' = Registry.pending_review saved.
Proof.
  assert (N : distinct_keys mixed_stats).
  { unfold distinct_keys. simpl. repeat constructor; simpl; intuition discriminate. }
  assert (D : distinct_ids (Registry.pending_review mixed_registry)).
  { unfold distinct_ids. simpl. repeat constructor; simpl; tauto. }
  pose proof (second_run_changes_nothing insertion_order a_clock a_clock
                mixed_registry mixed_stats N D) as H.
  assert (C : let '(_, _, saved) :=
                reconcile (SI := insertion_order) a_clock mixed_registry
                  mixed_stats in
              map Entry.count (Registry.pending_review saved) = [9; 5])
    by reflexivity.
  destruct (reconcile a_clock mixed_registry mixed_stats) as [[n pp] saved].
  destruct (reconcile a_clock saved mixed_stats) as [[n' pp'] saved'].
  destruct H as [H0 [_ [_ [_ H4]]]].
  split; [exact C | split; [exact H0 | exact H4]].
Defined.

(* ================================================================= *)
(** ** Claims on the aggregator *)

(** C10. After any prefix of a stream of transaction records, every program
    id in the accumulator has [first_seen] and [last_seen] set, to integers
    in order; and after a record that references the id the two bounds
    bracket that record's timestamp. *)
Theorem bounds_set_and_ordered :
  forall (SI : SetIteration) (rows : list row),
    record_stream rows ->
    (forall n pid stats,
        dict_get pid (extract_programs_from_db (firstn n rows)) = Some stats ->
        exists a b,
          Stats.first_seen stats = JInt a /\ Stats.last_seen stats = JInt b /\
          a <= b)
    /\ (forall n r pid,
           nth_error rows n = Some r -> references pid r = true ->
           exists stats a b t,
             dict_get pid (extract_programs_from_db (firstn (S n) rows)) =
               Some stats /\
             row_timestamp r = JInt t /\
             Stats.first_seen stats = JInt a /\ Stats.last_seen stats = JInt b /\
             a <= t <= b).
Proof.
  intros SI rows H. split.
  - intros n pid stats G.
    destruct (scan_records (firstn n rows) (record_stream_prefix n rows H))
      as [A _].
    exact (all_bounded_get pid stats _ A G).
  - intros n r pid Hn Hr.
    rewrite (firstn_snoc n rows r Hn).
    assert (Rr : transaction_record r = true).
    { unfold record_stream in H. rewrite Forall_forall in H.
      apply H, (nth_error_In _ _ Hn). }
    pose proof (record_stream_prefix n rows H) as Hp.
    destruct (record_step (firstn n rows) r pid Hp Rr)
      as [src [typ [sig [t [pids [F G]]]]]].
    cbv zeta in G. rewrite Hr in G.
    destruct (scan_records (firstn n rows) Hp) as [A _].
    pose proof (lower_upper t _
                  (stats_at_bounded pid (program_stats (scan (firstn n rows))) A))
      as B.
    eexists. eexists. eexists. exists t.
    split; [exact G |].
    unfold row_timestamp. rewrite F.
    cbn [timestamp Stats.first_seen Stats.last_seen].
    repeat split; apply B.
Qed.

(** A prefix that ends on a record stamped 0. *)
Lemma bounds_set_and_ordered_witness :
  exists a b,
    option_map Stats.first_seen
      (dict_get (KStr "P")
         (extract_programs_from_db (SI := insertion_order)
            (firstn 2 [record "s1" 5 ["P"]; zero_row; record "s3" 7 ["P"]])))
    = Some (JInt a) /\ a <= b.
Proof.
  assert (H : record_stream [record "s1" 5 ["P"]; zero_row; record "s3" 7 ["P"]])
    by (repeat constructor).
  destruct (bounds_set_and_ordered insertion_order _ H) as [B _].
  destruct (B 2%nat (KStr "P") _ eq_refl) as [a [b [Ea [_ L]]]].
  exists a, b. split; [| exact L].
  cbn [option_map]. simpl in Ea. simpl. rewrite <- Ea. reflexivity.
Defined.

(** C4. A transaction record adds exactly 1 to the count of every program id
    that at least one of its instructions names, however many of them do,
    and nothing to the count of any other id. *)
Theorem each_record_counts_once :
  forall (SI : SetIteration) (rows : list row) (r : row) (pid : pykey),
    record_stream rows -> transaction_record r = true ->
    count_of pid (extract_programs_from_db (rows ++ [r])) =
    count_of pid (extract_programs_from_db rows) +
    (if (0 <? mentions pid r)%nat then 1 else 0).
Proof.
  intros SI rows r pid H Hr.
  destruct (record_step rows r pid H Hr) as [src [typ [sig [t [pids [_ G]]]]]].
  cbv zeta in G. rewrite (references_mentions pid r Hr) in G.
  unfold count_of at 1. rewrite G.
  destruct (0 <? mentions pid r)%nat.
  - cbn [Stats.count]. rewrite count_of_stats_at. reflexivity.
  - fold (count_of pid (extract_programs_from_db rows)). lia.
Qed.

(** Three instructions of one record name [P]: its count grows by 1. *)
Lemma each_record_counts_once_witness :
  mentions (KStr "P") triple_row = 3%nat /\
  count_of (KStr "P")
    (extract_programs_from_db (SI := insertion_order)
       ([record "s1" 5 ["P"; "Q"]] ++ [triple_row])) =
  count_of (KStr "P")
    (extract_programs_from_db (SI := insertion_order) [record "s1" 5 ["P"; "Q"]])
  + 1.
Proof.
  split; [reflexivity |].
  assert (H : record_stream [record "s1" 5 ["P"; "Q"]]) by (repeat constructor).
  exact (each_record_counts_once insertion_order _ triple_row (KStr "P") H eq_refl).
Defined.

(** C5, as stated, fails: a first sighting stamped 0 does set [first_seen],
    to 0; [None] is falsy, so the check of line 78 passes. *)
Lemma zero_first_sighting_is_recorded :
  transaction_record zero_row = true /\
  row_timestamp zero_row = JInt 0 /\
  option_map Stats.first_seen
    (dict_get (KStr "P")
       (extract_programs_from_db (SI := insertion_order) [zero_row]))
  = Some (JInt 0) /\
  option_map Stats.first_seen
    (dict_get (KStr "P")
       (extract_programs_from_db (SI := insertion_order) [zero_row]))
  <> Some JNull.
Proof. repeat split. discriminate. Qed.

(** C5, amended.  If the first record that references a program carries
    timestamp exactly 0, the aggregator sets that program's [first_seen], and
    its [last_seen], to 0 from it. *)
Theorem zero_first_sighting_sets_bounds :
  forall (SI : SetIteration) (rows : list row) (r : row) (pid : pykey),
    record_stream rows -> transaction_record r = true ->
    dict_get pid (extract_programs_from_db rows) = None ->
    references pid r = true ->
    row_timestamp r = JInt 0 ->
    exists stats,
      dict_get pid (extract_programs_from_db (rows ++ [r])) = Some stats /\
      Stats.first_seen stats = JInt 0 /\ Stats.last_seen stats = JInt 0.
Proof.
  intros SI rows r pid H Hr Absent Ref T0.
  destruct (record_step rows r pid H Hr) as [src [typ [sig [t [pids [F G]]]]]].
  cbv zeta in G. rewrite Ref in G.
  unfold row_timestamp in T0. rewrite F in T0. cbn [timestamp] in T0.
  inversion T0; subst t.
  eexists. split; [exact G |].
  unfold stats_at. rewrite Absent. split; reflexivity.
Qed.

(** [P] is first seen in a record stamped 0, after a record of [Q]. *)
Lemma zero_first_sighting_sets_bounds_witness :
  exists stats,
    dict_get (KStr "P")
      (extract_programs_from_db (SI := insertion_order)
         ([record "s1" 5 ["Q"]] ++ [zero_row])) = Some stats /\
    Stats.first_seen stats = JInt 0 /\ Stats.last_seen stats = JInt 0.
Proof.
  assert (H : record_stream [record "s1" 5 ["Q"]]) by (repeat constructor).
  exact (zero_first_sighting_sets_bounds insertion_order _ zero_row (KStr "P")
           H eq_refl eq_refl eq_refl eq_refl).
Defined.

(** What line 78 does with a stored 0 at the next sighting: 0 is falsy, so
    the record's timestamp replaces it whatever it is. *)
Lemma zero_bound_replaced_at_next_sighting :
  forall (SI : SetIteration) (rows : list row) (r : row) (pid : pykey)
         (before : Stats.t) (t : Z),
    record_stream rows -> transaction_record r = true ->
    dict_get pid (extract_programs_from_db rows) = Some before ->
    Stats.first_seen before = JInt 0 ->
    references pid r = true ->
    row_timestamp r = JInt t ->
    exists stats,
      dict_get pid (extract_programs_from_db (rows ++ [r])) = Some stats /\
      Stats.first_seen stats = JInt t.
Proof.
  intros SI rows r pid before t H Hr Present Z0 Ref T.
  destruct (record_step rows r pid H Hr) as [src [typ [sig [t' [pids [F G]]]]]].
  cbv zeta in G. rewrite Ref in G.
  unfold row_timestamp in T. rewrite F in T. cbn [timestamp] in T.
  inversion T; subst t'.
  eexists. split; [exact G |].
  unfold stats_at. rewrite Present. cbn [Stats.first_seen]. rewrite Z0.
  reflexivity.
Qed.

(** C3: the row is valid JSON, its [source] is a list.  Line 73 has counted
    the program when line 74 raises; the handler of line 87 leaves the entry
    in the accumulator, with a count and nothing else, and the row is not
    counted as processed. *)
Theorem unhashable_source_row_half_folded :
  fields_of unhashable_source_row =
    Some (mkFields (JArr [JStr "HELIUS"]) (JStr "UNKNOWN") (JStr EmptyString) (JInt 0)
            [KStr "P"]) /\
  for_each_pid
    (mkFields (JArr [JStr "HELIUS"]) (JStr "UNKNOWN") (JStr EmptyString) (JInt 0)
       [KStr "P"]) [KStr "P"] [] =
    (Raise TypeError, [(KStr "P", Stats.mk 1 [] [] JNull JNull JNull)]) /\
  scan (SI := insertion_order) [unhashable_source_row] =
    mkScan [(KStr "P", Stats.mk 1 [] [] JNull JNull JNull)] 0 /\
  extract_programs_from_db (SI := insertion_order) [unhashable_source_row] <>
  extract_programs_from_db (SI := insertion_order) [].
Proof. repeat split. discriminate. Qed.

(** The rows that do leave the accumulator alone: those that raise before
    the loop over the program ids, [json.loads] included. *)
Lemma row_without_fields_skipped :
  forall (SI : SetIteration) (st : scan_state) (r : row),
    fields_of r = None -> process_row st r = st.
Proof.
  intros SI st [|tx]; [reflexivity |].
  unfold fields_of, process_row. destruct (row_fields tx); [discriminate |].
  reflexivity.
Qed.

Lemma rows_without_fields_removed :
  forall (SI : SetIteration) (rows : list row),
    scan rows =
    scan (filter (fun r => match fields_of r with Some _ => true | None => false end)
            rows).
Proof.
  intros SI rows. unfold scan. generalize scan_start.
  induction rows as [|r rows IH]; intro st; simpl; [reflexivity |].
  destruct (fields_of r) eqn:F; simpl.
  - apply IH.
  - rewrite (row_without_fields_skipped SI st r F). apply IH.
Qed.

(** C2, as stated, fails.  [sample_tx] is kept once it is set (lines
    76-77), and a stored bound of 0 is replaced at the next sighting, so
    both depend on the order of the rows. *)
Lemma statistics_depend_on_order :
  (record_stream two_signatures /\
   Permutation two_signatures (rev two_signatures) /\
   option_map Stats.sample_tx
     (dict_get (KStr "P")
        (extract_programs_from_db (SI := insertion_order) two_signatures))
   <> option_map Stats.sample_tx
        (dict_get (KStr "P")
           (extract_programs_from_db (SI := insertion_order)
              (rev two_signatures))))
  /\
  (record_stream zero_in_the_middle /\
   Permutation zero_in_the_middle zero_in_front /\
   option_map Stats.first_seen
     (dict_get (KStr "P")
        (extract_programs_from_db (SI := insertion_order) zero_in_the_middle))
   <> option_map Stats.first_seen
        (dict_get (KStr "P")
           (extract_programs_from_db (SI := insertion_order) zero_in_front))).
Proof.
  split; (split; [repeat constructor | split]).
  - apply Permutation_rev.
  - discriminate.
  - apply perm_swap.
  - discriminate.
Qed.

(** C2, amended.  Aggregating a stream of transaction records in any
    permutation yields, for every program id, the same presence, the same
    [count], the same members of [sources] and of [types]; and the same
    [first_seen] and [last_seen] when no record carries timestamp 0.
    Nothing is claimed of [sample_tx], which depends on the order. *)
Theorem aggregation_order_invariance :
  forall (SI : SetIteration) (rows rows' : list row) (pid : pykey),
    record_stream rows -> Permutation rows rows' ->
    match dict_get pid (extract_programs_from_db rows),
          dict_get pid (extract_programs_from_db rows') with
    | Some s, Some s' =>
        Stats.count s' = Stats.count s /\
        same_members (Stats.sources s') (Stats.sources s) /\
        same_members (Stats.types s') (Stats.types s) /\
        ((forall r, In r rows -> row_timestamp r <> JInt 0) ->
         Stats.first_seen s' = Stats.first_seen s /\
         Stats.last_seen s' = Stats.last_seen s)
    | None, None => True
    | _, _ => False
    end.
Proof.
  intros SI rows rows' pid H P.
  assert (H' : record_stream rows')
    by (unfold record_stream in *; exact (Permutation_Forall P H)).
  pose proof (scan_summary rows pid H) as S.
  pose proof (scan_summary rows' pid H') as S'.
  destruct (dict_get pid (extract_programs_from_db rows)) as [s|];
    destruct (dict_get pid (extract_programs_from_db rows')) as [s'|];
    unfold summarises in S, S'.
  - destruct S as [C [So [Ty [_ B]]]]. destruct S' as [C' [So' [Ty' [_ B']]]].
    split.
    { rewrite C, C'.
      rewrite (Permutation_length (Permutation_filter (references pid) _ _ P)).
      reflexivity. }
    split; [intro k; rewrite So, So'; symmetry; apply existsb_perm, P |].
    split; [intro k; rewrite Ty, Ty'; symmetry; apply existsb_perm, P |].
    intro NZ.
    assert (NZ' : forall r, In r rows' -> row_timestamp r <> JInt 0)
      by (intros r I; apply NZ, (Permutation_in _ (Permutation_sym P) I)).
    destruct (B (stamps_nonzero pid rows H NZ)) as [a [b [Ea [Eb [La Gb]]]]].
    destruct (B' (stamps_nonzero pid rows' H' NZ'))
      as [a' [b' [Ea' [Eb' [La' Gb']]]]].
    rewrite Ea, Eb, Ea', Eb'.
    rewrite (least_unique a a' _ _ (stamps_perm pid _ _ P) La La').
    rewrite (greatest_unique b b' _ _ (stamps_perm pid _ _ P) Gb Gb').
    split; reflexivity.
  - destruct S as [_ [_ [_ [[r [I R]] _]]]].
    rewrite (S' r (Permutation_in _ P I)) in R. discriminate.
  - destruct S' as [_ [_ [_ [[r [I R]] _]]]].
    rewrite (S r (Permutation_in _ (Permutation_sym P) I)) in R. discriminate.
  - exact I.
Qed.

(** Two records of [P] stamped 5 and 7, and the same two reversed. *)
Lemma aggregation_order_invariance_witness :
  option_map Stats.count
    (dict_get (KStr "P")
       (extract_programs_from_db (SI := insertion_order) (rev two_signatures)))
  = option_map Stats.count
      (dict_get (KStr "P")
         (extract_programs_from_db (SI := insertion_order) two_signatures))
  /\ option_map Stats.first_seen
       (dict_get (KStr "P")
          (extract_programs_from_db (SI := insertion_order) (rev two_signatures)))
     = Some (JInt 5).
Proof.
  assert (H : record_stream two_signatures) by (repeat constructor).
  pose proof (aggregation_order_invariance insertion_order two_signatures
                (rev two_signatures) (KStr "P") H (Permutation_rev _)) as A.
  destruct (dict_get (KStr "P")
              (extract_programs_from_db (SI := insertion_order) two_signatures))
    as [s|] eqn:E;
    destruct (dict_get (KStr "P")
                (extract_programs_from_db (SI := insertion_order)
                   (rev two_signatures))) as [s'|] eqn:E';
    try contradiction; try (vm_compute in E; discriminate).
  destruct A as [C [_ [_ B]]].
  cbn [option_map]. split; [rewrite C; reflexivity |].
  destruct B as [Bf _].
  - intros r I. vm_compute in I.
    destruct I as [<- | [<- | []]]; vm_compute; discriminate.
  - rewrite Bf. vm_compute in E. inversion E. reflexivity.
Defined.

(* ================================================================= *)
(** * Beyond the claims *)

(* ================================================================= *)
(** ** The aggregator on any rows *)

Lemma grows_refl (s : Stats.t) : grows s s.
Proof. unfold grows. repeat split; auto. lia. Qed.

Lemma grows_trans (s1 s2 s3 : Stats.t) :
  grows s1 s2 -> grows s2 s3 -> grows s1 s3.
Proof.
  intros [C1 [S1 T1]] [C2 [S2 T2]]. unfold grows.
  repeat split; [lia | auto | auto].
Qed.

Lemma loop_statements_grow (f : fields) :
  Forall (fun stmt : statement => forall s s', stmt s = Ok s' -> grows s s')
    (loop_body f).
Proof.
  unfold loop_body.
  repeat apply Forall_cons; try apply Forall_nil; intros s s';
    unfold incr_count, add_source, add_type, set_sample_tx, set_first_seen,
      set_last_seen, bind, grows.
  - intro H. inversion H; subst. simpl. repeat split; auto. lia.
  - destruct (hashable (source f)); [| discriminate].
    intro H. inversion H; subst. simpl. repeat split; auto; [lia |].
    intros k M. rewrite set_mem_add, M. apply orb_true_r.
  - destruct (hashable (tx_type f)); [| discriminate].
    intro H. inversion H; subst. simpl. repeat split; auto; [lia |].
    intros k M. rewrite set_mem_add, M. apply orb_true_r.
  - destruct (negb (truthy (Stats.sample_tx s))); intro H; inversion H; subst;
      simpl; repeat split; auto; lia.
  - destruct (if negb (truthy (Stats.first_seen s)) then Ok true
              else py_lt (timestamp f) (Stats.first_seen s)) as [[|]|];
      intro H; inversion H; subst; simpl; repeat split; auto; lia.
  - destruct (if negb (truthy (Stats.last_seen s)) then Ok true
              else py_gt (timestamp f) (Stats.last_seen s)) as [[|]|];
      intro H; inversion H; subst; simpl; repeat split; auto; lia.
Qed.

Lemma run_grows (body : list statement) (s : Stats.t) :
  Forall (fun stmt : statement => forall s s', stmt s = Ok s' -> grows s s')
    body ->
  grows s (snd (run body s)).
Proof.
  revert s. induction body as [|stmt body IH]; intros s F; simpl.
  - apply grows_refl.
  - inversion F as [|? ? Hs F']; subst.
    destruct (stmt s) as [s'|e] eqn:E; simpl.
    + apply (grows_trans s s'); [apply Hs, E | apply IH, F'].
    + apply grows_refl.
Qed.

Lemma entry_kept_refl (k : pykey) (ps : pydict Stats.t) : entry_kept k ps ps.
Proof.
  split; [apply grows_refl |].
  destruct (dict_get k ps); [right; discriminate | left; reflexivity].
Qed.

Lemma entry_kept_trans (k : pykey) (ps1 ps2 ps3 : pydict Stats.t) :
  entry_kept k ps1 ps2 -> entry_kept k ps2 ps3 -> entry_kept k ps1 ps3.
Proof.
  intros [G1 P1] [G2 P2]. split; [exact (grows_trans _ _ _ G1 G2) |].
  destruct P1 as [P1 | P1]; [left; exact P1 |].
  destruct P2 as [P2 | P2]; [contradiction | right; exact P2].
Qed.

Lemma update_stats_kept (f : fields) (pid k : pykey) (ps : pydict Stats.t) :
  entry_kept k ps (snd (update_stats f pid ps)).
Proof.
  unfold update_stats.
  pose proof (run_grows (loop_body f) (stats_at pid ps) (loop_statements_grow f))
    as G.
  destruct (run (loop_body f) (stats_at pid ps)) as [r s']. cbn [snd] in *.
  unfold entry_kept, stats_at at 2. rewrite dict_get_set.
  destruct (key_eqb pid k) eqn:E.
  - key_facts. rewrite <- (stats_at_compat pid k ps E).
    split; [exact G | right; discriminate].
  - fold (stats_at k ps). split; [apply grows_refl |].
    destruct (dict_get k ps); [right; discriminate | left; reflexivity].
Qed.

Lemma for_each_pid_kept (f : fields) (pids : list pykey) (k : pykey)
  (ps : pydict Stats.t) :
  entry_kept k ps (snd (for_each_pid f pids ps)).
Proof.
  revert ps. induction pids as [|pid rest IH]; intro ps; cbn [for_each_pid].
  - apply entry_kept_refl.
  - pose proof (update_stats_kept f pid k ps) as U.
    destruct (update_stats f pid ps) as [[[]|e] ps1]; cbn [snd] in *.
    + exact (entry_kept_trans _ _ _ _ U (IH ps1)).
    + exact U.
Qed.

Lemma process_row_kept {SI : SetIteration} (st : scan_state) (r : row)
  (k : pykey) :
  entry_kept k (program_stats st) (program_stats (process_row st r)).
Proof.
  destruct r as [|tx]; [apply entry_kept_refl |]. unfold process_row.
  destruct (row_fields tx) as [f|e]; [| apply entry_kept_refl].
  pose proof (for_each_pid_kept f (set_iter (programs f)) k (program_stats st))
    as K.
  destruct (for_each_pid f (set_iter (programs f)) (program_stats st))
    as [[[]|e] ps]; exact K.
Qed.

Lemma scan_kept {SI : SetIteration} (rows more : list row) (k : pykey) :
  entry_kept k (extract_programs_from_db rows)
    (extract_programs_from_db (rows ++ more)).
Proof.
  unfold extract_programs_from_db.
  induction more as [|r more IH] using rev_ind.
  - rewrite app_nil_r. apply entry_kept_refl.
  - rewrite app_assoc, scan_snoc.
    exact (entry_kept_trans _ _ _ _ IH (process_row_kept _ r k)).
Qed.

(** X1. Whatever the rows are, rows that raise half-way included, an entry
    of the accumulator is never removed, its count never decreases and no
    source or type is taken out of it; a count is never negative. *)
Theorem statistics_only_grow :
  forall (SI : SetIteration) (rows more : list row) (pid : pykey),
    match dict_get pid (extract_programs_from_db rows),
          dict_get pid (extract_programs_from_db (rows ++ more)) with
    | Some s, Some s' => grows s s'
    | Some _, None => False
    | None, Some s' => 0 <= Stats.count s'
    | None, None => True
    end.
Proof.
  intros SI rows more pid.
  destruct (scan_kept rows more pid) as [G P]. unfold stats_at in G.
  destruct (dict_get pid (extract_programs_from_db rows)) as [s|];
    destruct (dict_get pid (extract_programs_from_db (rows ++ more))) as [s'|];
    auto.
  - destruct P as [P | P]; [discriminate | apply P; reflexivity].
  - apply G.
Qed.

Lemma scan_without_rows_short_of_loop {SI : SetIteration} (rows : list row) :
  scan rows = scan (filter reaches_loop rows) /\
  0 <= processed (scan rows)
    <= Z.of_nat (List.length (filter reaches_loop rows)) /\
  (record_stream rows ->
   processed (scan rows) = Z.of_nat (List.length rows)).
Proof.
  split; [| split].
  - unfold scan. generalize scan_start.
    induction rows as [|r rows IH]; intro st; simpl; [reflexivity |].
    change (reaches_loop r)
      with (match fields_of r with Some _ => true | None => false end).
    destruct (fields_of r) eqn:F; simpl; [apply IH |].
    destruct r as [|tx]; [apply IH |].
    unfold fields_of in F. unfold process_row at 2.
    destruct (row_fields tx); [discriminate | apply IH].
  - induction rows as [|r rows IH] using rev_ind; [simpl; lia |].
    rewrite scan_snoc, filter_app, length_app. cbn [filter].
    change (reaches_loop r)
      with (match fields_of r with Some _ => true | None => false end).
    destruct r as [|tx]; cbn [fields_of process_row].
    + simpl. lia.
    + destruct (row_fields tx) as [f|e]; cbn [List.length].
      * destruct (for_each_pid f (set_iter (programs f))
                    (program_stats (scan rows))) as [[[]|e] ps];
          cbn [processed]; lia.
      * simpl. lia.
  - intro H. apply (scan_records rows H).
Qed.

Lemma scan_cursor_fetched {SI : SetIteration} (cells : list cell)
  (st : scan_state) :
  scan_cursor cells st =
  option_map (fun rows => fold_left process_row rows st) (fetched cells).
Proof.
  revert st. induction cells as [|[r|] cells IH]; intro st;
    cbn [scan_cursor fetched]; [reflexivity | | reflexivity].
  rewrite IH. destruct (fetched cells); reflexivity.
Qed.

Lemma extract_from_fetched {SI : SetIteration} (cells : list cell)
  (rows : list row) :
  fetched cells = Some rows ->
  extract_from (Table cells) = Some (extract_programs_from_db rows).
Proof.
  intro F. unfold extract_from. rewrite scan_cursor_fetched, F. reflexivity.
Qed.

(** X2. A step of the cursor that raises ends the scan: no accumulator is
    returned, whatever was fetched before.  When every step yields its row,
    the rows that raise before the loop over the program ids, rows that are
    not JSON among them, count for nothing: the scan of the table is the
    scan of the table without them.  The counter of processed rows is at
    most the number of the other rows, and on a stream of transaction
    records it is the number of rows. *)
Theorem processed_rows_counted :
  forall (SI : SetIteration) (cells : list cell),
    match fetched cells with
    | None => scan_cursor cells scan_start = None
    | Some rows =>
        scan_cursor cells scan_start = Some (scan rows) /\
        scan rows = scan (filter reaches_loop rows) /\
        0 <= processed (scan rows)
          <= Z.of_nat (List.length (filter reaches_loop rows)) /\
        (record_stream rows ->
         processed (scan rows) = Z.of_nat (List.length rows))
    end.
Proof.
  intros SI cells. rewrite scan_cursor_fetched.
  destruct (fetched cells) as [rows|]; [| reflexivity].
  split; [reflexivity |]. apply scan_without_rows_short_of_loop.
Qed.

(** A table of two records, both fetched. *)
Lemma processed_rows_counted_witness :
  option_map processed
    (scan_cursor (SI := insertion_order) (map Cell two_programs) scan_start)
  = Some 2.
Proof.
  assert (H : record_stream two_programs) by (repeat constructor).
  pose proof (processed_rows_counted insertion_order (map Cell two_programs))
    as P.
  change (fetched (map Cell two_programs)) with (Some two_programs) in P.
  destruct P as [E [_ [_ Q]]].
  rewrite E. cbn [option_map]. rewrite (Q H). reflexivity.
Defined.

(* ================================================================= *)
(** ** The aggregator on transaction records *)

(** X3. On a stream of transaction records the accumulator has an entry for
    a program id exactly when some record references it, and its [count] is
    the number of records that do. *)
Theorem count_is_number_of_referencing_records :
  forall (SI : SetIteration) (rows : list row) (pid : pykey),
    record_stream rows ->
    count_of pid (extract_programs_from_db rows) =
      Z.of_nat (List.length (filter (references pid) rows)) /\
    (dict_get pid (extract_programs_from_db rows) = None <->
     forall r, In r rows -> references pid r = false).
Proof.
  intros SI rows pid H. pose proof (scan_summary rows pid H) as S.
  unfold count_of.
  destruct (dict_get pid (extract_programs_from_db rows)) as [s|];
    unfold summarises in S.
  - destruct S as [C [_ [_ [[r [I R]] _]]]]. split; [exact C |].
    split; [discriminate |]. intro A. rewrite (A r I) in R. discriminate.
  - split; [rewrite (filter_none _ rows S); reflexivity |].
    split; [intros _; exact S | reflexivity].
Qed.

Lemma count_is_number_of_referencing_records_witness :
  count_of (KStr "P") (extract_programs_from_db (SI := insertion_order) two_programs)
  = 2 /\
  count_of (KStr "Q") (extract_programs_from_db (SI := insertion_order) two_programs)
  = 1.
Proof.
  assert (H : record_stream two_programs) by (repeat constructor).
  split.
  - exact (proj1 (count_is_number_of_referencing_records insertion_order
                    two_programs (KStr "P") H)).
  - exact (proj1 (count_is_number_of_referencing_records insertion_order
                    two_programs (KStr "Q") H)).
Defined.

(** X4. On a stream of transaction records the [sources] of a program are
    the source tags of the records that reference it, and its [types] their
    type tags, ["UNKNOWN"] standing for an absent tag. *)
Theorem sources_and_types_are_those_seen :
  forall (SI : SetIteration) (rows : list row) (pid : pykey) (s : Stats.t)
         (tag : string),
    record_stream rows ->
    dict_get pid (extract_programs_from_db rows) = Some s ->
    (set_mem (KStr tag) (Stats.sources s) = true <->
     exists r, In r rows /\ references pid r = true /\ row_source r = JStr tag)
    /\
    (set_mem (KStr tag) (Stats.types s) = true <->
     exists r, In r rows /\ references pid r = true /\ row_type r = JStr tag).
Proof.
  intros SI rows pid s tag H G. pose proof (scan_summary rows pid H) as S.
  rewrite G in S. destruct S as [_ [So [Ty _]]].
  unfold record_stream in H. rewrite Forall_forall in H.
  split.
  - rewrite So, existsb_exists. split.
    + intros [r [I A]]. apply andb_true_iff in A. destruct A as [R A].
      exists r. split; [exact I |]. split; [exact R |].
      destruct (transaction_record_fields r (H r I))
        as [src [typ [sig [t [pids [F _]]]]]].
      unfold source_is, row_source in *. rewrite F in *. cbn [source hashable] in *.
      key_facts. cbn [key_class] in A. congruence.
    + intros [r [I [R A]]]. exists r. split; [exact I |].
      rewrite R. unfold source_is. rewrite A. cbn [hashable andb].
      apply key_eqb_refl.
  - rewrite Ty, existsb_exists. split.
    + intros [r [I A]]. apply andb_true_iff in A. destruct A as [R A].
      exists r. split; [exact I |]. split; [exact R |].
      destruct (transaction_record_fields r (H r I))
        as [src [typ [sig [t [pids [F _]]]]]].
      unfold type_is, row_type in *. rewrite F in *. cbn [tx_type hashable] in *.
      key_facts. cbn [key_class] in A. congruence.
    + intros [r [I [R A]]]. exists r. split; [exact I |].
      rewrite R. unfold type_is. rewrite A. cbn [hashable andb].
      apply key_eqb_refl.
Qed.

Lemma sources_and_types_are_those_seen_witness :
  exists s,
    dict_get (KStr "Q") (extract_programs_from_db (SI := insertion_order) two_programs)
    = Some s /\
    set_mem (KStr "HELIUS") (Stats.sources s) = true /\
    set_mem (KStr "SWAP") (Stats.types s) = true.
Proof.
  assert (H : record_stream two_programs) by (repeat constructor).
  destruct (dict_get (KStr "Q")
              (extract_programs_from_db (SI := insertion_order) two_programs))
    as [s|] eqn:E; [| vm_compute in E; discriminate].
  exists s. split; [reflexivity |].
  destruct (sources_and_types_are_those_seen insertion_order two_programs
              (KStr "Q") s "HELIUS" H E) as [So _].
  destruct (sources_and_types_are_those_seen insertion_order two_programs
              (KStr "Q") s "SWAP" H E) as [_ Ty].
  split.
  - apply So. exists (record "sig2" 7 ["P"; "Q"]).
    split; [right; left; reflexivity | split; reflexivity].
  - apply Ty. exists (record "sig2" 7 ["P"; "Q"]).
    split; [right; left; reflexivity | split; reflexivity].
Defined.

(** X5. On a stream of transaction records none of which is stamped 0,
    [first_seen] is the least and [last_seen] the greatest timestamp of the
    records that reference the program. *)
Theorem bounds_are_min_and_max :
  forall (SI : SetIteration) (rows : list row) (pid : pykey) (s : Stats.t),
    record_stream rows ->
    (forall r, In r rows -> row_timestamp r <> JInt 0) ->
    dict_get pid (extract_programs_from_db rows) = Some s ->
    exists a b,
      Stats.first_seen s = JInt a /\ Stats.last_seen s = JInt b /\
      least a (stamps pid rows) /\ greatest b (stamps pid rows).
Proof.
  intros SI rows pid s H NZ G. pose proof (scan_summary rows pid H) as S.
  rewrite G in S. destruct S as [_ [_ [_ [_ B]]]].
  exact (B (stamps_nonzero pid rows H NZ)).
Qed.

Lemma bounds_are_min_and_max_witness :
  exists s a b,
    dict_get (KStr "P") (extract_programs_from_db (SI := insertion_order) two_programs)
    = Some s /\
    Stats.first_seen s = JInt a /\ Stats.last_seen s = JInt b /\
    least a [5; 7] /\ greatest b [5; 7].
Proof.
  assert (H : record_stream two_programs) by (repeat constructor).
  assert (NZ : forall r, In r two_programs -> row_timestamp r <> JInt 0).
  { intros r [<- | [<- | []]]; vm_compute; discriminate. }
  destruct (dict_get (KStr "P")
              (extract_programs_from_db (SI := insertion_order) two_programs))
    as [s|] eqn:E; [| vm_compute in E; discriminate].
  destruct (bounds_are_min_and_max insertion_order two_programs (KStr "P") s
              H NZ E) as [a [b [Ea [Eb [L G]]]]].
  exists s, a, b. repeat split; auto; try apply L; try apply G.
Defined.

Lemma first_truthy_is_truthy (l : list json) (x : json) :
  first_truthy l = Some x -> truthy x = true.
Proof.
  induction l as [|y l IH]; simpl; [discriminate |].
  destruct (truthy y) eqn:T; [| exact IH].
  intro H. inversion H; subst. exact T.
Qed.

Lemma first_truthy_snoc (l : list json) (x : json) :
  first_truthy (l ++ [x]) =
  match first_truthy l with
  | Some y => Some y
  | None => if truthy x then Some x else None
  end.
Proof.
  induction l as [|y l IH]; simpl; [reflexivity |].
  destruct (truthy y); [reflexivity | exact IH].
Qed.

Lemma absent_not_referenced {SI : SetIteration} (rows : list row)
  (pid : pykey) :
  record_stream rows ->
  dict_get pid (extract_programs_from_db rows) = None ->
  filter (references pid) rows = [].
Proof.
  intros H G. pose proof (scan_summary rows pid H) as S. rewrite G in S.
  apply filter_none, S.
Qed.

(** X6. On a stream of transaction records [sample_tx] is the signature of
    the first record, in stream order, that references the program and has
    a signature that is not empty; it is the empty string when every such
    record is unsigned. *)
Theorem sample_tx_is_first_signature :
  forall (SI : SetIteration) (rows : list row) (pid : pykey) (s : Stats.t),
    record_stream rows ->
    dict_get pid (extract_programs_from_db rows) = Some s ->
    Stats.sample_tx s =
    match first_truthy (signatures pid rows) with
    | Some sig => sig
    | None => JStr EmptyString
    end.
Proof.
  intros SI rows pid.
  induction rows as [|r rows IH] using rev_ind; intros s H G;
    [discriminate |].
  apply Forall_app in H. destruct H as [H Hr].
  inversion Hr as [|? ? Hr' _]; subst.
  destruct (record_step rows r pid H Hr') as [src [typ [sig [t [pids [F E]]]]]].
  cbv zeta in E. rewrite E in G. clear E.
  unfold signatures. rewrite filter_app, map_app. cbn [filter].
  destruct (references pid r) eqn:Ref.
  - inversion G; subst s. clear G. cbn [Stats.sample_tx map].
    rewrite first_truthy_snoc.
    assert (Sig : row_signature r = JStr sig)
      by (unfold row_signature; rewrite F; reflexivity).
    rewrite Sig. unfold stats_at.
    destruct (dict_get pid (extract_programs_from_db rows)) as [s0|] eqn:G0.
    + rewrite (IH s0 H eq_refl). fold (signatures pid rows).
      destruct (first_truthy (signatures pid rows)) as [x|] eqn:Ft.
      * rewrite (first_truthy_is_truthy _ _ Ft). reflexivity.
      * cbn [truthy String.eqb negb].
        destruct (String.eqb sig EmptyString) eqn:Es; cbn [negb];
          [apply String.eqb_eq in Es; subst sig |]; reflexivity.
    + rewrite (absent_not_referenced rows pid H G0).
      cbn [default_stats Stats.sample_tx truthy map first_truthy].
      destruct (String.eqb sig EmptyString) eqn:Es; cbn [negb];
        [apply String.eqb_eq in Es; subst sig |]; reflexivity.
  - cbn [map]. rewrite app_nil_r. apply (IH s H G).
Qed.

(** The first record is unsigned, the second is signed [sigB]. *)
Lemma sample_tx_is_first_signature_witness :
  option_map Stats.sample_tx
    (dict_get (KStr "P")
       (extract_programs_from_db (SI := insertion_order) unsigned_first))
  = Some (JStr "sigB").
Proof.
  assert (H : record_stream unsigned_first) by (repeat constructor).
  destruct (dict_get (KStr "P")
              (extract_programs_from_db (SI := insertion_order) unsigned_first))
    as [s|] eqn:E; [| vm_compute in E; discriminate].
  cbn [option_map].
  rewrite (sample_tx_is_first_signature insertion_order unsigned_first
             (KStr "P") s H E).
  reflexivity.
Defined.

(** X7. On a stream of transaction records the statistics of every program
    are the same whatever the order in which the ids of a record's set are
    iterated. *)
Theorem statistics_independent_of_set_order :
  forall (SI SI' : SetIteration) (rows : list row) (pid : pykey),
    record_stream rows ->
    dict_get pid (extract_programs_from_db (SI := SI) rows) =
    dict_get pid (extract_programs_from_db (SI := SI') rows).
Proof.
  intros SI SI' rows pid.
  induction rows as [|r rows IH] using rev_ind; intro H; [reflexivity |].
  apply Forall_app in H. destruct H as [H Hr].
  inversion Hr as [|? ? Hr' _]; subst.
  destruct (record_step (SI := SI) rows r pid H Hr')
    as [src [typ [sig [t [pids [F E]]]]]].
  destruct (record_step (SI := SI') rows r pid H Hr')
    as [src' [typ' [sig' [t' [pids' [F' E']]]]]].
  rewrite F in F'. inversion F'; subst. clear F'.
  cbv zeta in E, E'. rewrite E, E'. unfold stats_at. rewrite (IH H).
  reflexivity.
Qed.

(** A record that names two programs, iterated oldest or newest first. *)
Lemma statistics_independent_of_set_order_witness :
  dict_get (KStr "Q") (extract_programs_from_db (SI := insertion_order) two_programs)
  = dict_get (KStr "Q") (extract_programs_from_db (SI := newest_first) two_programs)
  /\ map fst (extract_programs_from_db (SI := newest_first)
                [record "sig2" 7 ["P"; "Q"]]) = [KStr "Q"; KStr "P"].
Proof.
  assert (H : record_stream two_programs) by (repeat constructor).
  split; [| reflexivity].
  exact (statistics_independent_of_set_order insertion_order newest_first
           two_programs (KStr "Q") H).
Defined.

(** X8. A stored bound of 0 does not survive the next sighting: whatever
    the timestamp of the next record that references the program, it
    replaces a [first_seen] of 0, and a [last_seen] of 0. *)
Theorem zero_bounds_do_not_survive :
  forall (SI : SetIteration) (rows : list row) (r : row) (pid : pykey)
         (before : Stats.t) (t : Z),
    record_stream rows -> transaction_record r = true ->
    dict_get pid (extract_programs_from_db rows) = Some before ->
    references pid r = true ->
    row_timestamp r = JInt t ->
    exists after,
      dict_get pid (extract_programs_from_db (rows ++ [r])) = Some after /\
      (Stats.first_seen before = JInt 0 -> Stats.first_seen after = JInt t) /\
      (Stats.last_seen before = JInt 0 -> Stats.last_seen after = JInt t).
Proof.
  intros SI rows r pid before t H Hr Present Ref T.
  destruct (record_step rows r pid H Hr) as [src [typ [sig [t' [pids [F G]]]]]].
  cbv zeta in G. rewrite Ref in G.
  unfold row_timestamp in T. rewrite F in T. cbn [timestamp] in T.
  inversion T; subst t'.
  eexists. split; [exact G |].
  unfold stats_at. rewrite Present.
  cbn [Stats.first_seen Stats.last_seen].
  split; intros ->; reflexivity.
Qed.

(** Timestamps 3, 0, 9 and 0, 9: a later record stamped 9 becomes
    [first_seen]. *)
Lemma zero_bounds_do_not_survive_witness :
  exists after,
    dict_get (KStr "P")
      (extract_programs_from_db (SI := insertion_order)
         ([record "s" 3 ["P"]; zero_row] ++ [record "s" 9 ["P"]]))
    = Some after /\
    Stats.first_seen after = JInt 9.
Proof.
  assert (H : record_stream [record "s" 3 ["P"]; zero_row])
    by (repeat constructor).
  destruct (dict_get (KStr "P")
              (extract_programs_from_db (SI := insertion_order)
                 [record "s" 3 ["P"]; zero_row])) as [before|] eqn:E;
    [| vm_compute in E; discriminate].
  destruct (zero_bounds_do_not_survive insertion_order _ (record "s" 9 ["P"])
              (KStr "P") before 9 H eq_refl E eq_refl eq_refl)
    as [after [G [Fs _]]].
  exists after. split; [exact G |]. apply Fs.
  vm_compute in E. inversion E. reflexivity.
Defined.

(* ================================================================= *)
(** ** The reconciler *)

Lemma existsb_has_id_same_ids (k : pykey) (l l' : list Entry.t) :
  map Entry.programId l = map Entry.programId l' ->
  existsb (has_id k) l = existsb (has_id k) l'.
Proof.
  revert l'. induction l as [|p l IH]; intros [|p' l'] E; simpl in *;
    try discriminate; [reflexivity |].
  inversion E as [[Ep El]]. unfold has_id at 1 3. rewrite Ep, (IH l' El).
  reflexivity.
Qed.

Lemma existsb_new_entries {SI : SetIteration} (clk : clock) (k : pykey)
  (items : pydict Stats.t) :
  existsb (has_id k)
    (map (fun item => new_entry clk (fst item) (snd item)) items) =
  set_mem k (map fst items).
Proof.
  unfold set_mem. induction items as [|[k' s] items IH]; simpl; [reflexivity |].
  rewrite IH. unfold has_id. simpl. rewrite (key_eqb_sym k' k). reflexivity.
Qed.

Lemma set_mem_unknown_items (registry : Registry.t) (k : pykey)
  (items : pydict Stats.t) :
  set_mem k (existing_programs registry) = false ->
  set_mem k (map fst (filter (unknown registry) items)) =
  set_mem k (map fst items).
Proof.
  intro K. unfold set_mem. induction items as [|[k' s] items IH]; simpl;
    [reflexivity |].
  unfold unknown at 1. cbn [fst].
  destruct (key_eqb k k') eqn:E.
  - key_facts. rewrite <- (set_mem_compat k k' _ E), K. simpl.
    rewrite (proj2 (key_eqb_class k k') E). reflexivity.
  - destruct (negb (set_mem k' (existing_programs registry))); simpl;
      [rewrite E |]; exact IH.
Qed.

Lemma dict_get_absent_all {V} (k : pykey) (d : pydict V) :
  dict_get k d = None ->
  Forall (fun item => key_class (fst item) <> key_class k) d.
Proof.
  induction d as [|[k0 v0] d IH]; simpl; intro H; [constructor |].
  destruct (key_eqb k0 k) eqn:E; [discriminate |].
  key_facts. constructor; [exact E | apply IH, H].
Qed.

(** X9. The identifiers the written registry knows are those the loaded
    registry knew and those of the aggregate: every aggregated identifier
    ends up a key of [programs] or the id of a pending entry, and nothing
    else becomes known. *)
Theorem known_after_run :
  forall (SI : SetIteration) (clk : clock) (registry : Registry.t)
         (program_stats : pydict Stats.t) (k : pykey),
    let '(_, _, saved) := reconcile clk registry program_stats in
    set_mem k (existing_programs saved) =
    set_mem k (existing_programs registry) || set_mem k (map fst program_stats).
Proof.
  intros SI clk registry items k.
  pose proof (reconcile_pending clk registry items) as R. cbv zeta in R.
  pose proof (classify_new_programs clk (existing_programs registry) items
                (mkLoop (Registry.programs registry)
                   (Registry.pending_review registry) [])) as New.
  cbn [new_programs app] in New.
  destruct (classify_frame clk (existing_programs registry) items
              (mkLoop (Registry.programs registry)
                 (Registry.pending_review registry) [])) as [Ids Keys].
  cbn [loop_pending loop_programs] in Ids, Keys.
  destruct (reconcile clk registry items) as [[n pp] saved].
  destruct R as [_ [_ [Rp [Perm _]]]].
  rewrite (existing_programs_mem k saved), (existing_programs_mem k registry).
  rewrite Rp, (programs_mem_keys k _ _ Keys).
  rewrite (existsb_perm (has_id k) _ _ Perm), existsb_app.
  rewrite (existsb_has_id_same_ids k _ _ Ids), New.
  fold (unknown registry). rewrite existsb_new_entries.
  destruct (programs_mem k (Registry.programs registry)) eqn:M; [reflexivity |].
  destruct (existsb (has_id k) (Registry.pending_review registry)) eqn:X;
    [reflexivity |].
  cbn [orb]. apply set_mem_unknown_items.
  rewrite existing_programs_mem, M, X. reflexivity.
Qed.

(** X10. The reconciler adds no key to [programs] and removes none;
    [verified_count] is the number of programs loaded; and the entry of a
    program that is not in the aggregate is written as it was loaded. *)
Theorem programs_are_curated_only :
  forall (SI : SetIteration) (clk : clock) (registry : Registry.t)
         (program_stats : pydict Stats.t) (k : pykey),
    let '(_, _, saved) := reconcile clk registry program_stats in
    map fst (Registry.programs saved) = map fst (Registry.programs registry) /\
    Registry.verified_count saved =
      Z.of_nat (List.length (Registry.programs registry)) /\
    (dict_get k program_stats = None ->
     programs_get k (Registry.programs saved) =
     programs_get k (Registry.programs registry)).
Proof.
  intros SI clk registry items k.
  pose proof (reconcile_pending clk registry items) as R. cbv zeta in R.
  pose proof (reconcile_metadata clk registry items) as Meta.
  destruct (classify_frame clk (existing_programs registry) items
              (mkLoop (Registry.programs registry)
                 (Registry.pending_review registry) [])) as [_ Keys].
  cbn [loop_programs] in Keys.
  pose proof (fun F => classify_others clk (existing_programs registry) k items
                (mkLoop (Registry.programs registry)
                   (Registry.pending_review registry) []) F) as Others.
  cbn [loop_programs loop_pending] in Others.
  destruct (reconcile clk registry items) as [[n pp] saved].
  destruct R as [_ [_ [Rp _]]]. destruct Meta as [_ [_ [_ [V _]]]].
  rewrite Rp. split; [exact Keys |]. split.
  - rewrite V, Rp, <- (length_map fst), Keys, length_map. reflexivity.
  - intro G. apply (Others (dict_get_absent_all k items G)).
Qed.

Lemma programs_are_curated_only_witness :
  let '(_, _, saved) :=
    reconcile (SI := insertion_order) a_clock curated_registry curated_stats in
  programs_get (KStr "V") (Registry.programs saved) =
  Some [("name", JStr "Vault"); ("count", JInt 2)].
Proof.
  pose proof (programs_are_curated_only insertion_order a_clock
                curated_registry curated_stats (KStr "V")) as H.
  destruct (reconcile a_clock curated_registry curated_stats)
    as [[n pp] saved].
  destruct H as [_ [_ H]]. rewrite (H eq_refl). reflexivity.
Defined.

(** X11. The number a run returns is the number of aggregated items whose
    identifier the loaded registry does not know; the pending list grows by
    exactly that many entries, none is dropped, and [pending_count] and
    [total_programs] are the lengths of the written list and of the
    aggregate. *)
Theorem pending_grows_by_new_count :
  forall (SI : SetIteration) (clk : clock) (registry : Registry.t)
         (program_stats : pydict Stats.t),
    let '(new_count, pending_programs, saved) :=
      reconcile clk registry program_stats in
    new_count =
      Z.of_nat (List.length (filter (unknown registry) program_stats)) /\
    pending_programs = Registry.pending_review saved /\
    Z.of_nat (List.length (Registry.pending_review saved)) =
      Z.of_nat (List.length (Registry.pending_review registry)) + new_count /\
    Registry.pending_count saved =
      Z.of_nat (List.length (Registry.pending_review saved)) /\
    Registry.total_programs saved = Z.of_nat (List.length program_stats).
Proof.
  intros SI clk registry items.
  pose proof (reconcile_pending clk registry items) as R. cbv zeta in R.
  pose proof (reconcile_metadata clk registry items) as Meta.
  pose proof (classify_new_programs clk (existing_programs registry) items
                (mkLoop (Registry.programs registry)
                   (Registry.pending_review registry) [])) as New.
  cbn [new_programs app] in New.
  destruct (classify_frame clk (existing_programs registry) items
              (mkLoop (Registry.programs registry)
                 (Registry.pending_review registry) [])) as [Ids _].
  cbn [loop_pending] in Ids.
  destruct (reconcile clk registry items) as [[n pp] saved].
  destruct R as [Rn [Rr [_ [Perm _]]]].
  destruct Meta as [_ [_ [T [_ P]]]].
  assert (N : n = Z.of_nat (List.length (filter (unknown registry) items))).
  { rewrite Rn, New, length_map. reflexivity. }
  split; [exact N |]. split; [exact Rr |]. split; [| split; assumption].
  rewrite (Permutation_length Perm), length_app, New, length_map.
  rewrite <- (length_map Entry.programId (loop_pending _)), Ids, length_map.
  rewrite N. unfold unknown. lia.
Qed.

(** X12. Every aggregated identifier the loaded registry does not know gets
    a pending entry that carries the aggregate's count and sample
    transaction, the members of its [sources], the explorer link built from
    the identifier, the status ["pending_review"] and the time of
    detection. *)
Theorem unknown_program_is_appended :
  forall (SI : SetIteration) (clk : clock) (registry : Registry.t)
         (program_stats : pydict Stats.t) (pid : pykey) (stats : Stats.t),
    In (pid, stats) program_stats ->
    set_mem pid (existing_programs registry) = false ->
    let '(_, _, saved) := reconcile clk registry program_stats in
    exists e,
      In e (Registry.pending_review saved) /\
      Entry.programId e = pid /\
      Entry.count e = Stats.count stats /\
      Entry.sample_tx e = Stats.sample_tx stats /\
      Entry.solscan_url e =
        String.append "https://solscan.io/account/" (py_str pid) /\
      Entry.status e = "pending_review" /\
      Entry.detected_at e = detected_now clk pid /\
      Permutation (Entry.sources e) (map key_value (Stats.sources stats)).
Proof.
  intros SI clk registry items pid stats I U.
  pose proof (reconcile_pending clk registry items) as R. cbv zeta in R.
  pose proof (classify_new_programs clk (existing_programs registry) items
                (mkLoop (Registry.programs registry)
                   (Registry.pending_review registry) [])) as New.
  cbn [new_programs app] in New.
  destruct (reconcile clk registry items) as [[n pp] saved].
  destruct R as [_ [_ [_ [Perm _]]]].
  exists (new_entry clk pid stats). split.
  - apply (Permutation_in _ (Permutation_sym Perm)), in_or_app. right.
    rewrite New.
    apply (in_map (fun item => new_entry clk (fst item) (snd item)) _
             (pid, stats)).
    apply filter_In. split; [exact I |]. cbn [fst]. rewrite U. reflexivity.
  - cbn [new_entry Entry.programId Entry.count Entry.sample_tx
         Entry.solscan_url Entry.status Entry.detected_at Entry.sources].
    repeat split. apply Permutation_map, set_iter_perm.
Qed.

Lemma unknown_program_is_appended_witness :
  let '(_, _, saved) :=
    reconcile (SI := insertion_order) a_clock curated_registry curated_stats in
  exists e,
    In e (Registry.pending_review saved) /\
    Entry.programId e = KStr "N" /\ Entry.count e = 9 /\
    Entry.solscan_url e = "https://solscan.io/account/N".
Proof.
  pose proof (unknown_program_is_appended insertion_order a_clock
                curated_registry curated_stats (KStr "N") (seen 9)
                (or_introl eq_refl) eq_refl) as H.
  destruct (reconcile a_clock curated_registry curated_stats)
    as [[n pp] saved].
  destruct H as [e [I [Ep [Ec [_ [Eu _]]]]]].
  exists e. repeat split; assumption.
Defined.

Lemma update_pending_without_count (pid : pykey) (c : Z) (l : list Entry.t) :
  map without_count (update_pending pid c l) = map without_count l.
Proof.
  induction l as [|p l IH]; simpl; [reflexivity |].
  destruct (key_eqb (Entry.programId p) pid); simpl; [| rewrite IH]; reflexivity.
Qed.

Lemma classify_without_count {SI : SetIteration} (clk : clock)
  (existing : pyset) (items : pydict Stats.t) (st : loop_state) :
  map without_count (loop_pending (fold_left (classify clk existing) items st))
  = map without_count (loop_pending st).
Proof.
  revert st. induction items as [|[pid stats] items IH]; intro st;
    cbn [fold_left]; [reflexivity |].
  rewrite IH. unfold classify.
  destruct (negb (set_mem pid existing)); [reflexivity |].
  destruct (programs_mem pid (loop_programs st)); cbn [loop_pending];
    [reflexivity | apply update_pending_without_count].
Qed.

(** X13. Of a loaded pending entry the reconciler changes the count and
    nothing else: counts apart, the written list holds the loaded entries
    and the entries of the new programs, and it holds them in the loaded
    order when nothing is new. *)
Theorem pending_entries_keep_their_fields :
  forall (SI : SetIteration) (clk : clock) (registry : Registry.t)
         (program_stats : pydict Stats.t),
    let '(new_count, _, saved) := reconcile clk registry program_stats in
    Permutation
      (map without_count (Registry.pending_review saved))
      (map without_count (Registry.pending_review registry) ++
       map (fun item => without_count (new_entry clk (fst item) (snd item)))
         (filter (unknown registry) program_stats))
    /\ (new_count = 0 ->
        map without_count (Registry.pending_review saved) =
        map without_count (Registry.pending_review registry)).
Proof.
  intros SI clk registry items.
  pose proof (reconcile_pending clk registry items) as R. cbv zeta in R.
  pose proof (classify_new_programs clk (existing_programs registry) items
                (mkLoop (Registry.programs registry)
                   (Registry.pending_review registry) [])) as New.
  cbn [new_programs app] in New.
  pose proof (classify_without_count clk (existing_programs registry) items
                (mkLoop (Registry.programs registry)
                   (Registry.pending_review registry) [])) as W.
  cbn [loop_pending] in W.
  destruct (reconcile clk registry items) as [[n pp] saved].
  destruct R as [Rn [_ [_ [Perm Same]]]].
  split.
  - rewrite (Permutation_map without_count Perm), map_app, W, New, map_map.
    apply Permutation_refl.
  - intro Z0. rewrite Same, W; [reflexivity |].
    destruct (new_programs _); [reflexivity | simpl in Rn; lia].
Qed.

Lemma pending_entries_keep_their_fields_witness :
  let '(_, _, saved) :=
    reconcile (SI := insertion_order) a_clock stale_registry stale_stats in
  map without_count (Registry.pending_review saved) =
  [pending "A" 0; pending "B" 0].
Proof.
  pose proof (pending_entries_keep_their_fields insertion_order a_clock
                stale_registry stale_stats) as H.
  destruct (reconcile a_clock stale_registry stale_stats)
    as [[n pp] saved] eqn:R.
  destruct H as [_ H].
  assert (Z0 : n = 0) by (vm_compute in R; inversion R; reflexivity).
  rewrite (H Z0). reflexivity.
Defined.

(** X14. The pending entries of an identifier that is not in the aggregate
    are written exactly as they were loaded, count included. *)
Theorem pending_outside_aggregate_untouched :
  forall (SI : SetIteration) (clk : clock) (registry : Registry.t)
         (program_stats : pydict Stats.t) (k : pykey),
    dict_get k program_stats = None ->
    let '(_, _, saved) := reconcile clk registry program_stats in
    Permutation (filter (has_id k) (Registry.pending_review saved))
      (filter (has_id k) (Registry.pending_review registry)).
Proof.
  intros SI clk registry items k G.
  pose proof (reconcile_pending clk registry items) as R. cbv zeta in R.
  pose proof (classify_new_programs clk (existing_programs registry) items
                (mkLoop (Registry.programs registry)
                   (Registry.pending_review registry) [])) as New.
  cbn [new_programs app] in New.
  destruct (classify_others clk (existing_programs registry) k items
              (mkLoop (Registry.programs registry)
                 (Registry.pending_review registry) [])
              (dict_get_absent_all k items G)) as [_ L].
  cbn [loop_pending] in L.
  destruct (reconcile clk registry items) as [[n pp] saved].
  destruct R as [_ [_ [_ [Perm _]]]].
  rewrite (Permutation_filter (has_id k) _ _ Perm), filter_app, L, New.
  rewrite (filter_none (has_id k)
             (map (fun item => new_entry clk (fst item) (snd item))
                (filter (fun item => negb (set_mem (fst item)
                                             (existing_programs registry)))
                   items)));
    [rewrite app_nil_r; apply Permutation_refl |].
  intros e I. apply in_map_iff in I. destruct I as [[k' s] [E I]].
  apply filter_In in I. destruct I as [I _]. subst e.
  unfold has_id. cbn [new_entry Entry.programId fst].
  pose proof (dict_get_absent_all k items G) as A.
  rewrite Forall_forall in A. specialize (A (k', s) I). cbn [fst] in A.
  apply key_eqb_differ, A.
Qed.

Lemma pending_outside_aggregate_untouched_witness :
  let '(_, _, saved) :=
    reconcile (SI := insertion_order) a_clock curated_registry curated_stats in
  Permutation (filter (has_id (KStr "Y")) (Registry.pending_review saved))
    [pending "Y" 8].
Proof.
  pose proof (pending_outside_aggregate_untouched insertion_order a_clock
                curated_registry curated_stats (KStr "Y") eq_refl) as H.
  destruct (reconcile a_clock curated_registry curated_stats)
    as [[n pp] saved].
  exact H.
Defined.

Lemma insert_by_count_stable (c : Z) (x : Entry.t) (l : list Entry.t) :
  filter (fun e => Entry.count e =? c) (insert_by_count x l) =
  filter (fun e => Entry.count e =? c) (x :: l).
Proof.
  induction l as [|y l IH]; [reflexivity |].
  cbn [insert_by_count].
  destruct (Entry.count x <? Entry.count y) eqn:L; [| reflexivity].
  apply Z.ltb_lt in L. cbn [filter] in *. rewrite IH.
  destruct (Z.eqb_spec (Entry.count x) c), (Z.eqb_spec (Entry.count y) c);
    try reflexivity. lia.
Qed.

(** X15. The sort of line 137 reorders the list and does nothing else: the
    result is sorted by count descending, it holds the same entries, and
    entries of equal count stay in the order they had. *)
Theorem sort_is_a_stable_reordering :
  forall (l : list Entry.t),
    sorted_by_count_desc (sort_by_count l) /\
    Permutation (sort_by_count l) l /\
    forall c,
      filter (fun e => Entry.count e =? c) (sort_by_count l) =
      filter (fun e => Entry.count e =? c) l.
Proof.
  intro l. split; [apply sort_by_count_sorted |].
  split; [apply sort_by_count_perm |].
  intro c. induction l as [|x l IH]; [reflexivity |].
  cbn [sort_by_count]. rewrite insert_by_count_stable.
  cbn [filter]. rewrite IH. reflexivity.
Qed.

Lemma pending_grows_by_new_count_aux {SI : SetIteration} (clk : clock)
  (registry : Registry.t) (items : pydict Stats.t) :
  let '(new_count, pending_programs, saved) := reconcile clk registry items in
  new_count = Z.of_nat (List.length (filter (unknown registry) items)) /\
  pending_programs = Registry.pending_review saved.
Proof.
  pose proof (reconcile_pending clk registry items) as R. cbv zeta in R.
  pose proof (classify_new_programs clk (existing_programs registry) items
                (mkLoop (Registry.programs registry)
                   (Registry.pending_review registry) [])) as New.
  cbn [new_programs app] in New.
  destruct (reconcile clk registry items) as [[n pp] saved].
  destruct R as [Rn [Rr _]]. split; [| exact Rr].
  rewrite Rn, New, length_map. reflexivity.
Qed.

(** X16. When [.env] and the table have been read, and the registry file
    holds a document that can be rewritten, the process writes the document
    and calls the notifier exactly when some aggregated identifier was not
    known, with the number of those and the pending list it has written;
    when it does not call it, it ends with status 0. *)
Theorem notifier_called_iff_new :
  forall (SI : SetIteration) (post : Request.t -> response) (clk : clock)
         (env_src : env_source) (db : database) (registry : Registry.t)
         (env_vars : env) (program_stats : pydict Stats.t),
    read_env env_src = Some env_vars ->
    extract_from db = Some program_stats ->
    let r := process post clk env_src db (Loaded registry true) in
    exists saved,
      final_written r = Some saved /\
      final_call r =
        (if existsb (unknown registry) program_stats
         then Some (Z.of_nat
                      (List.length (filter (unknown registry) program_stats)),
                    Registry.pending_review saved)
         else None) /\
      (final_call r = None -> final_status r = 0).
Proof.
  intros SI post clk env_src db registry env_vars items He Hd r.
  pose proof (pending_grows_by_new_count_aux clk registry items) as R.
  subst r. unfold process. rewrite He, Hd.
  destruct (reconcile clk registry items) as [[n pp] saved].
  destruct R as [N Rr]. cbn [negb].
  rewrite existsb_filter_length, N, Rr.
  destruct (filter (unknown registry) items) as [|item rest].
  - exists saved. repeat split.
  - change (0 <? Z.of_nat (List.length (item :: rest))) with true.
    cbv iota.
    destruct (send_telegram_notification post
                (Z.of_nat (List.length (item :: rest)))
                (Registry.pending_review saved) env_vars);
      exists saved; cbn [final_written final_call final_status];
      (split; [reflexivity |]); (split; [reflexivity |]); discriminate.
Qed.

(** Two records, both credentials, no network, and a registry that knows
    one of the two programs. *)
Lemma notifier_called_iff_new_witness :
  option_map fst
    (final_call
       (process (SI := insertion_order) no_network a_clock (EnvFile env_lines)
          (Table (map Cell two_programs))
          (Loaded (document [] [pending "P" 1]) true)))
  = Some 1.
Proof.
  destruct (notifier_called_iff_new insertion_order no_network a_clock
              (EnvFile env_lines) (Table (map Cell two_programs))
              (document [] [pending "P" 1]) _ _ eq_refl eq_refl)
    as [saved [_ [C _]]].
  rewrite C. reflexivity.
Defined.

(* ================================================================= *)
(** ** [load_env] *)

Lemma lstrip_head (s : string) : head_is is_space (lstrip s) = false.
Proof.
  induction s as [|c s IH]; simpl; [reflexivity |].
  destruct (is_space c) eqn:E; [exact IH | simpl; exact E].
Qed.

Lemma lstrip_fixed (s : string) : head_is is_space s = false -> lstrip s = s.
Proof. destruct s as [|c s]; simpl; [reflexivity | intros ->; reflexivity]. Qed.

Lemma rstrip_cons (c : ascii) (s : string) :
  is_space c = false -> rstrip (String c s) = String c (rstrip s).
Proof. intro E. simpl. destruct (rstrip s); [rewrite E |]; reflexivity. Qed.

Lemma rstrip_head (s : string) :
  head_is is_space s = false -> head_is is_space (rstrip s) = false.
Proof.
  destruct s as [|c s]; [reflexivity |]. cbn [head_is]. intro E.
  rewrite (rstrip_cons c s E). exact E.
Qed.

Lemma rstrip_idem (s : string) : rstrip (rstrip s) = rstrip s.
Proof.
  induction s as [|c s IH]; [reflexivity |]. cbn [rstrip].
  destruct (rstrip s) as [|c' r] eqn:R.
  - destruct (is_space c) eqn:E; [reflexivity |]. simpl. rewrite E. reflexivity.
  - cbn [rstrip] in *. rewrite IH. reflexivity.
Qed.

Lemma strip_head (s : string) : head_is is_space (strip s) = false.
Proof. apply rstrip_head, lstrip_head. Qed.

Lemma strip_idem (s : string) : strip (strip s) = strip s.
Proof.
  unfold strip at 1. rewrite (lstrip_fixed _ (strip_head s)).
  unfold strip. apply rstrip_idem.
Qed.

Lemma stripped_rstrip (v : string) : strip v = v -> rstrip v = v.
Proof. intro H. rewrite <- H at 1. unfold strip. rewrite rstrip_idem. exact H. Qed.

Lemma split_once_before (c : ascii) (s : string) :
  has_char c (fst (split_once c s)) = false.
Proof.
  induction s as [|a s IH]; [reflexivity |]. cbn [split_once].
  destruct (Ascii.eqb a c) eqn:E; [reflexivity |].
  destruct (split_once c s) as [k v]. cbn [fst has_char] in *.
  rewrite E, IH. reflexivity.
Qed.

Lemma split_once_head (p : ascii -> bool) (c : ascii) (s : string) :
  head_is p s = false -> head_is p (fst (split_once c s)) = false.
Proof.
  destruct s as [|a s]; [reflexivity |]. cbn [split_once head_is]. intro E.
  destruct (Ascii.eqb a c); [reflexivity |].
  destruct (split_once c s) as [k v]. exact E.
Qed.

Lemma split_once_append (c : ascii) (k v : string) :
  has_char c k = false ->
  split_once c (k ++ String c v)%string = (k, v).
Proof.
  induction k as [|a k IH]; cbn [String.append split_once has_char].
  - intros _. rewrite Ascii.eqb_refl. reflexivity.
  - intro H. apply orb_false_iff in H. destruct H as [E H].
    rewrite E, (IH H). reflexivity.
Qed.

(** What a line assigns is well formed. *)
Lemma assignment_well_formed (line key value : string) :
  assignment line = Some (key, value) ->
  has_char "=" key = false /\ starts_with "#" key = false /\
  head_is is_space key = false /\ strip value = value.
Proof.
  unfold assignment.
  destruct (negb (String.eqb (strip line) EmptyString)); [| discriminate].
  destruct (negb (starts_with "#" (strip line))) eqn:Hash; [| discriminate].
  destruct (has_char "=" (strip line)); [| discriminate].
  cbn [andb].
  pose proof (split_once_before "=" (strip line)) as B.
  pose proof (split_once_head is_space "=" (strip line) (strip_head line)) as S.
  pose proof (split_once_head (fun a => Ascii.eqb a "#") "=" (strip line)) as C.
  destruct (split_once "=" (strip line)) as [k v]. cbn [fst] in *.
  intro H. inversion H; subst.
  split; [exact B |]. split; [| split; [exact S | apply strip_idem]].
  apply C. apply negb_true_iff in Hash. exact Hash.
Qed.

Lemma env_get_set (k k' v : string) (e : env) :
  env_get k (env_set k' v e) =
  if String.eqb k' k then Some v else env_get k e.
Proof.
  induction e as [|[k0 v0] e IH]; simpl; [reflexivity |].
  destruct (String.eqb k0 k') eqn:E0; simpl.
  - apply String.eqb_eq in E0. subst k0.
    destruct (String.eqb k' k); reflexivity.
  - rewrite IH. destruct (String.eqb k0 k) eqn:E1; [| reflexivity].
    apply String.eqb_eq in E1. subst k0.
    rewrite String.eqb_sym, E0. reflexivity.
Qed.

Lemma env_get_in (k v : string) (e : env) :
  env_get k e = Some v -> In (k, v) e.
Proof.
  induction e as [|[k0 v0] e IH]; simpl; [discriminate |].
  destruct (String.eqb k0 k) eqn:E.
  - apply String.eqb_eq in E. intro H. inversion H; subst. left. reflexivity.
  - intro H. right. apply IH, H.
Qed.

Lemma env_set_forall (P : string * string -> Prop) (k v : string) (e : env) :
  P (k, v) -> Forall P e -> Forall P (env_set k v e).
Proof.
  intros Pk F. induction e as [|[k0 v0] e IH]; simpl.
  - constructor; [exact Pk | constructor].
  - inversion F as [|? ? P0 F']; subst.
    destruct (String.eqb k0 k) eqn:E.
    + apply String.eqb_eq in E. subst k0. constructor; assumption.
    + constructor; [exact P0 | apply IH, F'].
Qed.

(** X17. Whatever the file holds, a key of the loaded environment contains
    no ['='], does not begin with ['#'] or with whitespace, and its value
    has no whitespace at either end. *)
Theorem loaded_environment_is_well_formed :
  forall (file : option (list string)) (key value : string),
    env_get key (load_env file) = Some value ->
    has_char "=" key = false /\ starts_with "#" key = false /\
    head_is is_space key = false /\ strip value = value.
Proof.
  intros file key value G. apply env_get_in in G.
  assert (F : Forall (fun kv => has_char "=" (fst kv) = false /\
                                starts_with "#" (fst kv) = false /\
                                head_is is_space (fst kv) = false /\
                                strip (snd kv) = snd kv) (load_env file)).
  { clear G. destruct file as [lines|]; [| constructor]. unfold load_env.
    assert (Start : Forall (fun kv : string * string =>
                      has_char "=" (fst kv) = false /\
                      starts_with "#" (fst kv) = false /\
                      head_is is_space (fst kv) = false /\
                      strip (snd kv) = snd kv) []) by constructor.
    revert Start. generalize (@nil (string * string)).
    induction lines as [|line lines IH]; intros e F; [exact F |].
    cbn [fold_left]. apply IH. unfold load_line.
    destruct (assignment line) as [[k v]|] eqn:A; [| exact F].
    apply env_set_forall; [| exact F].
    exact (assignment_well_formed line k v A). }
  rewrite Forall_forall in F. exact (F (key, value) G).
Qed.

Lemma loaded_environment_is_well_formed_witness :
  env_get "TELEGRAM_BOT_TOKEN" (load_env (Some env_lines)) = Some "123:abc" /\
  strip "123:abc" = "123:abc".
Proof.
  split; [reflexivity |].
  exact (proj2 (proj2 (proj2
    (loaded_environment_is_well_formed (Some env_lines) "TELEGRAM_BOT_TOKEN"
       "123:abc" eq_refl)))).
Defined.

(** X18. A line that assigns a key overrides what earlier lines gave that
    key and leaves every other key alone; a line that assigns nothing, a
    blank line or a comment, changes nothing.  Without the file the
    environment is empty. *)
Theorem later_lines_override :
  forall (lines : list string) (line key : string),
    env_get key (load_env (Some (lines ++ [line]))) =
      match assignment line with
      | Some (k, v) =>
          if String.eqb k key then Some v
          else env_get key (load_env (Some lines))
      | None => env_get key (load_env (Some lines))
      end
    /\ env_get key (load_env None) = None.
Proof.
  intros lines line key. split; [| reflexivity].
  unfold load_env. rewrite fold_left_app. cbn [fold_left].
  unfold load_line at 1.
  destruct (assignment line) as [[k v]|]; [| reflexivity].
  apply env_get_set.
Qed.

Lemma lstrip_app_spaces (w s : string) :
  all_chars is_space w = true -> lstrip (w ++ s)%string = lstrip s.
Proof.
  induction w as [|c w IH]; cbn [String.append all_chars lstrip];
    [reflexivity |].
  intro H. apply andb_true_iff in H. destruct H as [E H].
  rewrite E. apply IH, H.
Qed.

Lemma rstrip_spaces (w : string) :
  all_chars is_space w = true -> rstrip w = EmptyString.
Proof.
  induction w as [|c w IH]; cbn [all_chars rstrip]; [reflexivity |].
  intro H. apply andb_true_iff in H. destruct H as [E H].
  rewrite (IH H), E. reflexivity.
Qed.

Lemma rstrip_app_spaces (s w : string) :
  all_chars is_space w = true -> rstrip (s ++ w)%string = rstrip s.
Proof.
  intro H. induction s as [|c s IH]; cbn [String.append rstrip].
  - apply rstrip_spaces, H.
  - rewrite IH. reflexivity.
Qed.

Lemma rstrip_app_keep (a b : string) :
  rstrip b <> EmptyString -> rstrip (a ++ b)%string = (a ++ rstrip b)%string.
Proof.
  intro H. induction a as [|c a IH]; cbn [String.append rstrip];
    [reflexivity |].
  rewrite IH. destruct (a ++ rstrip b)%string as [|c' r] eqn:E; [| reflexivity].
  exfalso. apply H. destruct a; [exact E | discriminate].
Qed.

(** X19. A line made of a key, ['='] and a value, with whitespace around it
    if any, assigns the value to the key, as long as the key holds no
    ['='], does not begin with ['#'] or with whitespace, and the value has
    no whitespace at either end.  The key is taken as it stands: whitespace
    before the ['='] is part of it. *)
Theorem assignment_of_key_value_line :
  forall (w0 key value w1 : string),
    all_chars is_space w0 = true -> all_chars is_space w1 = true ->
    has_char "=" key = false -> starts_with "#" key = false ->
    head_is is_space key = false -> strip value = value ->
    assignment (w0 ++ key ++ String "=" (value ++ w1))%string =
    Some (key, value).
Proof.
  intros w0 key value w1 W0 W1 Hk Hh Hs Hv.
  assert (L : strip (w0 ++ key ++ String "=" (value ++ w1))%string =
              (key ++ String "=" value)%string).
  { unfold strip. rewrite (lstrip_app_spaces _ _ W0).
    rewrite lstrip_fixed.
    - rewrite rstrip_app_keep.
      + rewrite (rstrip_cons "=" _ eq_refl), (rstrip_app_spaces _ _ W1).
        rewrite (stripped_rstrip value Hv). reflexivity.
      + rewrite (rstrip_cons "=" _ eq_refl). discriminate.
    - destruct key; [reflexivity | exact Hs]. }
  unfold assignment. rewrite L.
  assert (N : String.eqb (key ++ String "=" value)%string EmptyString = false)
    by (destruct key; reflexivity).
  assert (C : starts_with "#" (key ++ String "=" value)%string = false)
    by (destruct key; [reflexivity | exact Hh]).
  assert (E : has_char "=" (key ++ String "=" value)%string = true).
  { clear - key. induction key as [|c k IH]; cbn [String.append has_char].
    - reflexivity.
    - rewrite IH. apply orb_true_r. }
  rewrite N, C, E. cbn [negb andb].
  rewrite (split_once_append "=" key value Hk), Hv. reflexivity.
Qed.

(** Blanks around the line and before the ['=']. *)
Lemma assignment_of_key_value_line_witness :
  assignment (String.append "  TELEGRAM_CHAT_ID =-1001" newline) =
  Some ("TELEGRAM_CHAT_ID ", "-1001").
Proof.
  exact (assignment_of_key_value_line "  " "TELEGRAM_CHAT_ID " "-1001" newline
           eq_refl eq_refl eq_refl eq_refl eq_refl eq_refl).
Defined.

(* ================================================================= *)
(** ** [send_telegram_notification] *)


(* ================================================================= *)
(** ** The thousands separator of line 171 *)

Example thousands_grouped :
  format_thousands 1234567 = "1,234,567" /\ format_thousands (-1000) = "-1,000"
  /\ format_thousands 999 = "999" /\ format_thousands 0 = "0".
Proof. repeat split. Qed.

Lemma group_thousands_digits (s : string) :
  has_char "," s = false -> without_commas (group_thousands s) = s.
Proof.
  induction s as [|d s IH]; cbn [has_char group_thousands without_commas];
    [reflexivity |].
  intro H. apply orb_false_iff in H. destruct H as [Hd Hs].
  rewrite Hd.
  destruct ((0 <? String.length s) && (String.length s mod 3 =? 0))%nat;
    cbn [without_commas Ascii.eqb Bool.eqb]; rewrite (IH Hs); reflexivity.
Qed.

Lemma string_of_uint_no_comma (d : Decimal.uint) :
  has_char "," (NilZero.string_of_uint d) = false.
Proof.
  assert (E : has_char "," (NilEmpty.string_of_uint d) = false)
    by (induction d; cbn; trivial).
  destruct d; exact E.
Qed.

(** The separator changes nothing but the commas: without them the text
    is [str(count)]. *)
Lemma format_thousands_digits (z : Z) :
  without_commas (format_thousands z) = str_of_Z z.
Proof.
  unfold format_thousands, str_of_Z.
  destruct (Z.to_int z) as [d | d]; cbn [NilZero.string_of_int without_commas];
    cbn [Ascii.eqb Bool.eqb];
    rewrite (group_thousands_digits _ (string_of_uint_no_comma d)); reflexivity.
Qed.

Lemma program_line_cases (i : nat) (p : Entry.t) :
  (string_id p = false /\ program_line i p = Raise TypeError) \/
  (string_id p = true /\ exists line, program_line i p = Ok line).
Proof.
  unfold string_id, program_line.
  destruct (Entry.programId p); [left | left | left | right]; split;
    try reflexivity.
  eexists. reflexivity.
Qed.

Lemma program_lines_cases (i : nat) (progs : list Entry.t) :
  (forallb string_id progs = false /\ program_lines i progs = Raise TypeError)
  \/ (forallb string_id progs = true /\
      exists lines, program_lines i progs = Ok lines).
Proof.
  revert i. induction progs as [|p rest IH]; intro i;
    cbn [program_lines forallb].
  - right. split; [reflexivity | eexists; reflexivity].
  - destruct (program_line_cases i p) as [[Sp L] | [Sp [line L]]];
      rewrite Sp, L; cbn [bind andb].
    + left. split; reflexivity.
    + destruct (IH (S i)) as [[F R] | [F [lines R]]]; rewrite F, R; cbn [bind].
      * left. split; reflexivity.
      * right. split; [reflexivity | eexists; reflexivity].
Qed.

(** X20. The list of lines 166-171 is built in full or not at all.  When
    every entry has a string for identifier there is one line per entry, in
    the order of the entries, and the line of the entry at position [j]
    carries the rank [i + j], [i] being the rank [enumerate] starts at; when
    some entry has another identifier, [pid[:8]] raises [TypeError]. *)
Theorem program_lines_numbered :
  forall (i : nat) (progs : list Entry.t),
    match program_lines i progs with
    | Ok lines =>
        forallb string_id progs = true /\
        List.length lines = List.length progs /\
        forall (j : nat) (p : Entry.t),
          nth_error progs j = Some p ->
          exists line,
            nth_error lines j = Some line /\
            program_line (i + j) p = Ok line
    | Raise e => e = TypeError /\ forallb string_id progs = false
    end.
Proof.
  intros i progs. revert i.
  induction progs as [|p rest IH]; intro i; cbn [program_lines forallb].
  - split; [reflexivity |]. split; [reflexivity |].
    intros [|j] q H; discriminate.
  - destruct (program_line_cases i p) as [[Sp L] | [Sp [line L]]];
      rewrite Sp, L; cbn [bind andb].
    + split; reflexivity.
    + specialize (IH (S i)).
      destruct (program_lines (S i) rest) as [lines | e]; cbn [bind].
      * destruct IH as [F [Len Nth]].
        split; [exact F |]. split; [cbn [List.length]; rewrite Len; reflexivity |].
        intros [|j] q H; cbn [nth_error] in *.
        -- inversion H; subst q. exists line. rewrite Nat.add_0_r.
           split; [reflexivity | exact L].
        -- destruct (Nth j q H) as [l [Hl Hp]]. exists l.
           rewrite Nat.add_succ_r. split; assumption.
      * exact IH.
Qed.

(** Two entries, ranked from 1: the second line carries rank 2. *)
Lemma program_lines_numbered_witness :
  exists lines,
    program_lines 1 [pending "Abcdefghij" 9; pending "B" 1234] = Ok lines /\
    nth_error lines 1 =
      Some "2. [B...](https://solscan.io/account/B) - 1,234 txs".
Proof.
  pose proof (program_lines_numbered 1
                [pending "Abcdefghij" 9; pending "B" 1234]) as H.
  destruct (program_lines 1 [pending "Abcdefghij" 9; pending "B" 1234])
    as [lines | e]; [| destruct H as [_ H]; discriminate H].
  destruct H as [_ [_ H]].
  destruct (H 1%nat (pending "B" 1234) eq_refl) as [line [Hl Hp]].
  exists lines. split; [reflexivity |].
  rewrite Hl. vm_compute in Hp. inversion Hp. reflexivity.
Defined.

Lemma notifier_cases (post : Request.t -> response) (new_count : Z)
  (pending_programs : list Entry.t) (env_vars : env) :
  match send_telegram_notification post new_count pending_programs env_vars with
  | Raise e =>
      e = TypeError /\ credentials env_vars = true /\
      forallb string_id (firstn 20 pending_programs) = false
  | Ok CredentialsNotFound => credentials env_vars = false
  | Ok n =>
      credentials env_vars = true /\
      forallb string_id (firstn 20 pending_programs) = true /\
      exists req, request_of n = Some req /\ n = notice_for req (post req)
  end.
Proof.
  unfold send_telegram_notification, credentials.
  destruct (unset "TELEGRAM_BOT_TOKEN" env_vars
            || unset "TELEGRAM_CHAT_ID" env_vars); [reflexivity |].
  destruct (program_lines_cases 1 (firstn 20 pending_programs))
    as [[F R] | [F [lines R]]]; rewrite R; cbn [bind].
  - repeat split. exact F.
  - match goal with
    | |- context [post ?r] => set (req := r)
    end.
    destruct (post req) eqn:P; (split; [reflexivity |]); (split; [exact F |]);
      exists req; cbn [request_of notice_for]; rewrite ?P; split; reflexivity.
Qed.

(** X21. The notifier raises in one case only: both credentials are set and
    one of the first twenty pending entries has an identifier that is not a
    string; the exception is [TypeError], and entries past the twentieth
    never matter.  Without a credential, missing or empty, it returns
    before it looks at any entry.  Otherwise it returns whatever
    [requests.post] does, a failure of the transport included: the request
    goes to the address built from the token, with the chat id of the
    environment, as Markdown and without preview, and the line printed is
    the one for what [requests.post] did. *)
Theorem notifier_outcome :
  forall (post : Request.t -> response) (new_count : Z)
         (pending_programs : list Entry.t) (env_vars : env),
    match
      send_telegram_notification post new_count pending_programs env_vars
    with
    | Raise e =>
        e = TypeError /\ credentials env_vars = true /\
        forallb string_id (firstn 20 pending_programs) = false
    | Ok CredentialsNotFound => credentials env_vars = false
    | Ok n =>
        credentials env_vars = true /\
        forallb string_id (firstn 20 pending_programs) = true /\
        exists req token chat,
          env_get "TELEGRAM_BOT_TOKEN" env_vars = Some token /\
          token <> EmptyString /\
          env_get "TELEGRAM_CHAT_ID" env_vars = Some chat /\
          chat <> EmptyString /\
          Request.url req =
            String.append "https://api.telegram.org/bot"
              (String.append token "/sendMessage") /\
          Request.chat_id req = chat /\
          Request.parse_mode req = "Markdown" /\
          Request.disable_web_page_preview req = true /\
          n = notice_for req (post req)
    end.
Proof.
  intros post new_count pending_programs env_vars.
  unfold send_telegram_notification, credentials, unset, value_of.
  destruct (env_get "TELEGRAM_BOT_TOKEN" env_vars) as [token|];
    [| reflexivity].
  destruct (String.eqb_spec token EmptyString) as [|Tk]; [reflexivity |].
  destruct (env_get "TELEGRAM_CHAT_ID" env_vars) as [chat|]; [| reflexivity].
  destruct (String.eqb_spec chat EmptyString) as [|Ch]; [reflexivity |].
  cbn [orb negb].
  destruct (program_lines_cases 1 (firstn 20 pending_programs))
    as [[F R] | [F [lines R]]]; rewrite R; cbn [bind].
  - repeat split. exact F.
  - match goal with
    | |- context [post ?r] => set (req := r)
    end.
    assert (Q : exists token' chat',
               Some token = Some token' /\ token' <> EmptyString /\
               Some chat = Some chat' /\ chat' <> EmptyString /\
               Request.url req =
                 String.append "https://api.telegram.org/bot"
                   (String.append token' "/sendMessage") /\
               Request.chat_id req = chat' /\
               Request.parse_mode req = "Markdown" /\
               Request.disable_web_page_preview req = true).
    { exists token, chat. repeat split; assumption. }
    destruct Q as [token' [chat' Q]].
    destruct (post req) eqn:P; (split; [reflexivity |]); (split; [exact F |]);
      exists req, token', chat'; rewrite ?P; cbn [notice_for];
      repeat split; apply Q.
Qed.

(* ================================================================= *)
(** ** The whole of [main] *)

Lemma record_stream_keys_are_strings {SI : SetIteration} (rows : list row) :
  record_stream rows ->
  Forall (fun item => exists s, fst item = KStr s)
    (extract_programs_from_db rows).
Proof.
  intro H. apply Forall_forall. intros [k v] I. cbn [fst].
  pose proof (dict_get_in k v _ (extract_distinct_keys rows) I) as G.
  pose proof (scan_summary rows k H) as Sm. rewrite G in Sm.
  destruct Sm as (_ & _ & _ & [r [Ir Rr]] & _).
  unfold record_stream in H. rewrite Forall_forall in H.
  rewrite (references_mentions k r (H r Ir)) in Rr.
  apply Nat.ltb_lt in Rr. unfold mentions in Rr.
  destruct (filter (instruction_names k) (record_instructions r))
    as [|ix l] eqn:F; [cbn in Rr; lia |].
  assert (N : In ix (filter (instruction_names k) (record_instructions r)))
    by (rewrite F; left; reflexivity).
  apply filter_In in N. destruct N as [_ N].
  unfold instruction_names in N.
  destruct ix as [| | | | |m]; try discriminate.
  destruct (obj_get "programId" m) as [[| | |s| |]|]; try discriminate.
  key_facts. destruct k as [|b|z|t]; cbn in N; try discriminate.
  exists t. reflexivity.
Qed.

Lemma forallb_firstn {A} (f : A -> bool) (n : nat) (l : list A) :
  forallb f l = true -> forallb f (firstn n l) = true.
Proof.
  revert l. induction n as [|n IH]; intros [|x l]; cbn [firstn forallb];
    try reflexivity.
  intro H. apply andb_true_iff in H. destruct H as [Hx Hl].
  rewrite Hx. apply IH, Hl.
Qed.

Lemma string_id_same_ids (l l' : list Entry.t) :
  map Entry.programId l = map Entry.programId l' ->
  forallb string_id l = forallb string_id l'.
Proof.
  revert l'. induction l as [|p l IH]; intros [|p' l'] E; cbn in *;
    try discriminate; [reflexivity |].
  inversion E as [[Ep El]]. unfold string_id at 1 3. rewrite Ep, (IH l' El).
  reflexivity.
Qed.

Lemma reconcile_string_ids {SI : SetIteration} (clk : clock)
  (registry : Registry.t) (items : pydict Stats.t) :
  Forall (fun item => exists s, fst item = KStr s) items ->
  forallb string_id (Registry.pending_review registry) = true ->
  let '(_, pending_programs, saved) := reconcile clk registry items in
  forallb string_id pending_programs = true /\
  forallb string_id (Registry.pending_review saved) = true.
Proof.
  intros K P.
  pose proof (reconcile_pending clk registry items) as R. cbv zeta in R.
  pose proof (classify_new_programs clk (existing_programs registry) items
                (mkLoop (Registry.programs registry)
                   (Registry.pending_review registry) [])) as New.
  cbn [new_programs app] in New.
  destruct (classify_frame clk (existing_programs registry) items
              (mkLoop (Registry.programs registry)
                 (Registry.pending_review registry) [])) as [Ids _].
  cbn [loop_pending] in Ids.
  destruct (reconcile clk registry items) as [[n pp] saved].
  destruct R as [_ [Rr [_ [Perm _]]]].
  assert (G : forallb string_id (Registry.pending_review saved) = true).
  { apply forallb_forall. intros e I.
    apply (Permutation_in _ Perm) in I. apply in_app_or in I.
    destruct I as [I | I].
    - rewrite <- (string_id_same_ids _ _ Ids) in P.
      exact (proj1 (forallb_forall _ _) P e I).
    - rewrite New in I. apply in_map_iff in I.
      destruct I as [[k s] [E I]]. apply filter_In in I. destruct I as [I _].
      rewrite Forall_forall in K. destruct (K _ I) as [t Kt].
      cbn [fst snd] in *. subst e k. reflexivity. }
  rewrite Rr. split; exact G.
Qed.

Lemma read_env_readable (env_src : env_source) :
  env_src <> EnvUnreadable -> exists env_vars, read_env env_src = Some env_vars.
Proof.
  destruct env_src; intro H; [eexists; reflexivity .. | contradiction].
Qed.

(** X22. The document is written exactly when [.env] is absent or read,
    the table is read to its end, and the registry file holds a document
    and can be rewritten; it is written before the notifier runs, and
    whatever the notifier does.  When the document is not written the
    status is 1 and the notifier is not called.  When it is written the
    status is 1 in one case only: the notifier is called, finds both
    credentials, and one of the first twenty pending entries has an
    identifier that is not a string.  Otherwise the status is 0, whatever
    the network does. *)
Theorem document_and_exit_status :
  forall (SI : SetIteration) (post : Request.t -> response) (clk : clock)
         (env_src : env_source) (db : database) (reg : registry_source),
    let r := process post clk env_src db reg in
    match read_env env_src, extract_from db, reg with
    | Some env_vars, Some program_stats, Loaded registry true =>
        let '(new_count, pending_programs, saved) :=
          reconcile clk registry program_stats in
        final_written r = Some saved /\
        final_status r =
          if (0 <? new_count) && credentials env_vars &&
             negb (forallb string_id (firstn 20 pending_programs))
          then 1 else 0
    | _, _, _ =>
        final_written r = None /\ final_status r = 1 /\ final_call r = None
    end.
Proof.
  intros SI post clk env_src db reg r. subst r. unfold process.
  destruct (read_env env_src) as [env_vars|]; [| repeat split].
  destruct (extract_from db) as [items|]; [| repeat split].
  destruct reg as [| |registry [|]]; [repeat split | repeat split | |].
  - destruct (reconcile clk registry items) as [[n pp] saved].
    cbn [negb]. destruct (0 <? n); cbn [andb].
    + pose proof (notifier_cases post n pp env_vars) as C.
      destruct (send_telegram_notification post n pp env_vars) as [nt | e];
        cbn [final_written final_status]; (split; [reflexivity |]).
      * destruct nt; [rewrite C; reflexivity | | |];
          destruct C as [_ [F _]]; rewrite F, andb_false_r; reflexivity.
      * destruct C as [_ [C F]]. rewrite C, F. reflexivity.
    + split; reflexivity.
  - destruct (reconcile clk registry items) as [[n pp] saved].
    repeat split.
Qed.

(** Two records, both credentials in [.env], and a registry whose pending
    entry has a number for identifier: the document is written, then the
    notifier raises. *)
Lemma document_and_exit_status_witness :
  let r := process (SI := insertion_order) no_network a_clock
             (EnvFile env_lines) (Table (map Cell two_programs))
             (Loaded numbered_registry true) in
  final_status r = 1 /\ final_written r <> None.
Proof.
  pose proof (document_and_exit_status insertion_order no_network a_clock
                (EnvFile env_lines) (Table (map Cell two_programs))
                (Loaded numbered_registry true)) as H.
  cbv zeta in H.
  change (read_env (EnvFile env_lines))
    with (Some (load_env (Some env_lines))) in H.
  change (extract_from (SI := insertion_order) (Table (map Cell two_programs)))
    with (Some (extract_programs_from_db (SI := insertion_order) two_programs))
    in H.
  cbv iota in H.
  destruct (reconcile (SI := insertion_order) a_clock numbered_registry
              (extract_programs_from_db (SI := insertion_order) two_programs))
    as [[n pp] saved] eqn:R.
  destruct H as [W St]. split.
  - rewrite St. vm_compute in R. inversion R. reflexivity.
  - rewrite W. discriminate.
Defined.

(** X23. When [.env] is absent or can be read, every step of the cursor
    yields a row that holds a transaction record, and the registry file
    holds a document that can be rewritten and whose pending entries all
    have a string for identifier, the process ends with status 0 and the
    document written, whatever the lines of [.env] are and whatever the
    network does; the pending entries of the written document again all
    have a string for identifier. *)
Theorem run_on_records_exits_zero :
  forall (SI : SetIteration) (post : Request.t -> response) (clk : clock)
         (env_src : env_source) (cells : list cell) (rows : list row)
         (registry : Registry.t),
    env_src <> EnvUnreadable ->
    fetched cells = Some rows ->
    record_stream rows ->
    forallb string_id (Registry.pending_review registry) = true ->
    let r := process post clk env_src (Table cells) (Loaded registry true) in
    final_status r = 0 /\
    exists saved,
      final_written r = Some saved /\
      forallb string_id (Registry.pending_review saved) = true.
Proof.
  intros SI post clk env_src cells rows registry He Hf H P r. subst r.
  destruct (read_env_readable env_src He) as [env_vars Ev].
  pose proof (reconcile_string_ids clk registry _
                (record_stream_keys_are_strings rows H) P) as G.
  unfold process. rewrite Ev, (extract_from_fetched cells rows Hf).
  destruct (reconcile clk registry (extract_programs_from_db rows))
    as [[n pp] saved].
  destruct G as [Gp Gs]. cbn [negb].
  destruct (0 <? n).
  - pose proof (notifier_cases post n pp env_vars) as C.
    destruct (send_telegram_notification post n pp env_vars)
      as [nt | e]; cbn [final_written final_status].
    + split; [reflexivity |]. exists saved. split; [reflexivity | exact Gs].
    + destruct C as [_ [_ F]].
      rewrite (forallb_firstn string_id 20 pp Gp) in F. discriminate.
  - cbn [final_written final_status].
    split; [reflexivity |]. exists saved. split; [reflexivity | exact Gs].
Qed.

(** Two records, a registry that knows one of the two programs, both
    credentials in [.env], and no network. *)
Lemma run_on_records_exits_zero_witness :
  final_status
    (process (SI := insertion_order) no_network a_clock (EnvFile env_lines)
       (Table (map Cell two_programs))
       (Loaded (document [] [pending "P" 1]) true))
  = 0.
Proof.
  assert (H : record_stream two_programs)
    by (repeat apply Forall_cons; try apply Forall_nil; reflexivity).
  assert (E : EnvFile env_lines <> EnvUnreadable) by discriminate.
  exact (proj1 (run_on_records_exits_zero insertion_order no_network a_clock
                  (EnvFile env_lines) (map Cell two_programs) two_programs
                  (document [] [pending "P" 1]) E eq_refl H eq_refl)).
Defined.
